(** * Reconciliation core of the stage screens (Pintura, Chasis, Premontaje, Montaje)

    A shallow embedding of the four Angular stage components
    ([pintura.ts], the Chasis component, the Premontaje component and the
    Montaje component) and of the part of [TareasService] they call.

    - A JavaScript string is the list of its UTF-16 code units.
    - Signals and private fields of a component are the fields of a [State]
      record; a handler is a function from the state to the new state and the
      list of effects it issues, in program order.
    - An HTTP call is an effect that carries the tag of the callback pair
      passed to [subscribe]; the arrival of the response is a separate event
      that runs the [next] or the [error] callback on the state of that moment.
    - Built-ins of the host whose result depends on the Unicode tables
      ([toUpperCase], [toLowerCase], [normalize], [localeCompare], [parseInt])
      are fields of the class [Host].
    - The daily counter is a JavaScript number, an IEEE 754 binary64 value
      ([spec_float] at precision 53), and [+] on it is the rounded sum. *)

From Stdlib Require Import ZArith NArith Lia String Ascii.
From Stdlib Require Import SpecFloat.
From stdpp Require Import base option list gmap sorting.

Local Open Scope Z_scope.

(** ** JavaScript strings *)

(** A string is its sequence of UTF-16 code units. *)
Definition jsstring := list N.

(** Code units of a literal written in Basic Latin. *)
Definition js (s : string) : jsstring :=
  List.map N_of_ascii (list_ascii_of_string s).

Definition inRange (lo hi c : N) : bool := ((lo <=? c) && (c <=? hi))%N.

(** The character class [A-Z]. *)
Definition isUpperAZ (c : N) : bool := inRange 65 90 c.
(** The character class [a-z]. *)
Definition isLowerAZ (c : N) : bool := inRange 97 122 c.
(** The character class [0-9], which is also [\d]. *)
Definition isDigit (c : N) : bool := inRange 48 57 c.
(** The character class [A-Z0-9]. *)
Definition isAZ09 (c : N) : bool := isUpperAZ c || isDigit c.
(** The character class [a-z0-9]. *)
Definition isaz09 (c : N) : bool := isLowerAZ c || isDigit c.
(** Code units of the Basic Latin block. *)
Definition isBasicLatin (c : N) : bool := (c <? 128)%N.

(** White space and line terminators: what [trim] strips and [\s] matches. *)
Definition isWhiteSpace (c : N) : bool :=
  inRange 9 13 c || (c =? 32)%N || (c =? 160)%N || (c =? 5760)%N
  || inRange 8192 8202 c || (c =? 8232)%N || (c =? 8233)%N
  || (c =? 8239)%N || (c =? 8287)%N || (c =? 12288)%N || (c =? 65279)%N.

Fixpoint dropWhile {A} (p : A -> bool) (l : list A) : list A :=
  match l with
  | [] => []
  | x :: t => if p x then dropWhile p t else l
  end.

Fixpoint takeWhile {A} (p : A -> bool) (l : list A) : list A :=
  match l with
  | [] => []
  | x :: t => if p x then x :: takeWhile p t else []
  end.

(** [String.prototype.trim]. *)
Definition trim (s : jsstring) : jsstring :=
  rev (dropWhile isWhiteSpace (rev (dropWhile isWhiteSpace s))).

(** Truthiness of a string: the empty string is the only falsy one. *)
Definition truthyStr (s : jsstring) : bool :=
  match s with [] => false | _ => true end.

(** [s || d] on strings. *)
Definition orStr (s d : jsstring) : jsstring := if truthyStr s then s else d.

(** [(o || '')] for a value of type [string | null | undefined]. *)
Definition orEmpty (o : option jsstring) : jsstring := default [] o.

(** Truthiness of a number (identifiers are integers; [0] is falsy). *)
Definition truthyNum (n : Z) : bool := negb (n =? 0).

(** ** The daily counter *)

(** A JavaScript number: a binary64 value, of precision 53 and of exponents
    below 1024, with its zeros, infinities and NaN. *)
Definition jsnum := spec_float.

(** [x + y] on numbers: the exact sum rounded to the nearest number, ties to
    the even mantissa. *)
Definition jsAdd (x y : jsnum) : jsnum := SFadd 53 1024 x y.

(** The number nearest to the integer [n]. An integer written where a number
    is expected stands for this number. *)
Definition jsOfZ (n : Z) : jsnum := binary_normalize 53 1024 n 0 false.
Coercion jsOfZ : Z >-> jsnum.

(** The integer that a number is, when it is one. *)
Definition jsToZ (x : jsnum) : option Z :=
  match x with
  | S754_zero _ => Some 0
  | S754_finite s m e =>
      if 0 <=? e then Some (cond_Zopp s (Z.pos m * 2 ^ e))
      else if Z.pos m mod 2 ^ (- e) =? 0 then Some (cond_Zopp s (Z.pos m / 2 ^ (- e)))
      else None
  | _ => None
  end.

(** [getCountKey(email, date)], the template
    [`count_${email}_${date}_${this.MODULE_KEY}`]. Every caller leaves the
    defaults: [email] is [getCurrentUserEmail()], read from the session
    storage, and [date] is [getToday()], the UTC day of the clock, both at
    the moment of the call. *)
Definition getCountKey (moduleKey email date : jsstring) : jsstring :=
  js "count_" ++ email ++ js "_" ++ date ++ js "_" ++ moduleKey.

(** Truthiness of a value of type [number | null | undefined]. *)
Definition truthyId (o : option Z) : bool :=
  match o with Some n => truthyNum n | None => false end.

(** The upper-case mapping on Basic Latin: [a-z] to [A-Z], the rest fixed. *)
Definition upperLatin (c : N) : N := if isLowerAZ c then (c - 32)%N else c.
(** The lower-case mapping on Basic Latin. *)
Definition lowerLatin (c : N) : N := if isUpperAZ c then (c + 32)%N else c.

(** ** The host *)

(** Built-ins whose results come from the Unicode tables of the engine. *)
Class Host := {
  (** [String.prototype.toUpperCase] *)
  toUpperCase : jsstring -> jsstring;
  (** [String.prototype.toLowerCase] *)
  toLowerCase : jsstring -> jsstring;
  (** [String.prototype.normalize('NFD')] *)
  normalizeNFD : jsstring -> jsstring;
  (** [a.localeCompare(b, 'es', { sensitivity: 'base' })] *)
  localeCompareEs : jsstring -> jsstring -> Z;
  (** [parseInt(digits, 10)] on a non-empty run of decimal digits: the
      integer the resulting double stands for, [None] when it is [Infinity]. *)
  parseIntDigits : jsstring -> option Z
}.

(** What the proofs use of the host: on a string of Basic Latin code units
    [toUpperCase] is the code-unit-wise Basic Latin mapping. *)
Class HostLaws (H : Host) : Prop := {
  toUpperCase_basic_latin :
    forall s, forallb isBasicLatin s = true -> toUpperCase s = List.map upperLatin s
}.

(** A host that treats every code unit as Basic Latin does: it agrees with an
    ECMAScript engine on every string made of Basic Latin code units. *)
Definition digitsValue (s : jsstring) : Z :=
  fold_left (fun acc c => acc * 10 + (Z.of_N c - 48)) s 0.

Definition latinHost : Host := {|
  toUpperCase := List.map upperLatin;
  toLowerCase := List.map lowerLatin;
  normalizeNFD := fun s => s;
  localeCompareEs := fun a b =>
    match list_compare N.compare (List.map lowerLatin a) (List.map lowerLatin b) with
    | Lt => -1 | Eq => 0 | Gt => 1
    end;
  parseIntDigits := fun s => Some (digitsValue s)
|}.

(** ** Data shared by the four screens *)

(** [type Task = { label: string; done: boolean }] *)
Record Task := mkTask { label : jsstring; done : bool }.

(** [type Section = { name: string; tasks: Task[] }] *)
Record Section := mkSection { name : jsstring; tasks : list Task }.

(** [type Proceso = 'pintura' | 'chasis' | 'premontaje' | 'montaje'] *)
Inductive Proceso := pintura | chasis | premontaje | montaje.

(** The fields of [TareaCatalogo] that the screens read. *)
Record TareaCatalogo := mkRow {
  row_seccion : option jsstring;
  row_label : jsstring;
  row_activa : bool
}.

(** [IniciarTareaResp]; a screen reads [id_area] only. *)
Record IniciarTareaResp := mkIniciarResp {
  resp_id : option Z;
  resp_idArea : option Z;
  resp_id_area : option Z
}.

(** [(resp as any)?.id_area] for a body that may be [null]. *)
Definition id_area_of (resp : option IniciarTareaResp) : option Z :=
  resp ≫= resp_id_area.

(** [Record<string, boolean>]: the own properties of a plain object. *)
Abbreviation Checks := (gmap jsstring bool).

(** Property names found on [Object.prototype]; each holds a truthy value. *)
Definition objectPrototypeKeys : list jsstring :=
  List.map js
    [ "constructor"; "hasOwnProperty"; "isPrototypeOf"; "propertyIsEnumerable";
      "toLocaleString"; "toString"; "valueOf"; "__proto__";
      "__defineGetter__"; "__defineSetter__"; "__lookupGetter__";
      "__lookupSetter__" ]%string.

(** [!!ck[col]]: an own property wins, then the prototype chain is read, and
    a name found nowhere gives [undefined]. *)
Definition truthyProp (ck : Checks) (col : jsstring) : bool :=
  match ck !! col with
  | Some b => b
  | None => bool_decide (col ∈ objectPrototypeKeys)
  end.

(** [p[k] = v] on a plain object: assigning a primitive to [__proto__] goes to
    the inherited setter and creates no own property. *)
Definition assignProp {V} (k : jsstring) (v : V) (p : gmap jsstring V) : gmap jsstring V :=
  if bool_decide (k = js "__proto__") then p else <[k := v]> p.

(** The replacement of every maximal run matching [[^a-z0-9]+] by one
    underscore; [inRun] tells that the previous code unit was in such a run. *)
Fixpoint collapseRuns (inRun : bool) (s : jsstring) : jsstring :=
  match s with
  | [] => []
  | c :: t =>
      if isaz09 c then c :: collapseRuns false t
      else if inRun then collapseRuns true t
      else 95%N :: collapseRuns true t
  end.

Definition isUnderscore (c : N) : bool := (c =? 95)%N.

(** [s.replace(/^_+|_+$/g, '')] *)
Definition stripUnderscores (s : jsstring) : jsstring :=
  rev (dropWhile isUnderscore (rev (dropWhile isUnderscore s))).

(** Combining diacritical marks, [[\u0300-\u036f]]. *)
Definition isCombiningMark (c : N) : bool := inRange 768 879 c.

(** [labelToCol], the same text in the four components. *)
Definition labelToCol `{Host} (l : jsstring) : jsstring :=
  if truthyStr l then
    let s := List.filter (fun c => negb (isCombiningMark c)) (normalizeNFD l) in
    let s := collapseRuns false (toLowerCase s) in
    stripUnderscores s
  else [].

(** The loop that marks every task from a checks object:
    [t.done = !!ck[labelToCol(t.label)]]. *)
Definition markTask `{Host} (ck : Checks) (t : Task) : Task :=
  mkTask (label t) (truthyProp ck (labelToCol (label t))).

Definition markSection `{Host} (ck : Checks) (s : Section) : Section :=
  mkSection (name s) (List.map (markTask ck) (tasks s)).

(** [{ ...t, done: false }] *)
Definition uncheck (t : Task) : Task := mkTask (label t) false.

(** [{ ...task, done: !task.done }] *)
Definition flipTask (t : Task) : Task := mkTask (label t) (negb (done t)).

(** [for (const t of ...) p[t.label] = !!t.done] *)
Definition checksByLabel (ts : list Task) : Checks :=
  fold_left (fun p t => assignProp (label t) (done t) p) ts ∅.

(** Messages written with [console.error] and shown through [errorMsg]. *)
Inductive ErrorTag :=
| ErrCatalogo          (* the catalog could not be loaded *)
| ErrIniciar           (* the start request failed *)
| ErrActualizar        (* the update request failed *)
| ErrFinalizar         (* the finalize request failed *)
| ErrIniciarSinId      (* 'Respuesta iniciar sin id_area' *)
| ErrAutoFinalizar.    (* 'Error auto-finalizando pendiente' *)

(** The body of [POST /tareas/iniciar] ([IniciarTareaDto]). *)
Record IniciarTareaDto := mkDto {
  dto_usuario_id : Z;
  dto_area : Proceso;
  dto_bastidor : option jsstring;
  dto_color : option jsstring;
  dto_RAL : option jsstring;
  dto_checks : Checks
}.

(** ** Chasis: a flat task list keyed by a VIN *)

Module Chasis.

(** [type VinState = 'idle' | 'typing' | 'checking' | 'ok' | 'finalized' | 'invalid'] *)
Inductive VinState := idle | typing | checking | ok | finalized | invalid.

#[global] Instance VinState_eq_dec : EqDecision VinState.
Proof. solve_decision. Defined.

(** The entry of [_buffered]. *)
Record Buffered := mkBuffered {
  buf_vin : jsstring;
  buf_checks : Checks;
  buf_id : option Z
}.

(** [VinEstadoChasisResp] *)
Inductive VinStatus := st_free | st_pending | st_finalized.

Record VinEstadoChasisResp := mkVinEstado {
  ve_status : VinStatus;
  ve_id : option Z;
  ve_checks : option Checks
}.

(** The snapshot that "Pendientes" leaves under [SNAPSHOT_CHASIS]. *)
Record StoredSnapshot := mkStored {
  snap_id : option Z;
  snap_bastidor : option jsstring;
  snap_checks : option Checks
}.

(** Callback pairs passed to [subscribe] by [continueAndClear]. *)
Inductive IniciarCallback :=
| CasoA   (* a pending id existed: upsert, then finalize *)
| CasoB.  (* no pending id: start, then finalize the returned id *)

Inductive Effect :=
| SetItemVin (v : jsstring)          (* localStorage.setItem(LS_VIN_KEY, v) *)
| RemoveItemVin                      (* localStorage.removeItem(LS_VIN_KEY) *)
| RemoveItemSnapshot                 (* localStorage.removeItem(SNAP_KEY) *)
| SetItemCount (key : jsstring) (n : jsnum) (* localStorage.setItem(key, String(n)) *)
| GetVinEstadoChasis (vin : jsstring)
| IniciarTarea (dto : IniciarTareaDto) (k : IniciarCallback)
| FinalizarTarea (id : option Z)     (* finalizarTarea(PROCESO, id) *)
| Revalidate (vin : jsstring)        (* setTimeout(() => onBastidorInput(vin), 300) *)
| ConsoleError (e : ErrorTag).

Record State := mkState {
  userId : Z;                        (* getCurrentUserId() *)
  dailyCount : jsnum;
  loading : bool;
  errorMsg : option ErrorTag;
  tasks : list Task;
  _bastidor : jsstring;
  vinState : VinState;
  _pendingId : option Z;
  _buffered : option Buffered;
  _showFinishModal : bool
}.

(** Assignments to one field ([this.f.set(v)] or [this.f = v]). *)
Definition set_dailyCount (v : jsnum) (s : State) : State :=
  mkState (userId s) v (loading s) (errorMsg s) (tasks s) (_bastidor s)
    (vinState s) (_pendingId s) (_buffered s) (_showFinishModal s).
Definition set_loading (v : bool) (s : State) : State :=
  mkState (userId s) (dailyCount s) v (errorMsg s) (tasks s) (_bastidor s)
    (vinState s) (_pendingId s) (_buffered s) (_showFinishModal s).
Definition set_errorMsg (v : option ErrorTag) (s : State) : State :=
  mkState (userId s) (dailyCount s) (loading s) v (tasks s) (_bastidor s)
    (vinState s) (_pendingId s) (_buffered s) (_showFinishModal s).
Definition set_tasks (v : list Task) (s : State) : State :=
  mkState (userId s) (dailyCount s) (loading s) (errorMsg s) v (_bastidor s)
    (vinState s) (_pendingId s) (_buffered s) (_showFinishModal s).
Definition set_bastidor (v : jsstring) (s : State) : State :=
  mkState (userId s) (dailyCount s) (loading s) (errorMsg s) (tasks s) v
    (vinState s) (_pendingId s) (_buffered s) (_showFinishModal s).
Definition set_vinState (v : VinState) (s : State) : State :=
  mkState (userId s) (dailyCount s) (loading s) (errorMsg s) (tasks s)
    (_bastidor s) v (_pendingId s) (_buffered s) (_showFinishModal s).
Definition set_pendingId (v : option Z) (s : State) : State :=
  mkState (userId s) (dailyCount s) (loading s) (errorMsg s) (tasks s)
    (_bastidor s) (vinState s) v (_buffered s) (_showFinishModal s).
Definition set_buffered (v : option Buffered) (s : State) : State :=
  mkState (userId s) (dailyCount s) (loading s) (errorMsg s) (tasks s)
    (_bastidor s) (vinState s) (_pendingId s) v (_showFinishModal s).
Definition set_showFinishModal (v : bool) (s : State) : State :=
  mkState (userId s) (dailyCount s) (loading s) (errorMsg s) (tasks s)
    (_bastidor s) (vinState s) (_pendingId s) (_buffered s) v.

(** The component right after construction, for a session user [uid] and the
    counter [saved], the value of [saved ? +saved : 0] on the item found in
    [localStorage] under [getCountKey()]. *)
Definition init (uid : Z) (saved : jsnum) : State :=
  mkState uid saved false None [] [] idle None None false.

Section WithHost.
Context {H : Host}.

(** [/^[A-Z0-9]{17}$/.test(s)] *)
Definition test17 (s : jsstring) : bool :=
  (length s =? 17)%nat && forallb isAZ09 s.

(** [isValidVin(v?: string | null)] *)
Definition isValidVin (v : option jsstring) : bool :=
  match v with
  | None => false
  | Some s => if truthyStr s then test17 (toUpperCase s) else false
  end.

(** The local [clean] of [onBastidorInput]:
    [(value || '').toUpperCase().replace(/[^A-Z0-9]/g, '').slice(0, 17)]. *)
Definition clean (value : jsstring) : jsstring :=
  take 17 (List.filter isAZ09 (toUpperCase value)).

(** [onBastidorInput(value)] up to the [subscribe]. *)
Definition onBastidorInput (value : jsstring) (s : State) : State * list Effect :=
  let c := clean value in
  let s := set_pendingId None (set_bastidor c s) in
  if negb (truthyStr c) then (set_vinState idle s, [SetItemVin c])
  else if negb (isValidVin (Some c)) then (set_vinState invalid s, [SetItemVin c])
  else (set_vinState checking s, [SetItemVin c; GetVinEstadoChasis c]).

(** [applyPendingChecks(checks)] *)
Definition applyPendingChecks (checks : Checks) (s : State) : State :=
  match tasks s with
  | [] => set_buffered (Some (mkBuffered (_bastidor s) checks (_pendingId s))) s
  | _ => set_tasks (List.map (markTask checks) (tasks s)) s
  end.

(** [flushBufferedIfAny()] *)
Definition flushBufferedIfAny (s : State) : State * list Effect :=
  match _buffered s with
  | None => (s, [])
  | Some b =>
      let s := set_pendingId (buf_id b) s in
      let s := set_tasks (List.map (markTask (buf_checks b)) (tasks s)) s in
      let s := set_vinState ok s in
      (set_buffered None s, [Revalidate (buf_vin b)])
  end.

(** The [next] callback of [getVinEstadoChasis] in [onBastidorInput]. *)
Definition vinEstado_next (resp : VinEstadoChasisResp) (s : State) : State :=
  match ve_status resp with
  | st_finalized => set_vinState finalized s
  | st_pending =>
      let s := applyPendingChecks (default ∅ (ve_checks resp)) s in
      let s := set_pendingId (ve_id resp) s in
      set_vinState ok s
  | st_free => set_vinState ok s
  end.

(** The [error] callback of [getVinEstadoChasis] in [onBastidorInput]. *)
Definition vinEstado_error (s : State) : State := set_vinState invalid s.

(** The [next] callback of [getCatalogo] in [cargarTareasDesdeBD]. *)
Definition catalogo_next (rows : list TareaCatalogo) (s : State) : State * list Effect :=
  let activos := List.filter row_activa rows in
  let s := set_tasks (List.map (fun r => mkTask (row_label r) false) activos) s in
  let s := set_loading false s in
  flushBufferedIfAny s.

(** The [error] callback of [getCatalogo] in [cargarTareasDesdeBD]. *)
Definition catalogo_error (s : State) : State * list Effect :=
  (set_loading false (set_errorMsg (Some ErrCatalogo) s), [ConsoleError ErrCatalogo]).

(** [clearBastidor()] *)
Definition clearBastidor (s : State) : State * list Effect :=
  (set_pendingId None (set_vinState idle (set_bastidor [] s)), [RemoveItemVin]).

(** [toggleTask(i)]; [None] stands for the [TypeError] raised when [arr[i]]
    is [undefined], which leaves the signal as it was. *)
Definition toggleTask (i : nat) (s : State) : option State :=
  match tasks s !! i with
  | Some t => Some (set_tasks (<[i := flipTask t]> (tasks s)) s)
  | None => None
  end.

(** [clearAll()] *)
Definition clearAll (s : State) : State * list Effect :=
  clearBastidor (set_tasks (List.map uncheck (tasks s)) s).

(** The state after the operator toggled the tasks [idxs], one after the
    other; a toggle that raises leaves the state as it was. *)
Definition toggleMany (idxs : list nat) (s : State) : State :=
  fold_left (fun s i => default s (toggleTask i s)) idxs s.

Definition total (s : State) : nat := length (tasks s).
Definition doneCount (s : State) : nat := length (List.filter done (tasks s)).

(** [allComplete()] *)
Definition allComplete (s : State) : bool :=
  (0 <? total s)%nat && (doneCount s =? total s)%nat.

(** [canFinish] *)
Definition canFinish (s : State) : bool :=
  allComplete s && bool_decide (vinState s = ok).

(** [finish()] *)
Definition finish (s : State) : State :=
  if canFinish s then set_showFinishModal true s else s.

(** [buildChecksPayload()] *)
Definition buildChecksPayload (s : State) : Checks := checksByLabel (tasks s).

(** [MODULE_KEY] *)
Definition MODULE_KEY : jsstring := js "CHASIS".

(** [afterFinish], the [next] callback of every [finalizarTarea]; [email] and
    [date] are what [getCurrentUserEmail()] and [getToday()] return when it
    runs. *)
Definition afterFinish (email date : jsstring) (s : State) : State * list Effect :=
  let newTotal := jsAdd (dailyCount s) (jsOfZ 1) in
  let s := set_dailyCount newTotal s in
  let '(s, e) := clearAll s in
  (set_showFinishModal false s,
   SetItemCount (getCountKey MODULE_KEY email date) newTotal :: e).

(** The [error] callback of every [finalizarTarea]. *)
Definition finalizar_error (s : State) : State * list Effect :=
  (s, [ConsoleError ErrFinalizar]).

(** The object passed to [iniciarTarea] by [continueAndClear]. *)
Definition startDto (s : State) : IniciarTareaDto :=
  mkDto (userId s) chasis
    (if truthyStr (_bastidor s) then Some (_bastidor s) else None)
    None None (buildChecksPayload s).

(** [continueAndClear()] up to the [subscribe]. *)
Definition continueAndClear (s : State) : State * list Effect :=
  if negb (canFinish s) then (s, [])
  else if negb (truthyNum (userId s)) then (s, [])
  else if truthyId (_pendingId s) then (s, [IniciarTarea (startDto s) CasoA])
  else (s, [IniciarTarea (startDto s) CasoB]).

(** The [next] callback of [iniciarTarea] in [continueAndClear]. *)
Definition iniciar_next (k : IniciarCallback) (resp : option IniciarTareaResp)
    (s : State) : State * list Effect :=
  match k with
  | CasoA =>
      let idToFinish :=
        match id_area_of resp with Some i => Some i | None => _pendingId s end in
      (s, [FinalizarTarea idToFinish])
  | CasoB =>
      if truthyId (id_area_of resp) then (s, [FinalizarTarea (id_area_of resp)])
      else (s, [ConsoleError ErrIniciarSinId])
  end.

(** The [error] callback of [iniciarTarea] in [continueAndClear]. *)
Definition iniciar_error (k : IniciarCallback) (s : State) : State * list Effect :=
  match k with
  | CasoA => (s, [ConsoleError ErrActualizar])
  | CasoB => (s, [ConsoleError ErrIniciar])
  end.

(** [queueOrApplyChecks(vin, checks, id)] *)
Definition queueOrApplyChecks (vin : jsstring) (checks : Checks) (id : option Z)
    (s : State) : State * list Effect :=
  let s := set_bastidor vin (set_pendingId id s) in
  match tasks s with
  | [] => (set_buffered (Some (mkBuffered vin checks (_pendingId s))) s, [SetItemVin vin])
  | _ => (applyPendingChecks checks s, [SetItemVin vin])
  end.

(** [consumeSnapshotIfAny()], for the item found under [SNAP_KEY]: [None] when
    there is none, [Some None] when [JSON.parse] throws on it. *)
Definition consumeSnapshotIfAny (raw : option (option StoredSnapshot)) (s : State)
    : State * list Effect :=
  match raw with
  | None => (s, [])
  | Some None => (s, [RemoveItemSnapshot])
  | Some (Some snap) =>
      let vin := trim (toUpperCase (orEmpty (snap_bastidor snap))) in
      let checks := default ∅ (snap_checks snap) in
      let s := set_pendingId (snap_id snap) s in
      if negb (truthyStr vin) then (set_vinState idle s, [RemoveItemSnapshot])
      else
        let '(s, e) := queueOrApplyChecks vin checks (_pendingId s) s in
        (set_vinState ok s, RemoveItemSnapshot :: e ++ [Revalidate vin])
  end.

End WithHost.
End Chasis.

(** [Array.prototype.sort] with a comparator is stable: an element goes
    before the first element that does not compare below it. *)
Fixpoint insertBy {A} (cmp : A -> A -> Z) (x : A) (l : list A) : list A :=
  match l with
  | [] => [x]
  | y :: t => if cmp x y <=? 0 then x :: l else y :: insertBy cmp x t
  end.

Definition sortBy {A} (cmp : A -> A -> Z) (l : list A) : list A :=
  fold_right (insertBy cmp) [] l.

(** ** The catalog of the sectioned screens (Pintura, Premontaje, Montaje) *)

(** [mapSec]: a [Map] keeps its keys in the order of first insertion. *)
Fixpoint groupPush (sec : jsstring) (t : Task) (m : list (jsstring * list Task))
    : list (jsstring * list Task) :=
  match m with
  | [] => [(sec, [t])]
  | (k, ts) :: rest =>
      if bool_decide (k = sec) then (k, ts ++ [t]) :: rest
      else (k, ts) :: groupPush sec t rest
  end.

(** [(r.seccion?.trim() || dflt)] *)
Definition seccionOf (dflt : jsstring) (r : TareaCatalogo) : jsstring :=
  match row_seccion r with
  | Some x => orStr (trim x) dflt
  | None => dflt
  end.

Definition groupBySeccion (dflt : jsstring) (activos : list TareaCatalogo)
    : list (jsstring * list Task) :=
  fold_left (fun m r => groupPush (seccionOf dflt r) (mkTask (row_label r) false) m)
    activos [].

(** [/fase/i] at the head of [s]; without the [u] flag a code unit outside
    Basic Latin never matches a Basic Latin letter. *)
Definition matchFase (s : jsstring) : option jsstring :=
  match s with
  | f :: a :: s' :: e :: rest =>
      if (upperLatin f =? 70)%N && (upperLatin a =? 65)%N
         && (upperLatin s' =? 83)%N && (upperLatin e =? 69)%N
         && isBasicLatin f && isBasicLatin a && isBasicLatin s' && isBasicLatin e
      then Some rest else None
  | _ => None
  end.

(** [/fase\s*(\d+)/i] at the head of [s]: the captured digits. *)
Definition matchFaseAt (s : jsstring) : option jsstring :=
  match matchFase s with
  | Some rest =>
      match takeWhile isDigit (dropWhile isWhiteSpace rest) with
      | [] => None
      | d => Some d
      end
  | None => None
  end.

(** [name.match(/fase\s*(\d+)/i)]: the leftmost match, [m[1]]. *)
Fixpoint searchFase (s : jsstring) : option jsstring :=
  match matchFaseAt s with
  | Some d => Some d
  | None => match s with [] => None | _ :: t => searchFase t end
  end.

Section Catalog.
Context {H : Host}.

(** [faseNum(name)]; [None] is [Number.POSITIVE_INFINITY]. *)
Definition faseNum (nm : jsstring) : option Z :=
  match searchFase nm with
  | Some d => parseIntDigits d
  | None => None
  end.

(** The comparator given to [sort]; only the sign of its result is kept. *)
Definition compareSecciones (a b : jsstring) : Z :=
  match faseNum a, faseNum b with
  | Some x, Some y => if x =? y then localeCompareEs a b else x - y
  | Some _, None => -1
  | None, Some _ => 1
  | None, None => localeCompareEs a b
  end.

(** The entries of [mapSec], sorted. *)
Definition sortEntries (l : list (jsstring * list Task)) : list (jsstring * list Task) :=
  sortBy (fun a b => compareSecciones a.1 b.1) l.

(** The value given to [sections.set] by [cargarTareasDesdeBD]. *)
Definition loadSections (dflt : jsstring) (rows : list TareaCatalogo) : list Section :=
  let activos := List.filter row_activa rows in
  List.map (fun e => mkSection e.1 e.2) (sortEntries (groupBySeccion dflt activos)).

End Catalog.

(** A value of a field of the update body. *)
Inductive PatchValue := PNull | PStr (s : jsstring) | PNum (n : Z).

(** [Record<string, any>], the body of [PUT /tareas/:area/:id]. *)
Abbreviation Patch := (gmap jsstring PatchValue).

(** [v || null] for a string. *)
Definition orNull (s : jsstring) : option jsstring :=
  if truthyStr s then Some s else None.

Definition patchStr (o : option jsstring) : PatchValue :=
  match o with Some s => PStr s | None => PNull end.

(** [buildChecksPatch()]: [patch[labelToCol(t.label)] = t.done ? 1 : 0]. *)
Definition buildChecksPatchOf `{Host} (secs : list Section) : Patch :=
  fold_left
    (fun p t => assignProp (labelToCol (label t)) (PNum (if done t then 1 else 0)) p)
    (flat_map tasks secs) ∅.

(** [Object.fromEntries(sections.flatMap(sec => sec.tasks.map(t => [t.label, !!t.done])))] *)
Definition checksFromEntries (secs : list Section) : Checks :=
  fold_left (fun p t => <[label t := done t]> p) (flat_map tasks secs) ∅.

(** [arr[i].tasks[j] = { ...task, done: !task.done }] on a clone; [None] is
    the [TypeError] raised when [arr[i]] or [task] is [undefined]. *)
Definition toggleAt (i j : nat) (secs : list Section) : option (list Section) :=
  match secs !! i with
  | None => None
  | Some sec =>
      match tasks sec !! j with
      | None => None
      | Some t => Some (<[i := mkSection (name sec) (<[j := flipTask t]> (tasks sec))]> secs)
      end
  end.

(** [arr[i].tasks = arr[i].tasks.map(t => ({ ...t, done: false }))] on a clone. *)
Definition clearSectionAt (i : nat) (secs : list Section) : option (list Section) :=
  match secs !! i with
  | None => None
  | Some sec => Some (<[i := mkSection (name sec) (List.map uncheck (tasks sec))]> secs)
  end.

(** [arr.forEach(s => s.tasks = s.tasks.map(t => ({ ...t, done: false })))] *)
Definition uncheckAll (secs : list Section) : list Section :=
  List.map (fun s => mkSection (name s) (List.map uncheck (tasks s))) secs.

(** The snapshot kept in [_pendingSnapshot]. *)
Record PendingSnapshot := mkSnapshot {
  ps_color : option jsstring;
  ps_RAL : option jsstring;
  ps_checks : option Checks;
  ps_id : option Z
}.

(** The fields of [PendingItem] read by the auto-resume. *)
Record PendingItem := mkPendingItem {
  pi_area_key : Proceso;
  pi_id : Z;
  pi_bastidor : option jsstring;
  pi_color : option jsstring;
  pi_RAL : option jsstring
}.

(** The fields of [SnapshotResp] and [PendienteResp] read by the screens. *)
Record SnapshotResp := mkSnapshotResp {
  sr_exists : bool;
  sr_id : option Z;
  sr_bastidor : option jsstring;
  sr_color : option jsstring;
  sr_RAL : option jsstring;
  sr_checks : option Checks
}.

(** [a ?? b] *)
Definition nullish {A} (a b : option A) : option A :=
  match a with Some _ => a | None => b end.

(** Effects of the sectioned screens. *)
Inductive Effect :=
| SetItemCount (key : jsstring) (n : jsnum) (* localStorage.setItem(key, String(n)) *)
| ActualizarTarea (p : Proceso) (id : Z) (patch : Patch)
| FinalizarTarea (p : Proceso) (id : option Z)
| AutoFinalizarTarea (p : Proceso) (id : Z)
| IniciarTarea (dto : IniciarTareaDto)
| GetSnapshot (p : Proceso) (id : Z)
| GetPendiente (p : Proceso) (vin : jsstring) (uid : Z)
| IsVinDisponibleEnMontaje (vin : jsstring)
| GetColorPinturaPorVin (vin : jsstring)
| ConsoleError (e : ErrorTag).

(** ** Pintura: sections keyed by a colour and a RAL code *)

Module Pintura.

Record State := mkState {
  userId : Z;                        (* getCurrentUserId() *)
  dailyCount : jsnum;
  loading : bool;
  errorMsg : option ErrorTag;
  colorDescripcion : jsstring;
  colorRAL : jsstring;
  sections : list Section;
  _pendingId : option Z;
  _pendingSnapshot : option PendingSnapshot;
  showModal : bool
}.

Definition set_dailyCount (v : jsnum) (s : State) : State :=
  mkState (userId s) v (loading s) (errorMsg s) (colorDescripcion s) (colorRAL s)
    (sections s) (_pendingId s) (_pendingSnapshot s) (showModal s).
Definition set_loading (v : bool) (s : State) : State :=
  mkState (userId s) (dailyCount s) v (errorMsg s) (colorDescripcion s) (colorRAL s)
    (sections s) (_pendingId s) (_pendingSnapshot s) (showModal s).
Definition set_errorMsg (v : option ErrorTag) (s : State) : State :=
  mkState (userId s) (dailyCount s) (loading s) v (colorDescripcion s) (colorRAL s)
    (sections s) (_pendingId s) (_pendingSnapshot s) (showModal s).
Definition set_colorDescripcion (v : jsstring) (s : State) : State :=
  mkState (userId s) (dailyCount s) (loading s) (errorMsg s) v (colorRAL s)
    (sections s) (_pendingId s) (_pendingSnapshot s) (showModal s).
Definition set_colorRAL (v : jsstring) (s : State) : State :=
  mkState (userId s) (dailyCount s) (loading s) (errorMsg s) (colorDescripcion s) v
    (sections s) (_pendingId s) (_pendingSnapshot s) (showModal s).
Definition set_sections (v : list Section) (s : State) : State :=
  mkState (userId s) (dailyCount s) (loading s) (errorMsg s) (colorDescripcion s)
    (colorRAL s) v (_pendingId s) (_pendingSnapshot s) (showModal s).
Definition set_pendingId (v : option Z) (s : State) : State :=
  mkState (userId s) (dailyCount s) (loading s) (errorMsg s) (colorDescripcion s)
    (colorRAL s) (sections s) v (_pendingSnapshot s) (showModal s).
Definition set_pendingSnapshot (v : option PendingSnapshot) (s : State) : State :=
  mkState (userId s) (dailyCount s) (loading s) (errorMsg s) (colorDescripcion s)
    (colorRAL s) (sections s) (_pendingId s) v (showModal s).
Definition set_showModal (v : bool) (s : State) : State :=
  mkState (userId s) (dailyCount s) (loading s) (errorMsg s) (colorDescripcion s)
    (colorRAL s) (sections s) (_pendingId s) (_pendingSnapshot s) v.

(** The component right after construction, for a session user [uid] and the
    counter [saved], the value of [saved ? +saved : 0] on the item found in
    [localStorage] under [getCountKey()]. *)
Definition init (uid : Z) (saved : jsnum) : State :=
  mkState uid saved false None [] [] [] None None false.

Section WithHost.
Context {H : Host}.

(** [buildChecksPatch()] *)
Definition buildChecksPatch (s : State) : Patch := buildChecksPatchOf (sections s).

(** [applyPendingIfReady()] *)
Definition applyPendingIfReady (s : State) : State :=
  match _pendingSnapshot s with
  | None => s
  | Some snap =>
      match sections s with
      | [] => s
      | _ =>
          let color := trim (orEmpty (ps_color snap)) in
          let ral := trim (orEmpty (ps_RAL snap)) in
          let s := if truthyStr color then set_colorDescripcion color s else s in
          let s := if truthyStr ral then set_colorRAL ral s else s in
          let ck := default ∅ (ps_checks snap) in
          let s := set_sections (List.map (markSection ck) (sections s)) s in
          let s := set_pendingId (ps_id snap) s in
          set_pendingSnapshot None s
      end
  end.

(** The [next] callback of [getCatalogo] in [cargarTareasDesdeBD]. *)
Definition catalogo_next (rows : list TareaCatalogo) (s : State) : State :=
  let s := set_sections (loadSections (js "Partes") rows) s in
  let s := set_loading false s in
  applyPendingIfReady s.

(** The [error] callback of [getCatalogo] in [cargarTareasDesdeBD]. *)
Definition catalogo_error (s : State) : State * list Effect :=
  (set_loading false (set_errorMsg (Some ErrCatalogo) s), [ConsoleError ErrCatalogo]).

(** The [next] callback of [getSnapshot] in [autoResumeFromUserPending], for
    the pending item [mine] it was asked for. *)
Definition snapshot_next (mine : PendingItem) (snap : option SnapshotResp)
    (s : State) : State :=
  match snap with
  | None => s
  | Some snap =>
      if sr_exists snap then
        applyPendingIfReady
          (set_pendingSnapshot
             (Some (mkSnapshot (nullish (sr_color snap) (pi_color mine))
                               (nullish (sr_RAL snap) (pi_RAL mine))
                               (Some (default ∅ (sr_checks snap)))
                               (nullish (sr_id snap) (Some (pi_id mine))))) s)
      else s
  end.

(** [colorInputsComplete] *)
Definition colorInputsComplete (s : State) : bool :=
  (0 <? length (trim (colorDescripcion s)))%nat
  && (0 <? length (trim (colorRAL s)))%nat.

(** [sectionComplete] *)
Definition sectionComplete (sec : Section) : bool := forallb done (tasks sec).

(** [allComplete] *)
Definition allComplete (s : State) : bool :=
  (0 <? length (sections s))%nat
  && forallb sectionComplete (sections s)
  && colorInputsComplete s.

(** [toggleTask(sectionIndex, taskIndex)] *)
Definition toggleTask (i j : nat) (s : State) : option State :=
  (fun secs => set_sections secs s) <$> toggleAt i j (sections s).

(** [onColorInputChange(event, type)] with the value of the input. *)
Definition onColorInputChange (value : jsstring) (isDescripcion : bool) (s : State) : State :=
  if isDescripcion then set_colorDescripcion value s else set_colorRAL value s.

(** [clearSection(sectionIndex)] *)
Definition clearSection (i : nat) (s : State) : option State :=
  (fun secs => set_sections secs s) <$> clearSectionAt i (sections s).

(** [clearAll()] *)
Definition clearAll (s : State) : State :=
  set_pendingId None
    (set_colorRAL [] (set_colorDescripcion [] (set_sections (uncheckAll (sections s)) s))).

(** [finish()] *)
Definition finish (s : State) : State :=
  if allComplete s then set_showModal true s else s.

(** [MODULE_KEY] *)
Definition MODULE_KEY : jsstring := js "PINTURA".

(** [afterFinish], the [next] callback of every [finalizarTarea]; [email] and
    [date] are what [getCurrentUserEmail()] and [getToday()] return when it
    runs. *)
Definition afterFinish (email date : jsstring) (s : State) : State * list Effect :=
  let newTotal := jsAdd (dailyCount s) (jsOfZ 1) in
  let s := set_dailyCount newTotal s in
  (set_showModal false (clearAll s),
   [SetItemCount (getCountKey MODULE_KEY email date) newTotal]).

(** The [error] callback of every [finalizarTarea]. *)
Definition finalizar_error (s : State) : State * list Effect :=
  (s, [ConsoleError ErrFinalizar]).

(** [{ color, RAL, ...this.buildChecksPatch() }] *)
Definition updatePatch (s : State) : Patch :=
  buildChecksPatch s
  ∪ <[js "color" := patchStr (orNull (trim (colorDescripcion s)))]>
      (<[js "RAL" := patchStr (orNull (trim (colorRAL s)))]> ∅).

(** The object passed to [iniciarTarea] by [continueAndClear]. *)
Definition startDto (s : State) : IniciarTareaDto :=
  mkDto (userId s) pintura None
    (orNull (trim (colorDescripcion s))) (orNull (trim (colorRAL s)))
    (checksFromEntries (sections s)).

(** [continueAndClear()] up to the [subscribe]. *)
Definition continueAndClear (s : State) : State * list Effect :=
  if negb (allComplete s) then (s, [])
  else if negb (truthyNum (userId s)) then (s, [])
  else
    match _pendingId s with
    | Some id =>
        if truthyNum id then (s, [ActualizarTarea pintura id (updatePatch s)])
        else (s, [IniciarTarea (startDto s)])
    | None => (s, [IniciarTarea (startDto s)])
    end.

(** The [next] callback of [actualizarTarea] in [continueAndClear]. *)
Definition actualizar_next (s : State) : State * list Effect :=
  (s, [FinalizarTarea pintura (_pendingId s)]).

(** The [error] callback of [actualizarTarea] in [continueAndClear]. *)
Definition actualizar_error (s : State) : State * list Effect :=
  (s, [ConsoleError ErrActualizar]).

(** The [next] callback of [iniciarTarea] in [continueAndClear]. *)
Definition iniciar_next (resp : option IniciarTareaResp) (s : State)
    : State * list Effect :=
  if truthyId (id_area_of resp) then (s, [FinalizarTarea pintura (id_area_of resp)])
  else (s, [ConsoleError ErrIniciarSinId]).

(** The [error] callback of [iniciarTarea] in [continueAndClear]. *)
Definition iniciar_error (s : State) : State * list Effect :=
  (s, [ConsoleError ErrIniciar]).

(** What can happen to the component: a user action or the arrival of a
    response. Responses arrive in any order, so every callback is an event of
    its own. A handler that raises leaves the state as it was. *)
Inductive Event :=
| CatalogoNext (rows : list TareaCatalogo)
| CatalogoError
| SnapshotNext (mine : PendingItem) (snap : option SnapshotResp)
| ToggleTask (i j : nat)
| ColorInputChange (value : jsstring) (isDescripcion : bool)
| ClearSection (i : nat)
| ClearAll
| Finish
| CloseModal
| ContinueAndClear
| ActualizarNext
| ActualizarError
| IniciarNext (resp : option IniciarTareaResp)
| IniciarError
| FinalizarNext (email date : jsstring)
| FinalizarError.

Definition step (e : Event) (s : State) : State * list Effect :=
  match e with
  | CatalogoNext rows => (catalogo_next rows s, [])
  | CatalogoError => catalogo_error s
  | SnapshotNext mine snap => (snapshot_next mine snap s, [])
  | ToggleTask i j => (default s (toggleTask i j s), [])
  | ColorInputChange v b => (onColorInputChange v b s, [])
  | ClearSection i => (default s (clearSection i s), [])
  | ClearAll => (clearAll s, [])
  | Finish => (finish s, [])
  | CloseModal => (set_showModal false s, [])
  | ContinueAndClear => continueAndClear s
  | ActualizarNext => actualizar_next s
  | ActualizarError => actualizar_error s
  | IniciarNext resp => iniciar_next resp s
  | IniciarError => iniciar_error s
  | FinalizarNext email date => afterFinish email date s
  | FinalizarError => finalizar_error s
  end.

(** The state after a sequence of events. *)
Definition run (es : list Event) (s : State) : State :=
  fold_left (fun s e => (step e s).1) es s.

End WithHost.
End Pintura.

(** ** Colour options of Premontaje and Montaje *)

(** [type ColorOption = { label: string; value: string }] *)
Record ColorOption := mkColor { co_label : jsstring; co_value : jsstring }.

(** The character class [0-9A-F] under the [i] flag. *)
Definition isHexDigit (c : N) : bool :=
  isDigit c || inRange 65 70 c || inRange 97 102 c.

(** [/^#([0-9A-F]{3}|[0-9A-F]{6})$/i.test(s)] *)
Definition isHexColor (s : jsstring) : bool :=
  match s with
  | 35%N :: d =>
      ((length d =? 3)%nat || (length d =? 6)%nat) && forallb isHexDigit d
  | _ => false
  end.

(** The character class [\w]. *)
Definition isWordChar (c : N) : bool :=
  isUpperAZ c || isLowerAZ c || isDigit c || isUnderscore c.

Section Colors.
Context {H : Host}.

(** [s.replace(/\b\w/g, m => m.toUpperCase())]; [prevWord] tells that the
    previous code unit was a word character. *)
Fixpoint capitalizeWords (prevWord : bool) (s : jsstring) : jsstring :=
  match s with
  | [] => []
  | c :: t =>
      (if isWordChar c && negb prevWord then toUpperCase [c] else [c])
      ++ capitalizeWords (isWordChar c) t
  end.

(** [toLabel(v)] *)
Definition toLabel (v : jsstring) : jsstring :=
  let s := trim v in
  if isHexColor s then toUpperCase s
  else capitalizeWords false (toLowerCase s).

(** The test of [pushColorIfMissing]. *)
Definition colorExists (val : jsstring) (opts : list ColorOption) : bool :=
  existsb (fun c =>
    bool_decide (toUpperCase (co_value c) = toUpperCase val)
    || bool_decide (toLowerCase (co_label c) = toLowerCase val)) opts.

(** [pushColorIfMissing(raw)]; Premontaje sorts the list afterwards
    ([sorted = true]), Montaje does not. *)
Definition pushColorIfMissing (sorted : bool) (raw : jsstring) (opts : list ColorOption)
    : list ColorOption :=
  let val := trim raw in
  if negb (truthyStr val) then opts
  else if colorExists val opts then opts
  else
    let l := opts ++ [mkColor (toLabel val) val] in
    if sorted then sortBy (fun a b => localeCompareEs (co_label a) (co_label b)) l
    else l.

(** [colorOptions.find(o => o.value.toUpperCase() === c.toUpperCase())] *)
Definition findColor (c : jsstring) (opts : list ColorOption) : option ColorOption :=
  List.find (fun o => bool_decide (toUpperCase (co_value o) = toUpperCase c)) opts.

End Colors.

(** ** Premontaje: sections keyed by a colour chosen from a list *)

Module Premontaje.

Record State := mkState {
  userId : Z;                        (* getCurrentUserId() *)
  dailyCount : jsnum;
  loading : bool;
  errorMsg : option ErrorTag;
  colorOptions : list ColorOption;
  vehicleColorHex : jsstring;
  vehicleColorName : jsstring;
  sections : list Section;
  _pendingId : option Z;
  _pendingSnapshot : option PendingSnapshot;
  showModal : bool
}.

Definition set_dailyCount (v : jsnum) (s : State) : State :=
  mkState (userId s) v (loading s) (errorMsg s) (colorOptions s) (vehicleColorHex s)
    (vehicleColorName s) (sections s) (_pendingId s) (_pendingSnapshot s) (showModal s).
Definition set_loading (v : bool) (s : State) : State :=
  mkState (userId s) (dailyCount s) v (errorMsg s) (colorOptions s) (vehicleColorHex s)
    (vehicleColorName s) (sections s) (_pendingId s) (_pendingSnapshot s) (showModal s).
Definition set_errorMsg (v : option ErrorTag) (s : State) : State :=
  mkState (userId s) (dailyCount s) (loading s) v (colorOptions s) (vehicleColorHex s)
    (vehicleColorName s) (sections s) (_pendingId s) (_pendingSnapshot s) (showModal s).
Definition set_colorOptions (v : list ColorOption) (s : State) : State :=
  mkState (userId s) (dailyCount s) (loading s) (errorMsg s) v (vehicleColorHex s)
    (vehicleColorName s) (sections s) (_pendingId s) (_pendingSnapshot s) (showModal s).
Definition set_vehicleColorHex (v : jsstring) (s : State) : State :=
  mkState (userId s) (dailyCount s) (loading s) (errorMsg s) (colorOptions s) v
    (vehicleColorName s) (sections s) (_pendingId s) (_pendingSnapshot s) (showModal s).
Definition set_vehicleColorName (v : jsstring) (s : State) : State :=
  mkState (userId s) (dailyCount s) (loading s) (errorMsg s) (colorOptions s)
    (vehicleColorHex s) v (sections s) (_pendingId s) (_pendingSnapshot s) (showModal s).
Definition set_sections (v : list Section) (s : State) : State :=
  mkState (userId s) (dailyCount s) (loading s) (errorMsg s) (colorOptions s)
    (vehicleColorHex s) (vehicleColorName s) v (_pendingId s) (_pendingSnapshot s)
    (showModal s).
Definition set_pendingId (v : option Z) (s : State) : State :=
  mkState (userId s) (dailyCount s) (loading s) (errorMsg s) (colorOptions s)
    (vehicleColorHex s) (vehicleColorName s) (sections s) v (_pendingSnapshot s)
    (showModal s).
Definition set_pendingSnapshot (v : option PendingSnapshot) (s : State) : State :=
  mkState (userId s) (dailyCount s) (loading s) (errorMsg s) (colorOptions s)
    (vehicleColorHex s) (vehicleColorName s) (sections s) (_pendingId s) v (showModal s).
Definition set_showModal (v : bool) (s : State) : State :=
  mkState (userId s) (dailyCount s) (loading s) (errorMsg s) (colorOptions s)
    (vehicleColorHex s) (vehicleColorName s) (sections s) (_pendingId s)
    (_pendingSnapshot s) v.

Section WithHost.
Context {H : Host}.

(** [buildChecksPatch()] *)
Definition buildChecksPatch (s : State) : Patch := buildChecksPatchOf (sections s).

(** The colour step of [applyPendingIfReady]. *)
Definition restoreColor (c : jsstring) (s : State) : State :=
  let s := set_colorOptions (pushColorIfMissing true c (colorOptions s)) s in
  match findColor c (colorOptions s) with
  | Some opt => set_vehicleColorName (co_label opt) (set_vehicleColorHex (co_value opt) s)
  | None => set_vehicleColorName (toLabel c) (set_vehicleColorHex c s)
  end.

(** [applyPendingIfReady()] *)
Definition applyPendingIfReady (s : State) : State :=
  match _pendingSnapshot s with
  | None => s
  | Some snap =>
      match sections s with
      | [] => s
      | _ =>
          let c := trim (orEmpty (ps_color snap)) in
          let s := if truthyStr c then restoreColor c s else s in
          let ck := default ∅ (ps_checks snap) in
          let s := set_sections (List.map (markSection ck) (sections s)) s in
          let s := set_pendingId (ps_id snap) s in
          set_pendingSnapshot None s
      end
  end.

(** The [next] callback of [getCatalogo] in [cargarTareasDesdeBD]. *)
Definition catalogo_next (rows : list TareaCatalogo) (s : State) : State :=
  let s := set_sections (loadSections (js "Fase 1") rows) s in
  let s := set_loading false s in
  applyPendingIfReady s.

(** The [next] callback of [getSnapshot] in [autoResumeFromUserPending]. *)
Definition snapshot_next (mine : PendingItem) (snap : option SnapshotResp)
    (s : State) : State :=
  match snap with
  | None => s
  | Some snap =>
      if sr_exists snap then
        applyPendingIfReady
          (set_pendingSnapshot
             (Some (mkSnapshot (nullish (sr_color snap) (pi_color mine)) None
                               (Some (default ∅ (sr_checks snap)))
                               (nullish (sr_id snap) (Some (pi_id mine))))) s)
      else s
  end.

(** [sectionComplete] *)
Definition sectionComplete (sec : Section) : bool :=
  (0 <? length (tasks sec))%nat && forallb done (tasks sec).

(** [allSectionsDone] *)
Definition allSectionsDone (s : State) : bool :=
  (0 <? length (sections s))%nat && forallb sectionComplete (sections s).

(** [validColor] *)
Definition validColor (s : State) : bool := truthyStr (vehicleColorHex s).

(** [allComplete] *)
Definition allComplete (s : State) : bool := allSectionsDone s && validColor s.

(** [toggleTask(sectionIndex, taskIndex)] *)
Definition toggleTask (i j : nat) (s : State) : option State :=
  (fun secs => set_sections secs s) <$> toggleAt i j (sections s).

(** [clearSection(sectionIndex)] *)
Definition clearSection (i : nat) (s : State) : option State :=
  (fun secs => set_sections secs s) <$> clearSectionAt i (sections s).

(** [clearVehicle()] *)
Definition clearVehicle (s : State) : State :=
  set_vehicleColorName [] (set_vehicleColorHex [] s).

(** [clearAll()] *)
Definition clearAll (s : State) : State :=
  set_pendingId None (clearVehicle (set_sections (uncheckAll (sections s)) s)).

(** [MODULE_KEY] *)
Definition MODULE_KEY : jsstring := js "PREMONTAJE".

(** [afterFinish]; [email] and [date] are what [getCurrentUserEmail()] and
    [getToday()] return when it runs. *)
Definition afterFinish (email date : jsstring) (s : State) : State * list Effect :=
  let newTotal := jsAdd (dailyCount s) (jsOfZ 1) in
  let s := set_dailyCount newTotal s in
  (set_showModal false (clearAll s),
   [SetItemCount (getCountKey MODULE_KEY email date) newTotal]).

(** [{ color, ...this.buildChecksPatch() }] *)
Definition updatePatch (s : State) : Patch :=
  buildChecksPatch s ∪ <[js "color" := patchStr (orNull (vehicleColorHex s))]> ∅.

(** The object passed to [iniciarTarea]; [buildChecksLabels()] assigns by label. *)
Definition startDto (s : State) : IniciarTareaDto :=
  mkDto (userId s) premontaje None (orNull (vehicleColorHex s)) None
    (checksByLabel (flat_map tasks (sections s))).

(** [continueAndClear()] up to the [subscribe]. *)
Definition continueAndClear (s : State) : State * list Effect :=
  if negb (allComplete s) then (s, [])
  else if negb (truthyNum (userId s)) then (s, [])
  else
    match _pendingId s with
    | Some id =>
        if truthyNum id then (s, [ActualizarTarea premontaje id (updatePatch s)])
        else (s, [IniciarTarea (startDto s)])
    | None => (s, [IniciarTarea (startDto s)])
    end.

(** The [next] callback of [actualizarTarea] in [continueAndClear]. *)
Definition actualizar_next (s : State) : State * list Effect :=
  (s, [FinalizarTarea premontaje (_pendingId s)]).

(** The [error] callback of [actualizarTarea] in [continueAndClear]. *)
Definition actualizar_error (s : State) : State * list Effect :=
  (s, [ConsoleError ErrActualizar]).

(** The [next] callback of [iniciarTarea] in [continueAndClear]. *)
Definition iniciar_next (resp : option IniciarTareaResp) (s : State)
    : State * list Effect :=
  if truthyId (id_area_of resp) then (s, [FinalizarTarea premontaje (id_area_of resp)])
  else (s, [ConsoleError ErrIniciarSinId]).

(** The [error] callback of [iniciarTarea] in [continueAndClear]. *)
Definition iniciar_error (s : State) : State * list Effect :=
  (s, [ConsoleError ErrIniciar]).

(** The [error] callback of every [finalizarTarea]. *)
Definition finalizar_error (s : State) : State * list Effect :=
  (s, [ConsoleError ErrFinalizar]).

End WithHost.
End Premontaje.

(** ** Montaje: sections keyed by a colour and a VIN taken from Chasis *)

Module Montaje.

(** [type VinStatus = 'idle' | 'typing' | 'checking' | 'ok' | 'dup' | 'notfound' | 'invalid'] *)
Inductive VinStatus := idle | typing | checking | ok | dup | notfound | invalid.

#[global] Instance VinStatus_eq_dec : EqDecision VinStatus.
Proof. solve_decision. Defined.

Record State := mkState {
  userId : Z;                        (* getCurrentUserId() *)
  dailyCount : jsnum;
  loading : bool;
  errorMsg : option ErrorTag;
  colorOptions : list ColorOption;
  vehicleColorHex : jsstring;
  vehicleColorName : jsstring;
  bastidorOptions : list jsstring;
  vinQuery : jsstring;
  selectedBastidor : jsstring;
  vinEnUso : bool;
  vinStatus : VinStatus;
  sections : list Section;
  showModal : bool;
  _pendingSnapshot : option PendingSnapshot
}.

Definition set_dailyCount (v : jsnum) (s : State) : State :=
  mkState (userId s) v (loading s) (errorMsg s) (colorOptions s) (vehicleColorHex s)
    (vehicleColorName s) (bastidorOptions s) (vinQuery s) (selectedBastidor s)
    (vinEnUso s) (vinStatus s) (sections s) (showModal s) (_pendingSnapshot s).
Definition set_loading (v : bool) (s : State) : State :=
  mkState (userId s) (dailyCount s) v (errorMsg s) (colorOptions s) (vehicleColorHex s)
    (vehicleColorName s) (bastidorOptions s) (vinQuery s) (selectedBastidor s)
    (vinEnUso s) (vinStatus s) (sections s) (showModal s) (_pendingSnapshot s).
Definition set_colorOptions (v : list ColorOption) (s : State) : State :=
  mkState (userId s) (dailyCount s) (loading s) (errorMsg s) v (vehicleColorHex s)
    (vehicleColorName s) (bastidorOptions s) (vinQuery s) (selectedBastidor s)
    (vinEnUso s) (vinStatus s) (sections s) (showModal s) (_pendingSnapshot s).
Definition set_vehicleColorHex (v : jsstring) (s : State) : State :=
  mkState (userId s) (dailyCount s) (loading s) (errorMsg s) (colorOptions s) v
    (vehicleColorName s) (bastidorOptions s) (vinQuery s) (selectedBastidor s)
    (vinEnUso s) (vinStatus s) (sections s) (showModal s) (_pendingSnapshot s).
Definition set_vehicleColorName (v : jsstring) (s : State) : State :=
  mkState (userId s) (dailyCount s) (loading s) (errorMsg s) (colorOptions s)
    (vehicleColorHex s) v (bastidorOptions s) (vinQuery s) (selectedBastidor s)
    (vinEnUso s) (vinStatus s) (sections s) (showModal s) (_pendingSnapshot s).
Definition set_bastidorOptions (v : list jsstring) (s : State) : State :=
  mkState (userId s) (dailyCount s) (loading s) (errorMsg s) (colorOptions s)
    (vehicleColorHex s) (vehicleColorName s) v (vinQuery s) (selectedBastidor s)
    (vinEnUso s) (vinStatus s) (sections s) (showModal s) (_pendingSnapshot s).
Definition set_vinQuery (v : jsstring) (s : State) : State :=
  mkState (userId s) (dailyCount s) (loading s) (errorMsg s) (colorOptions s)
    (vehicleColorHex s) (vehicleColorName s) (bastidorOptions s) v (selectedBastidor s)
    (vinEnUso s) (vinStatus s) (sections s) (showModal s) (_pendingSnapshot s).
Definition set_selectedBastidor (v : jsstring) (s : State) : State :=
  mkState (userId s) (dailyCount s) (loading s) (errorMsg s) (colorOptions s)
    (vehicleColorHex s) (vehicleColorName s) (bastidorOptions s) (vinQuery s) v
    (vinEnUso s) (vinStatus s) (sections s) (showModal s) (_pendingSnapshot s).
Definition set_vinEnUso (v : bool) (s : State) : State :=
  mkState (userId s) (dailyCount s) (loading s) (errorMsg s) (colorOptions s)
    (vehicleColorHex s) (vehicleColorName s) (bastidorOptions s) (vinQuery s)
    (selectedBastidor s) v (vinStatus s) (sections s) (showModal s) (_pendingSnapshot s).
Definition set_vinStatus (v : VinStatus) (s : State) : State :=
  mkState (userId s) (dailyCount s) (loading s) (errorMsg s) (colorOptions s)
    (vehicleColorHex s) (vehicleColorName s) (bastidorOptions s) (vinQuery s)
    (selectedBastidor s) (vinEnUso s) v (sections s) (showModal s) (_pendingSnapshot s).
Definition set_sections (v : list Section) (s : State) : State :=
  mkState (userId s) (dailyCount s) (loading s) (errorMsg s) (colorOptions s)
    (vehicleColorHex s) (vehicleColorName s) (bastidorOptions s) (vinQuery s)
    (selectedBastidor s) (vinEnUso s) (vinStatus s) v (showModal s) (_pendingSnapshot s).
Definition set_showModal (v : bool) (s : State) : State :=
  mkState (userId s) (dailyCount s) (loading s) (errorMsg s) (colorOptions s)
    (vehicleColorHex s) (vehicleColorName s) (bastidorOptions s) (vinQuery s)
    (selectedBastidor s) (vinEnUso s) (vinStatus s) (sections s) v (_pendingSnapshot s).
Definition set_pendingSnapshot (v : option PendingSnapshot) (s : State) : State :=
  mkState (userId s) (dailyCount s) (loading s) (errorMsg s) (colorOptions s)
    (vehicleColorHex s) (vehicleColorName s) (bastidorOptions s) (vinQuery s)
    (selectedBastidor s) (vinEnUso s) (vinStatus s) (sections s) (showModal s) v.

Section WithHost.
Context {H : Host}.

(** [/^[A-Z0-9]+$/.test(s)] *)
Definition testAlnum (s : jsstring) : bool := truthyStr s && forallb isAZ09 s.

(** [isValidVin(v?: string | null)] *)
Definition isValidVin (v : option jsstring) : bool :=
  match v with
  | None => false
  | Some s => if truthyStr s then testAlnum (toUpperCase s) else false
  end.

(** [inDbList(v)] *)
Definition inDbList (v : jsstring) (s : State) : bool :=
  bool_decide (toUpperCase v ∈ bastidorOptions s).

(** The local [clean] of [onVinInput]:
    [(value || '').toUpperCase().replace(/[^A-Z0-9]/g, '')]. *)
Definition clean (value : jsstring) : jsstring :=
  List.filter isAZ09 (toUpperCase value).

(** [onVinInput(value)] up to the [subscribe]. *)
Definition onVinInput (value : jsstring) (s : State) : State * list Effect :=
  let c := clean value in
  let s := set_vinEnUso false (set_selectedBastidor c (set_vinQuery c s)) in
  if negb (truthyStr c) then (set_vinStatus idle s, [])
  else if negb (inDbList c s) then (set_vinStatus notfound s, [])
  else (set_vinStatus checking s, [IsVinDisponibleEnMontaje c]).

(** The [next] callback of [isVinDisponibleEnMontaje] in [onVinInput(value)],
    where [c] is the [clean] it closed over. *)
Definition disponible_next (c : jsstring) (available : bool) (s : State)
    : State * list Effect :=
  let s := set_vinStatus (if available then ok else dup) (set_vinEnUso (negb available) s) in
  if available then
    (s, [GetColorPinturaPorVin c; GetPendiente montaje c (userId s)])
  else (s, []).

(** The [error] callback of [isVinDisponibleEnMontaje] in [onVinInput]. *)
Definition disponible_error (s : State) : State :=
  set_vinStatus invalid (set_vinEnUso false s).

(** The selection of a colour [c], after it was pushed in the list. *)
Definition restoreColor (c : jsstring) (s : State) : State :=
  let s := set_colorOptions (pushColorIfMissing false c (colorOptions s)) s in
  match findColor c (colorOptions s) with
  | Some opt => set_vehicleColorName (co_label opt) (set_vehicleColorHex (co_value opt) s)
  | None => set_vehicleColorName (toLabel c) (set_vehicleColorHex c s)
  end.

(** The [next] callback of [getColorPinturaPorVin] in [onVinInput]. *)
Definition colorPorVin_next (color : option jsstring) (s : State) : State :=
  let c := trim (orEmpty color) in
  if truthyStr c then restoreColor c s else s.

(** [applyPendingIfReady()]; the id of the snapshot is not read. *)
Definition applyPendingIfReady (s : State) : State :=
  match _pendingSnapshot s with
  | None => s
  | Some snap =>
      match sections s with
      | [] => s
      | _ =>
          let c := trim (orEmpty (ps_color snap)) in
          let s := if truthyStr c then restoreColor c s else s in
          let ck := default ∅ (ps_checks snap) in
          let s := set_sections (List.map (markSection ck) (sections s)) s in
          set_pendingSnapshot None s
      end
  end.

(** [sectionComplete] *)
Definition sectionComplete (sec : Section) : bool :=
  (0 <? length (tasks sec))%nat && forallb done (tasks sec).

(** [allSectionsDone] *)
Definition allSectionsDone (s : State) : bool :=
  (0 <? length (sections s))%nat && forallb sectionComplete (sections s).

(** [canFinish] *)
Definition canFinish (s : State) : bool :=
  allSectionsDone s
  && truthyStr (vehicleColorHex s)
  && isValidVin (Some (selectedBastidor s))
  && inDbList (selectedBastidor s) s
  && negb (vinEnUso s)
  && bool_decide (vinStatus s = ok).

(** [isAutoFinalizable()] *)
Definition isAutoFinalizable (s : State) : bool :=
  allSectionsDone s
  && truthyStr (vehicleColorHex s)
  && truthyStr (selectedBastidor s)
  && bool_decide (vinStatus s = ok).

(** [toggleTask(si, ti)] *)
Definition toggleTask (i j : nat) (s : State) : option State :=
  (fun secs => set_sections secs s) <$> toggleAt i j (sections s).

(** [clearSection(si)] *)
Definition clearSection (i : nat) (s : State) : option State :=
  (fun secs => set_sections secs s) <$> clearSectionAt i (sections s).

(** [clearVehicle()] *)
Definition clearVehicle (s : State) : State :=
  set_vinStatus idle (set_vinEnUso false (set_vinQuery [] (set_selectedBastidor []
    (set_vehicleColorName [] (set_vehicleColorHex [] s))))).

(** [clearAll()] *)
Definition clearAll (s : State) : State :=
  clearVehicle (set_sections (uncheckAll (sections s)) s).

(** The [next] callback of [getCatalogo] in [cargarTareasDesdeBD]. *)
Definition catalogo_next (rows : list TareaCatalogo) (s : State) : State :=
  let s := set_sections (loadSections (js "Fase 1") rows) s in
  let s := set_loading false s in
  applyPendingIfReady s.

(** The [next] callback of [getPendiente] in [onVinInput]. *)
Definition pendiente_next (p : option SnapshotResp) (s : State) : State * list Effect :=
  match p with
  | None => (s, [])
  | Some p =>
      if sr_exists p then
        let s :=
          match sr_bastidor p with
          | Some b =>
              if truthyStr b then
                set_vinQuery (toUpperCase b) (set_selectedBastidor (toUpperCase b) s)
              else s
          | None => s
          end in
        let s := set_pendingSnapshot
                   (Some (mkSnapshot (sr_color p) None
                            (Some (default ∅ (sr_checks p))) (sr_id p))) s in
        let s := applyPendingIfReady s in
        match sr_id p with
        | Some id =>
            if isAutoFinalizable s && truthyNum id
            then (s, [AutoFinalizarTarea montaje id])
            else (s, [])
        | None => (s, [])
        end
      else (s, [])
  end.

(** [MODULE_KEY] *)
Definition MODULE_KEY : jsstring := js "MONTAJE".

(** The [next] callback of the automatic [finalizarTarea] in [onVinInput];
    [email] and [date] are what [getCurrentUserEmail()] and [getToday()]
    return when it runs. *)
Definition autoFinalizar_next (email date : jsstring) (s : State)
    : State * list Effect :=
  let newTotal := jsAdd (dailyCount s) (jsOfZ 1) in
  (clearAll (set_dailyCount newTotal s),
   [SetItemCount (getCountKey MODULE_KEY email date) newTotal]).

(** The [error] callback of the automatic [finalizarTarea] in [onVinInput]. *)
Definition autoFinalizar_error (s : State) : State * list Effect :=
  (s, [ConsoleError ErrAutoFinalizar]).

(** [buildChecksPayload()] *)
Definition buildChecksPayload (s : State) : Checks :=
  checksByLabel (flat_map tasks (sections s)).

(** The object passed to [iniciarTarea] by [continueAndClear]. *)
Definition startDto (s : State) : IniciarTareaDto :=
  mkDto (userId s) montaje (orNull (selectedBastidor s)) (orNull (vehicleColorHex s))
    None (buildChecksPayload s).

(** [continueAndClear()] up to the [subscribe]. *)
Definition continueAndClear (s : State) : State * list Effect :=
  if negb (canFinish s) then (s, [])
  else if negb (truthyNum (userId s)) then (s, [])
  else (s, [IniciarTarea (startDto s)]).

(** The [next] callback of [iniciarTarea] in [continueAndClear]. *)
Definition iniciar_next (resp : option IniciarTareaResp) (s : State)
    : State * list Effect :=
  if truthyId (id_area_of resp) then (s, [FinalizarTarea montaje (id_area_of resp)])
  else (s, [ConsoleError ErrIniciarSinId]).

(** The [error] callback of [iniciarTarea] in [continueAndClear]. *)
Definition iniciar_error (s : State) : State * list Effect :=
  (s, [ConsoleError ErrIniciar]).

(** The [next] callback of [finalizarTarea] in [continueAndClear]; [email]
    and [date] are what [getCurrentUserEmail()] and [getToday()] return when
    it runs. *)
Definition afterFinish (email date : jsstring) (s : State) : State * list Effect :=
  let newTotal := jsAdd (dailyCount s) (jsOfZ 1) in
  (set_showModal false (clearAll (set_dailyCount newTotal s)),
   [SetItemCount (getCountKey MODULE_KEY email date) newTotal]).

End WithHost.
End Montaje.

(** ** Reading the checklist *)

(** The task at item [j] of section [i], [secs[i].tasks[j]]. *)
Definition taskAt (i j : nat) (secs : list Section) : option Task :=
  (secs !! i) ≫= (fun sec => tasks sec !! j).

(** The labels of a catalog, section by section, in order. *)
Definition labelsOf (secs : list Section) : list (list jsstring) :=
  List.map (fun sec => List.map label (tasks sec)) secs.

(** Some section has no task, or some task is not done. *)
Definition incomplete (secs : list Section) : Prop :=
  Exists (fun sec => tasks sec = [] \/ Exists (fun t => done t = false) (tasks sec)) secs.

(** Every section has a task and every task is done. *)
Definition complete (secs : list Section) : Prop :=
  Forall (fun sec => tasks sec <> [] /\ Forall (fun t => done t = true) (tasks sec)) secs.

(** No section is empty. *)
Definition populated (secs : list Section) : Prop :=
  Forall (fun sec => tasks sec <> []) secs.

(** ** Sample states *)

(** Chasis: one task, a valid VIN under check. *)
Definition chasis_checked_one : Chasis.State :=
  Chasis.mkState 1 0 false None [mkTask (js "Soldar soporte") false]
    (js "WBA3A5C50DF12345X") Chasis.checking None None false.

(** Chasis: the only task done, the VIN accepted, resumed from record 7. *)
Definition chasis_ready : Chasis.State :=
  Chasis.mkState 1 0 false None [mkTask (js "Soldar soporte") true]
    (js "WBA3A5C50DF12345X") Chasis.ok (Some 7) None true.

(** Chasis: as above, nothing resumed. *)
Definition chasis_ready_new : Chasis.State :=
  Chasis.mkState 1 0 false None [mkTask (js "Soldar soporte") true]
    (js "WBA3A5C50DF12345X") Chasis.ok None None true.

(** Chasis: the catalog request in flight, the VIN typed. *)
Definition chasis_waiting : Chasis.State :=
  (@Chasis.onBastidorInput latinHost (js "WBA3A5C50DF12345X") (Chasis.init 1 0)).1.

(** The answer of the status query: record 7 is pending, its task is checked. *)
Definition pending_seven : Chasis.VinEstadoChasisResp :=
  Chasis.mkVinEstado Chasis.st_pending (Some 7)
    (Some {[ js "soldar_soporte" := true ]}).

(** The catalog of the samples: one active row. *)
Definition one_row : list TareaCatalogo :=
  [mkRow None (js "Soldar soporte") true].

(** Pintura: two tasks done in one section, colour and RAL filled, resumed
    from record 7. *)
Definition pintura_ready : Pintura.State :=
  Pintura.mkState 1 0 false None (js "Rojo") (js "3020")
    [mkSection (js "Partes") [mkTask (js "Lijar") true; mkTask (js "Imprimar") true]]
    (Some 7) None true.

(** Pintura: as above, nothing resumed. *)
Definition pintura_ready_new : Pintura.State :=
  Pintura.mkState 1 0 false None (js "Rojo") (js "3020")
    [mkSection (js "Partes") [mkTask (js "Lijar") true; mkTask (js "Imprimar") true]]
    None None true.

(** Premontaje: a colour chosen, one of two tasks still open. *)
Definition premontaje_one_open : Premontaje.State :=
  Premontaje.mkState 1 0 false None [] (js "Rojo") (js "Rojo")
    [mkSection (js "Fase 1") [mkTask (js "Montar estribera") true;
                              mkTask (js "Ajustar faro") false]]
    None None false.

(** Chasis: the catalog of one task has arrived, the operator has typed a
    first VIN and then a second one, and the status query of the second has
    answered [finalized]; the answer of the first query is still to come. *)
Definition chasis_second_vin_finalized : Chasis.State :=
  @Chasis.vinEstado_next latinHost (Chasis.mkVinEstado Chasis.st_finalized None None)
    (@Chasis.onBastidorInput latinHost (js "WBA3A5C50DF12345X")
       (@Chasis.onBastidorInput latinHost (js "1HGCM82633A004352")
          (@Chasis.catalogo_next latinHost one_row (Chasis.init 1 0)).1).1).1.

(** * Further parts of the screens and of the service *)

(** What the proofs on column names use of the host: on a string of Basic
    Latin code units [toLowerCase] is the code-unit-wise Basic Latin mapping
    and the canonical decomposition changes nothing. *)
Class HostLawsLower (H : Host) : Prop := {
  toLowerCase_basic_latin :
    forall s, forallb isBasicLatin s = true -> toLowerCase s = List.map lowerLatin s;
  normalizeNFD_basic_latin :
    forall s, forallb isBasicLatin s = true -> normalizeNFD s = s
}.

#[global] Instance Proceso_eq_dec : EqDecision Proceso.
Proof. solve_decision. Defined.

(** ** TareasService *)

(** [.filter((v, i, a) => a.indexOf(v) === i)]: the element at position [i]
    stays when it does not occur before [i]; [before] holds the elements seen
    so far. *)
Fixpoint keepFirstFrom (before rest : list jsstring) : list jsstring :=
  match rest with
  | [] => []
  | v :: t =>
      if bool_decide (v ∈ before) then keepFirstFrom (before ++ [v]) t
      else v :: keepFirstFrom (before ++ [v]) t
  end.

Definition keepFirst (a : list jsstring) : list jsstring := keepFirstFrom [] a.

(** The comparison of the default [sort()]: strings by their code units. *)
Definition compareCodeUnits (a b : jsstring) : Z :=
  match list_compare N.compare a b with Lt => -1 | Eq => 0 | Gt => 1 end.

(** [/^[A-Z0-9]{17}$/.test(v)], as in [getBastidoresChasis]. *)
Definition testVin17 (s : jsstring) : bool :=
  (length s =? 17)%nat && forallb isAZ09 s.

(** The [map] of [getBastidoresChasis] on the list of the response. *)
Definition getBastidoresChasis `{Host} (resp : list (option jsstring)) : list jsstring :=
  sortBy compareCodeUnits
    (keepFirst
       (List.filter testVin17
          (List.map (fun v => trim (toUpperCase (orEmpty v))) resp))).

(** The [map] of [getColoresPintura] on the array of the response (each entry
    already a string or [null]). *)
Definition getColoresPintura (resp : list (option jsstring)) : list jsstring :=
  keepFirst (List.filter truthyStr (List.map (fun v => trim (orEmpty v)) resp)).

(** ** Loading the colours and the VINs (Premontaje, Montaje) *)

Section Loaders.
Context {H : Host}.

(** The loop of [cargarColoresDesdePintura]; [seen] is the [Set] of keys. *)
Fixpoint colorLoop (seen : gset jsstring) (dbColors : list jsstring) : list ColorOption :=
  match dbColors with
  | [] => []
  | raw :: t =>
      let val := trim raw in
      if negb (truthyStr val) then colorLoop seen t
      else
        let key := toUpperCase val in
        if bool_decide (key ∈ seen) then colorLoop seen t
        else mkColor (toLabel val) val :: colorLoop ({[key]} ∪ seen) t
  end.

(** The [next] callback of [getColoresPintura] in Premontaje. *)
Definition premontaje_colores_next (dbColors : list jsstring) (s : Premontaje.State)
    : Premontaje.State :=
  Premontaje.applyPendingIfReady
    (Premontaje.set_colorOptions
       (sortBy (fun a b => localeCompareEs (co_label a) (co_label b))
          (colorLoop ∅ dbColors)) s).

(** The [next] callback of [getColoresPintura] in Montaje. *)
Definition montaje_colores_next (dbColors : list jsstring) (s : Montaje.State)
    : Montaje.State :=
  Montaje.set_colorOptions (colorLoop ∅ dbColors) s.

(** The callback of [forkJoin] in [filterAvailableInMontaje(vins, batchLimit)];
    [answers] holds, in the order of the requests, the answer for each VIN of
    the slice ([false] when its request failed). *)
Definition filterAvailable_next (vins : list jsstring) (batchLimit : nat)
    (answers : list bool) (s : Montaje.State) : Montaje.State :=
  let results := zip (take batchLimit vins) answers in
  let filtered := List.map (fun r => toUpperCase r.1) (List.filter snd results) in
  let remainder := List.map toUpperCase (drop batchLimit vins) in
  Montaje.set_bastidorOptions (keepFirst (filtered ++ remainder)) s.

(** [filterAvailableInMontaje(vins, batchLimit)] once every request has
    ended; [forkJoin] of no request ends without a value, so the callback
    runs only when the slice is not empty. *)
Definition filterAvailableInMontaje (vins : list jsstring) (batchLimit : nat)
    (answers : list bool) (s : Montaje.State) : Montaje.State :=
  match take batchLimit vins with
  | [] => s
  | _ :: _ => filterAvailable_next vins batchLimit answers s
  end.

(** The list given to [filterAvailableInMontaje] by [cargarBastidoresChasis]. *)
Definition upperUnique (resp : list jsstring) : list jsstring :=
  keepFirst (List.map toUpperCase resp).

(** The [next] callback of [getBastidoresChasis] in [cargarBastidoresChasis],
    once the availability requests have ended. *)
Definition bastidores_next (resp : list jsstring) (answers : list bool)
    (s : Montaje.State) : Montaje.State :=
  filterAvailableInMontaje (upperUnique resp) 100 answers s.

(** The [error] callback of [getBastidoresChasis] in [cargarBastidoresChasis]. *)
Definition bastidores_error (s : Montaje.State) : Montaje.State :=
  Montaje.set_bastidorOptions [] s.

(** The [next] callback of [getPendientesUsuario] in the auto-resume of
    Montaje, up to the [subscribe] of [getPendiente]. *)
Definition montaje_autoResume_next (items : list PendingItem) (s : Montaje.State)
    : Montaje.State * list Effect :=
  match List.find (fun p => bool_decide (pi_area_key p = montaje)
                            && (0 <? length (trim (orEmpty (pi_bastidor p))))%nat) items with
  | None => (s, [])
  | Some mine =>
      let vin := trim (toUpperCase (orEmpty (pi_bastidor mine))) in
      if negb (truthyStr vin) then (s, [])
      else
        let s := if Montaje.inDbList vin s then s
                 else Montaje.set_bastidorOptions
                        (keepFirst (Montaje.bastidorOptions s ++ [vin])) s in
        let s := Montaje.set_vinQuery vin (Montaje.set_selectedBastidor vin s) in
        (s, [GetPendiente montaje vin (Montaje.userId s)])
  end.

(** The [next] callback of [getPendiente] in the auto-resume of Montaje. *)
Definition montaje_autoResume_pendiente_next (p : option SnapshotResp) (s : Montaje.State)
    : Montaje.State :=
  match p with
  | None => s
  | Some p =>
      if sr_exists p then
        let s := Montaje.set_pendingSnapshot
                   (Some (mkSnapshot (sr_color p) None
                            (Some (default ∅ (sr_checks p))) (sr_id p))) s in
        Montaje.set_vinStatus Montaje.ok (Montaje.applyPendingIfReady s)
      else s
  end.

End Loaders.

(** ** Leaving a screen *)

(** The argument of [tryLeave] and [leaveNow]. *)
Inductive LeaveTarget := toHome | toLogout.

Inductive NavEffect :=
| RemoveSession      (* sessionStorage.removeItem('token'); ...removeItem('qp_user') *)
| NavigateLogin      (* router.navigate([''], { replaceUrl: true }) *)
| NavigateHome.      (* router.navigate(['/home']) *)

(** [leaveNow(target)] *)
Definition leaveNow (target : LeaveTarget) : list NavEffect :=
  match target with
  | toLogout => [RemoveSession; NavigateLogin]
  | toHome => [NavigateHome]
  end.

(** [target || 'home'] *)
Definition orHome (t : option LeaveTarget) : LeaveTarget := default toHome t.

(** Pintura with the fields of its leave dialog. *)
Module PinturaLeave.

Record State := mkState {
  screen : Pintura.State;
  _showLeaveModal : bool;
  _pendingLeaveTarget : option LeaveTarget
}.

Inductive Out :=
| Save (e : Effect)      (* a request whose [next] and [error] are both [done] *)
| Nav (n : NavEffect).

Section WithHost.
Context {H : Host}.

(** [hasProgress()] *)
Definition hasProgress (s : Pintura.State) : bool :=
  existsb (fun sec => existsb done (tasks sec)) (Pintura.sections s)
  || (0 <? length (trim (Pintura.colorDescripcion s)))%nat
  || (0 <? length (trim (Pintura.colorRAL s)))%nat.

(** [shouldPromptOnLeave()] *)
Definition shouldPromptOnLeave (s : State) : bool :=
  Pintura.colorInputsComplete (screen s).

(** [tryLeave(target)] *)
Definition tryLeave (target : LeaveTarget) (s : State) : State * list Out :=
  if shouldPromptOnLeave s then (mkState (screen s) true (Some target), [])
  else (s, List.map Nav (leaveNow target)).

(** [{ color, RAL, ...this.buildChecksPatch() }] of [confirmSaveAndLeave]. *)
Definition savePatch (s : Pintura.State) : Patch :=
  Pintura.buildChecksPatch s
  ∪ <[js "color" := PStr (trim (Pintura.colorDescripcion s))]>
      (<[js "RAL" := PStr (trim (Pintura.colorRAL s))]> ∅).

(** The object passed to [iniciarTarea] by [confirmSaveAndLeave]. *)
Definition saveDto (s : Pintura.State) : IniciarTareaDto :=
  mkDto (Pintura.userId s) pintura None
    (Some (trim (Pintura.colorDescripcion s))) (Some (trim (Pintura.colorRAL s)))
    (checksFromEntries (Pintura.sections s)).

(** [confirmSaveAndLeave()] up to the [subscribe]. *)
Definition confirmSaveAndLeave (s : State) : State * list Out :=
  if negb (Pintura.colorInputsComplete (screen s)) then
    (mkState (screen s) false (_pendingLeaveTarget s),
     List.map Nav (leaveNow (orHome (_pendingLeaveTarget s))))
  else if negb (truthyNum (Pintura.userId (screen s))) then
    (mkState (screen s) false (_pendingLeaveTarget s),
     List.map Nav (leaveNow (orHome (_pendingLeaveTarget s))))
  else if truthyId (Pintura._pendingId (screen s)) then
    (s, [Save (ActualizarTarea pintura (default 0 (Pintura._pendingId (screen s)))
                 (savePatch (screen s)))])
  else (s, [Save (IniciarTarea (saveDto (screen s)))]).

(** [done], the [next] and the [error] callback of the save request. *)
Definition save_done (s : State) : State * list Out :=
  (mkState (Pintura.clearAll (screen s)) false (_pendingLeaveTarget s),
   List.map Nav (leaveNow (orHome (_pendingLeaveTarget s)))).

(** [confirmLeaveWithoutSaving()] *)
Definition confirmLeaveWithoutSaving (s : State) : State * list Out :=
  (mkState (Pintura.clearAll (screen s)) false (_pendingLeaveTarget s),
   List.map Nav (leaveNow (orHome (_pendingLeaveTarget s)))).

(** [cancelLeave()] *)
Definition cancelLeave (s : State) : State := mkState (screen s) false None.

(** The [next] callback of [getPendientesUsuario] in the auto-resume, up to
    the [subscribe] of [getSnapshot]. *)
Definition autoResume_next (items : list PendingItem) (s : Pintura.State)
    : list Effect :=
  match List.find (fun p => bool_decide (pi_area_key p = pintura)) items with
  | Some mine => [GetSnapshot pintura (pi_id mine)]
  | None => []
  end.

End WithHost.
End PinturaLeave.

(** Chasis with the fields of its leave dialog. *)
Module ChasisLeave.

Record State := mkState {
  screen : Chasis.State;
  _showLeaveModal : bool;
  _leaveTarget : option LeaveTarget
}.

Inductive Out :=
| Screen (e : Chasis.Effect)
| SaveIniciar (dto : IniciarTareaDto)   (* iniciarTarea of confirmSaveAndLeave *)
| Nav (n : NavEffect).

(** [hasProgress()] *)
Definition hasProgress (s : Chasis.State) : bool :=
  existsb done (Chasis.tasks s) && truthyStr (Chasis._bastidor s).

(** [shouldPromptOnLeave()] *)
Definition shouldPromptOnLeave (s : State) : bool :=
  hasProgress (screen s) && bool_decide (Chasis.vinState (screen s) = Chasis.ok).

(** [tryLeave(target)] *)
Definition tryLeave (target : LeaveTarget) (s : State) : State * list Out :=
  if shouldPromptOnLeave s then (mkState (screen s) true (Some target), [])
  else (s, List.map Nav (leaveNow target)).

(** [closeModalLeave()] *)
Definition closeModalLeave (s : State) : State := mkState (screen s) false None.

(** [this.leaveNow(this._leaveTarget || 'home')] *)
Definition leave (s : State) : list Out :=
  List.map Nav (leaveNow (orHome (_leaveTarget s))).

(** The object passed to [iniciarTarea] by [confirmSaveAndLeave]. *)
Definition saveDto (s : Chasis.State) : IniciarTareaDto :=
  mkDto (Chasis.userId s) chasis (Some (Chasis._bastidor s)) None None
    (Chasis.buildChecksPayload s).

(** [confirmSaveAndLeave()] up to the [subscribe]. *)
Definition confirmSaveAndLeave (s : State) : State * list Out :=
  if negb (bool_decide (Chasis.vinState (screen s) = Chasis.ok)) then
    let s := closeModalLeave s in (s, leave s)
  else if negb (truthyNum (Chasis.userId (screen s))) then
    let s := closeModalLeave s in (s, leave s)
  else (s, [SaveIniciar (saveDto (screen s))]).

(** The [next] callback of the save request. *)
Definition save_next (s : State) : State * list Out :=
  let s := closeModalLeave s in
  let '(sc, e) := Chasis.clearAll (screen s) in
  let s := mkState sc (_showLeaveModal s) (_leaveTarget s) in
  (s, List.map Screen e ++ leave s).

(** The [error] callback of the save request. *)
Definition save_error (s : State) : State * list Out :=
  let s := closeModalLeave s in (s, leave s).

(** [confirmLeaveWithoutSaving()] *)
Definition confirmLeaveWithoutSaving (s : State) : State * list Out :=
  let s := closeModalLeave s in
  let '(sc, e) := Chasis.clearAll (screen s) in
  let s := mkState sc (_showLeaveModal s) (_leaveTarget s) in
  (s, List.map Screen e ++ leave s).

End ChasisLeave.

(** Premontaje with the fields of its leave dialog. *)
Module PremontajeLeave.

Record State := mkState {
  screen : Premontaje.State;
  _showLeaveModal : bool;
  _pendingLeaveTarget : option LeaveTarget
}.

Inductive Out :=
| Save (e : Effect)      (* a request whose [next] and [error] are both [done] *)
| Nav (n : NavEffect).

Section WithHost.
Context {H : Host}.

(** [hasProgress()] *)
Definition hasProgress (s : Premontaje.State) : bool :=
  existsb (fun sec => existsb done (tasks sec)) (Premontaje.sections s)
  || (truthyStr (Premontaje.vehicleColorHex s)
      || truthyStr (Premontaje.vehicleColorName s)).

(** [shouldPromptOnLeave()] *)
Definition shouldPromptOnLeave (s : State) : bool := Premontaje.validColor (screen s).

(** [tryLeave(target)] *)
Definition tryLeave (target : LeaveTarget) (s : State) : State * list Out :=
  if shouldPromptOnLeave s then (mkState (screen s) true (Some target), [])
  else (s, List.map Nav (leaveNow target)).

(** [{ color, ...this.buildChecksPatch() }] of [confirmSaveAndLeave]. *)
Definition savePatch (s : Premontaje.State) : Patch :=
  Premontaje.buildChecksPatch s
  ∪ <[js "color" := PStr (Premontaje.vehicleColorHex s)]> ∅.

(** The object passed to [iniciarTarea] by [confirmSaveAndLeave]. *)
Definition saveDto (s : Premontaje.State) : IniciarTareaDto :=
  mkDto (Premontaje.userId s) premontaje None (Some (Premontaje.vehicleColorHex s)) None
    (checksByLabel (flat_map tasks (Premontaje.sections s))).

(** [confirmSaveAndLeave()] up to the [subscribe]. *)
Definition confirmSaveAndLeave (s : State) : State * list Out :=
  if negb (Premontaje.validColor (screen s)) then
    (mkState (screen s) false (_pendingLeaveTarget s),
     List.map Nav (leaveNow (orHome (_pendingLeaveTarget s))))
  else if negb (truthyNum (Premontaje.userId (screen s))) then
    (mkState (screen s) false (_pendingLeaveTarget s),
     List.map Nav (leaveNow (orHome (_pendingLeaveTarget s))))
  else if truthyId (Premontaje._pendingId (screen s)) then
    (s, [Save (ActualizarTarea premontaje (default 0 (Premontaje._pendingId (screen s)))
                 (savePatch (screen s)))])
  else (s, [Save (IniciarTarea (saveDto (screen s)))]).

(** [done], the [next] and the [error] callback of the save request. *)
Definition save_done (s : State) : State * list Out :=
  (mkState (Premontaje.clearAll (screen s)) false (_pendingLeaveTarget s),
   List.map Nav (leaveNow (orHome (_pendingLeaveTarget s)))).

(** [confirmLeaveWithoutSaving()] *)
Definition confirmLeaveWithoutSaving (s : State) : State * list Out :=
  (mkState (Premontaje.clearAll (screen s)) false (_pendingLeaveTarget s),
   List.map Nav (leaveNow (orHome (_pendingLeaveTarget s)))).

(** [cancelLeave()] *)
Definition cancelLeave (s : State) : State := mkState (screen s) false None.

End WithHost.
End PremontajeLeave.

(** Montaje with the fields of its leave dialog. *)
Module MontajeLeave.

Record State := mkState {
  screen : Montaje.State;
  _showLeaveModal : bool;
  _pendingLeaveTarget : option LeaveTarget
}.

Inductive Out :=
| SaveIniciar (dto : IniciarTareaDto)   (* iniciarTarea of confirmSaveAndLeave *)
| Nav (n : NavEffect).

(** [hasProgress()] *)
Definition hasProgress (s : Montaje.State) : bool :=
  existsb (fun sec => existsb done (tasks sec)) (Montaje.sections s)
  || (truthyStr (Montaje.vehicleColorHex s) || truthyStr (Montaje.vehicleColorName s))
  || (0 <? length (trim (Montaje.selectedBastidor s)))%nat.

(** [shouldPromptOnLeave()] *)
Definition shouldPromptOnLeave (s : State) : bool :=
  truthyStr (Montaje.vehicleColorHex (screen s))
  && truthyStr (Montaje.selectedBastidor (screen s))
  && bool_decide (Montaje.vinStatus (screen s) = Montaje.ok).

(** [tryLeave(target)] *)
Definition tryLeave (target : LeaveTarget) (s : State) : State * list Out :=
  if shouldPromptOnLeave s then (mkState (screen s) true (Some target), [])
  else (s, List.map Nav (leaveNow target)).

(** The object passed to [iniciarTarea] by [confirmSaveAndLeave]. *)
Definition saveDto (s : Montaje.State) : IniciarTareaDto :=
  mkDto (Montaje.userId s) montaje (Some (Montaje.selectedBastidor s))
    (Some (Montaje.vehicleColorHex s)) None (Montaje.buildChecksPayload s).

(** [confirmSaveAndLeave()] up to the [subscribe]. *)
Definition confirmSaveAndLeave (s : State) : State * list Out :=
  if negb (truthyStr (Montaje.vehicleColorHex (screen s)))
     || negb (truthyStr (Montaje.selectedBastidor (screen s)))
     || negb (bool_decide (Montaje.vinStatus (screen s) = Montaje.ok)) then
    (mkState (screen s) false (_pendingLeaveTarget s),
     List.map Nav (leaveNow (orHome (_pendingLeaveTarget s))))
  else if negb (truthyNum (Montaje.userId (screen s))) then
    (mkState (screen s) false (_pendingLeaveTarget s),
     List.map Nav (leaveNow (orHome (_pendingLeaveTarget s))))
  else (s, [SaveIniciar (saveDto (screen s))]).

(** The [next] callback of the save request. *)
Definition save_next (s : State) : State * list Out :=
  (mkState (Montaje.clearAll (screen s)) false (_pendingLeaveTarget s),
   List.map Nav (leaveNow (orHome (_pendingLeaveTarget s)))).

(** The [error] callback of the save request. *)
Definition save_error (s : State) : State * list Out :=
  (mkState (screen s) false (_pendingLeaveTarget s),
   List.map Nav (leaveNow (orHome (_pendingLeaveTarget s)))).

(** [confirmLeaveWithoutSaving()] *)
Definition confirmLeaveWithoutSaving (s : State) : State * list Out :=
  (mkState (Montaje.clearAll (screen s)) false (_pendingLeaveTarget s),
   List.map Nav (leaveNow (orHome (_pendingLeaveTarget s)))).

(** [cancelLeave()] *)
Definition cancelLeave (s : State) : State := mkState (screen s) false None.

End MontajeLeave.

(** ** Shapes used by the proofs *)

(** A string over [a-z0-9_] in which no underscore follows an underscore;
    [prevU] tells that the previous code unit was an underscore. *)
Fixpoint collapsed (prevU : bool) (s : jsstring) : bool :=
  match s with
  | [] => true
  | c :: t =>
      if isaz09 c then collapsed false t
      else isUnderscore c && negb prevU && collapsed true t
  end.


(** The entry that the tasks [ts] give to the label [l] of a start request:
    the flag of the last task with this label. *)
Definition labelEntry (ts : list Task) (l : jsstring) : option bool :=
  done <$> last (List.filter (fun t => bool_decide (label t = l)) ts).

(** The mantissa [p] shifted left by [k] bits. *)
Definition shlP (k : Z) (p : positive) : positive :=
  match k with Z.pos d => Pos.iter xO p d | _ => p end.

(** The tasks kept under the key [k] of [mapSec], [[]] when the key is absent. *)
Fixpoint lookupGroup (k : jsstring) (m : list (jsstring * list Task)) : list Task :=
  match m with
  | [] => []
  | (k', ts) :: rest => if bool_decide (k' = k) then ts else lookupGroup k rest
  end.

(** The order of two results of [faseNum]; [None] is [Infinity]. *)
Definition faseLe (a b : option Z) : Prop :=
  match a, b with
  | _, None => True
  | None, Some _ => False
  | Some x, Some y => x <= y
  end.

(** The active rows of the section [nm], as unchecked tasks in catalog order. *)
Definition rowsOfSeccion (dflt nm : jsstring) (rows : list TareaCatalogo) : list Task :=
  List.map (fun r => mkTask (row_label r) false)
    (List.filter (fun r => row_activa r && bool_decide (seccionOf dflt r = nm)) rows).

(** Two lists of sections with the same names and the same labels, in order. *)
Definition sameShape (a b : list Section) : Prop :=
  labelsOf a = labelsOf b /\ List.map name a = List.map name b.

(** The arrival of a successful finalize response. *)
Definition isFinalizarNext (e : Pintura.Event) : bool :=
  match e with Pintura.FinalizarNext _ _ => true | _ => false end.

(** The arrival of the catalog. *)
Definition isCatalogoNext (e : Pintura.Event) : bool :=
  match e with Pintura.CatalogoNext _ => true | _ => false end.

(** ** Sample data for the further parts *)

(** Two sections whose labels give the columns [lijar], [imprimar], [pulir]. *)
Definition three_tasks : list Section :=
  [mkSection (js "Fase 1") [mkTask (js "Lijar") true; mkTask (js "Imprimar") false];
   mkSection (js "Fase 2") [mkTask (js "Pulir") true]].

(** The checks a backend gives back for the update body of [three_tasks]. *)
Definition three_checks : Checks :=
  <[js "lijar" := true]> (<[js "imprimar" := false]> (<[js "pulir" := true]> ∅)).

(** A snapshot stored by "Pendientes": record 7, the VIN typed in lower case. *)
Definition stored_seven : Chasis.StoredSnapshot :=
  Chasis.mkStored (Some 7) (Some (js " wba3a5c50df12345x "))
    (Some {[ js "soldar_soporte" := true ]}).

(** A response of the VIN list of Chasis: one VIN twice, one malformed entry,
    one missing entry. *)
Definition vin_response : list (option jsstring) :=
  [Some (js " wba3a5c50df12345x "); Some (js "1HGCM82633A004352"); None;
   Some (js "WBA3A5C50DF12345X"); Some (js "TOO-SHORT")].

(** Montaje as it opens for user 1, nothing loaded yet. *)
Definition montaje_empty : Montaje.State :=
  Montaje.mkState 1 0 false None [] [] [] [] [] [] false Montaje.idle [] false None.

(** Montaje at work for user 1: a colour chosen, an accepted VIN selected,
    the only task checked. *)
Definition montaje_working : Montaje.State :=
  Montaje.mkState 1 0 false None [mkColor (js "Rojo") (js "Rojo")] (js "Rojo") (js "Rojo")
    [js "WBA3A5C50DF12345X"] (js "WBA3A5C50DF12345X") (js "WBA3A5C50DF12345X") false
    Montaje.ok [mkSection (js "Fase 1") [mkTask (js "Montar faro") true]] false None.

(** * Properties *)

(** ** The host and strings *)

Lemma latinHost_laws : HostLaws latinHost.
Proof. constructor. intros s _. reflexivity. Qed.

Lemma isAZ09_basic_latin c : isAZ09 c = true -> isBasicLatin c = true.
Proof.
  unfold isAZ09, isUpperAZ, isDigit, inRange, isBasicLatin. intros Hc.
  apply N.ltb_lt. apply orb_true_iff in Hc as [Hc|Hc];
    apply andb_true_iff in Hc as [_ Hc]; apply N.leb_le in Hc; lia.
Qed.

Lemma isAZ09_upperLatin c : isAZ09 c = true -> upperLatin c = c.
Proof.
  unfold isAZ09, upperLatin, isUpperAZ, isDigit, isLowerAZ, inRange. intros Hc.
  destruct ((97 <=? c)%N && (c <=? 122)%N) eqn:Hl; [|reflexivity].
  apply andb_true_iff in Hl as [Hl _]; apply N.leb_le in Hl.
  apply orb_true_iff in Hc as [Hc|Hc];
    apply andb_true_iff in Hc as [_ Hc]; apply N.leb_le in Hc; lia.
Qed.

(** [toUpperCase] leaves a string over [A-Z0-9] as it is. *)
Lemma toUpperCase_AZ09 `{HostLaws} (s : jsstring) :
  forallb isAZ09 s = true -> toUpperCase s = s.
Proof.
  intros Hs. rewrite toUpperCase_basic_latin.
  - induction s as [|c s IH]; [reflexivity|]. simpl in *.
    apply andb_true_iff in Hs as [Hc Hs]. by rewrite isAZ09_upperLatin, IH.
  - induction s as [|c s IH]; [reflexivity|]. simpl in *.
    apply andb_true_iff in Hs as [Hc Hs]. by rewrite isAZ09_basic_latin, IH.
Qed.

Lemma forallb_filter_same {A} (p : A -> bool) (l : list A) :
  forallb p (List.filter p l) = true.
Proof.
  induction l as [|x l IH]; [reflexivity|]. simpl.
  destruct (p x) eqn:Hx; simpl; [by rewrite Hx|done].
Qed.

Lemma filter_all {A} (p : A -> bool) (l : list A) :
  forallb p l = true -> List.filter p l = l.
Proof.
  induction l as [|x l IH]; [reflexivity|]. simpl. intros Hl.
  apply andb_true_iff in Hl as [Hx Hl]. by rewrite Hx, IH.
Qed.

Lemma forallb_take {A} (p : A -> bool) n (l : list A) :
  forallb p l = true -> forallb p (take n l) = true.
Proof.
  revert n; induction l as [|x l IH]; intros [|n]; simpl; try done.
  intros Hl. apply andb_true_iff in Hl as [Hx Hl]. by rewrite Hx, IH.
Qed.

(** ** VIN normalisation and validity (Chasis, Montaje) *)

Lemma chasis_clean_AZ09 `{Host} v : forallb isAZ09 (Chasis.clean v) = true.
Proof. unfold Chasis.clean. apply forallb_take, forallb_filter_same. Qed.

Lemma montaje_clean_AZ09 `{Host} v : forallb isAZ09 (Montaje.clean v) = true.
Proof. apply forallb_filter_same. Qed.

Lemma montaje_clean_fixed `{HostLaws} v :
  forallb isAZ09 v = true -> Montaje.clean v = v.
Proof.
  intros Hv. unfold Montaje.clean. rewrite (toUpperCase_AZ09 v Hv).
  by apply filter_all.
Qed.

Lemma chasis_clean_length `{Host} v : (length (Chasis.clean v) <= 17)%nat.
Proof. unfold Chasis.clean. rewrite length_take. lia. Qed.

Lemma chasis_clean_fixed `{HostLaws} v :
  forallb isAZ09 v = true -> (length v <= 17)%nat -> Chasis.clean v = v.
Proof.
  intros Hv Hn. unfold Chasis.clean. rewrite (toUpperCase_AZ09 v Hv).
  rewrite (filter_all _ _ Hv). by apply take_ge.
Qed.

(** C5, amended. In Chasis the normalisation of the raw VIN (upper case, keep
    [A-Z0-9], cut to 17) is idempotent, gives at most 17 code units, all in
    [A-Z0-9]. In Montaje the normalisation (upper case, keep [A-Z0-9], no cut)
    is idempotent and gives code units in [A-Z0-9] only; it returns a string
    over [A-Z0-9] unchanged whatever its length, so its output has no bound. *)
Theorem vin_clean_normal_form (H : Host) (HL : HostLaws H) (v : jsstring) :
  (Chasis.clean (Chasis.clean v) = Chasis.clean v
   /\ (length (Chasis.clean v) <= 17)%nat
   /\ forallb isAZ09 (Chasis.clean v) = true)
  /\ (Montaje.clean (Montaje.clean v) = Montaje.clean v
      /\ forallb isAZ09 (Montaje.clean v) = true
      /\ (forallb isAZ09 v = true -> Montaje.clean v = v)).
Proof.
  split; [split; [|split]|split; [|split]].
  - apply chasis_clean_fixed; [apply chasis_clean_AZ09 | apply chasis_clean_length].
  - apply chasis_clean_length.
  - apply chasis_clean_AZ09.
  - apply montaje_clean_fixed, montaje_clean_AZ09.
  - apply montaje_clean_AZ09.
  - apply montaje_clean_fixed.
Qed.

(** The theorem at the raw input ["wba 3a5c-50df12345xyz"] on the Basic Latin
    host: the Chasis output is the 17 code units ["WBA3A5C50DF12345X"]. *)
Lemma vin_clean_normal_form_witness :
  @Chasis.clean latinHost (js "wba 3a5c-50df12345xyz") = js "WBA3A5C50DF12345X"
  /\ @Chasis.clean latinHost (@Chasis.clean latinHost (js "wba 3a5c-50df12345xyz"))
     = @Chasis.clean latinHost (js "wba 3a5c-50df12345xyz")
  /\ (length (@Chasis.clean latinHost (js "wba 3a5c-50df12345xyz")) <= 17)%nat.
Proof.
  split; [reflexivity|].
  pose proof (vin_clean_normal_form latinHost latinHost_laws
                (js "wba 3a5c-50df12345xyz")) as [[Hi [Hl _]] _].
  exact (conj Hi Hl).
Defined.

(** C5 as stated fails in Montaje: on every host that follows the Basic Latin
    upper-case mapping, the 19 code units ["ABCDEFGHJKLMNPRSTUV"] come out of
    the normalisation of [onVinInput] unchanged, longer than 17. *)
Lemma montaje_clean_exceeds_17 :
  ~ (forall (H : Host), HostLaws H ->
       forall v, (length (Montaje.clean v) <= 17)%nat).
Proof.
  intros Hall.
  specialize (Hall latinHost latinHost_laws (js "ABCDEFGHJKLMNPRSTUV")).
  vm_compute in Hall. lia.
Qed.

Lemma chasis_isValidVin_spec `{Host} (v : jsstring) :
  Chasis.isValidVin (Some v) = true
  <-> v <> [] /\ length (toUpperCase v) = 17%nat
      /\ forallb isAZ09 (toUpperCase v) = true.
Proof.
  unfold Chasis.isValidVin, Chasis.test17. destruct v as [|c v]; simpl.
  - split; [done|]. by intros [? _].
  - rewrite andb_true_iff, Nat.eqb_eq. split; [intros [? ?]|intros (_ & ? & ?)]; done.
Qed.

Lemma montaje_isValidVin_spec `{Host} (v : jsstring) :
  Montaje.isValidVin (Some v) = true
  <-> v <> [] /\ toUpperCase v <> []
      /\ forallb isAZ09 (toUpperCase v) = true.
Proof.
  unfold Montaje.isValidVin, Montaje.testAlnum. destruct v as [|c v]; simpl.
  - split; [done|]. by intros [? _].
  - rewrite andb_true_iff. destruct (toUpperCase (c :: v)); simpl.
    + split; [by intros [? _]|]. by intros (_ & ? & _).
    + split; [intros [_ ?]|intros (_ & _ & ?)]; done.
Qed.

(** On the normalised input the Chasis predicate is the strict test. *)
Lemma chasis_isValidVin_clean `{HostLaws} (v : jsstring) :
  Chasis.isValidVin (Some (Chasis.clean v)) = Chasis.test17 (Chasis.clean v).
Proof.
  unfold Chasis.isValidVin.
  rewrite (toUpperCase_AZ09 _ (chasis_clean_AZ09 v)).
  by destruct (Chasis.clean v).
Qed.

Lemma chasis_query_gate `{HostLaws} (value c : jsstring) (s : Chasis.State) :
  In (Chasis.GetVinEstadoChasis c) (Chasis.onBastidorInput value s).2
  <-> c = Chasis.clean value /\ Chasis.test17 c = true.
Proof.
  unfold Chasis.onBastidorInput. rewrite chasis_isValidVin_clean.
  destruct (Chasis.clean value) as [|x l] eqn:Hc; simpl.
  - split; [intros [?|[]]; done|]. intros [-> ?]. done.
  - destruct (Chasis.test17 (x :: l)) eqn:Ht; simpl.
    + split.
      * intros [?|[Heq|[]]]; [done|]. by injection Heq as <-.
      * intros [-> _]. right; by left.
    + split; [intros [?|[]]; done|]. intros [-> ?]. congruence.
Qed.

Lemma montaje_query_gate `{HostLaws} (value c : jsstring) (s : Montaje.State) :
  In (IsVinDisponibleEnMontaje c) (Montaje.onVinInput value s).2
  <-> c = Montaje.clean value /\ c <> [] /\ c ∈ Montaje.bastidorOptions s.
Proof.
  unfold Montaje.onVinInput, Montaje.inDbList.
  rewrite (toUpperCase_AZ09 _ (montaje_clean_AZ09 value)).
  destruct (Montaje.clean value) as [|x l] eqn:Hc; simpl.
  - split; [done|]. intros (-> & ? & _). done.
  - case_bool_decide as Hin; simpl.
    + split; [intros [Heq|[]]|intros (-> & _ & _); by left].
      injection Heq as <-. done.
    + split; [done|]. intros (-> & _ & ?). done.
Qed.

(** C6, amended. Chasis: [isValidVin] accepts exactly the non-empty strings
    whose upper-case form has exactly 17 code units, all in [A-Z0-9], and
    [onBastidorInput] issues the status query exactly for the normalised
    input when that has exactly 17 code units, all in [A-Z0-9]. Montaje:
    [isValidVin] accepts exactly the non-empty strings whose upper-case form
    is non-empty and over [A-Z0-9], of any length, and [onVinInput] issues
    the status query exactly for the non-empty normalised input found in the
    known list [bastidorOptions]. *)
Theorem vin_validity_gate (H : Host) (HL : HostLaws H) (v value c : jsstring)
    (cs : Chasis.State) (ms : Montaje.State) :
  (Chasis.isValidVin (Some v) = true
   <-> v <> [] /\ length (toUpperCase v) = 17%nat
       /\ forallb isAZ09 (toUpperCase v) = true)
  /\ (In (Chasis.GetVinEstadoChasis c) (Chasis.onBastidorInput value cs).2
      <-> c = Chasis.clean value /\ length c = 17%nat /\ forallb isAZ09 c = true)
  /\ (Montaje.isValidVin (Some v) = true
      <-> v <> [] /\ toUpperCase v <> []
          /\ forallb isAZ09 (toUpperCase v) = true)
  /\ (In (IsVinDisponibleEnMontaje c) (Montaje.onVinInput value ms).2
      <-> c = Montaje.clean value /\ c <> [] /\ c ∈ Montaje.bastidorOptions ms).
Proof.
  split; [apply chasis_isValidVin_spec|].
  split; [|split; [apply montaje_isValidVin_spec|apply montaje_query_gate]].
  rewrite chasis_query_gate. unfold Chasis.test17.
  rewrite andb_true_iff, Nat.eqb_eq. tauto.
Qed.

(** The theorem on the Basic Latin host: typing ["wba3a5c50df12345x"] in
    Chasis issues the status query for ["WBA3A5C50DF12345X"]. *)
Lemma vin_validity_gate_witness :
  In (Chasis.GetVinEstadoChasis (js "WBA3A5C50DF12345X"))
     (@Chasis.onBastidorInput latinHost (js "wba3a5c50df12345x") (Chasis.init 1 0)).2.
Proof.
  pose proof (vin_validity_gate latinHost latinHost_laws [] (js "wba3a5c50df12345x")
           (js "WBA3A5C50DF12345X") (Chasis.init 1 0)
           (Montaje.mkState 1 0 false None [] [] [] [] [] [] false Montaje.idle [] false None))
    as (_ & Hq & _).
  apply Hq. split; [|split]; vm_compute; reflexivity.
Defined.

(** C6 as stated fails: on every host that follows the Basic Latin upper-case
    mapping the Chasis predicate accepts the lower-case ["wba3a5c50df12345x"],
    which is not over [A-Z0-9], and the Montaje predicate accepts ["ABC"],
    which has 3 code units. *)
Lemma isValidVin_not_strict :
  ~ (forall (H : Host), HostLaws H ->
       forall v, Chasis.isValidVin (Some v) = true -> forallb isAZ09 v = true)
  /\ ~ (forall (H : Host), HostLaws H ->
          forall v, Montaje.isValidVin (Some v) = true -> length v = 17%nat).
Proof.
  split; intros Hall.
  - specialize (Hall latinHost latinHost_laws (js "wba3a5c50df12345x")).
    vm_compute in Hall. specialize (Hall eq_refl). discriminate.
  - specialize (Hall latinHost latinHost_laws (js "ABC")).
    vm_compute in Hall. specialize (Hall eq_refl). discriminate.
Qed.

(** ** The state of the identifier (Chasis, Montaje) *)

Lemma chasis_toggleTask_vinState (i : nat) (s s' : Chasis.State) :
  Chasis.toggleTask i s = Some s' -> Chasis.vinState s' = Chasis.vinState s.
Proof.
  unfold Chasis.toggleTask. destruct (Chasis.tasks s !! i); [|done].
  by intros [= <-].
Qed.

Lemma chasis_toggleMany_vinState (idxs : list nat) (s : Chasis.State) :
  Chasis.vinState (Chasis.toggleMany idxs s) = Chasis.vinState s.
Proof.
  unfold Chasis.toggleMany. revert s.
  induction idxs as [|i idxs IH]; intros s; [reflexivity|]. simpl.
  rewrite IH. destruct (Chasis.toggleTask i s) as [s'|] eqn:Ht; simpl; [|reflexivity].
  by apply chasis_toggleTask_vinState in Ht.
Qed.

Lemma chasis_canFinish_needs_ok (s : Chasis.State) :
  Chasis.vinState s <> Chasis.ok -> Chasis.canFinish s = false.
Proof.
  intros Hne. unfold Chasis.canFinish. rewrite bool_decide_eq_false_2 by done.
  apply andb_false_r.
Qed.

(** Chasis, the part of the block that holds: when the status query answers
    [finalized] the identifier state becomes [finalized] and [canFinish] is
    false; after any sequence of task toggles by the operator the state is
    still [finalized] and [canFinish] is still false. *)
Theorem finalized_blocks_finish (H : Host) (resp : Chasis.VinEstadoChasisResp)
    (idxs : list nat) (s : Chasis.State) :
  Chasis.ve_status resp = Chasis.st_finalized ->
  Chasis.vinState (Chasis.vinEstado_next resp s) = Chasis.finalized
  /\ Chasis.canFinish (Chasis.vinEstado_next resp s) = false
  /\ Chasis.vinState (Chasis.toggleMany idxs (Chasis.vinEstado_next resp s))
     = Chasis.finalized
  /\ Chasis.canFinish (Chasis.toggleMany idxs (Chasis.vinEstado_next resp s)) = false.
Proof.
  intros Hst.
  assert (Chasis.vinState (Chasis.vinEstado_next resp s) = Chasis.finalized) as Hfin.
  { unfold Chasis.vinEstado_next. by rewrite Hst. }
  repeat split.
  - done.
  - apply chasis_canFinish_needs_ok. by rewrite Hfin.
  - by rewrite chasis_toggleMany_vinState.
  - apply chasis_canFinish_needs_ok. by rewrite chasis_toggleMany_vinState, Hfin.
Qed.

(** The theorem on that state: the answer [finalized] arrives, then the
    operator checks the only task; [canFinish] stays false. *)
Lemma finalized_blocks_finish_witness :
  Chasis.canFinish
    (Chasis.toggleMany [0%nat]
       (@Chasis.vinEstado_next latinHost
          (Chasis.mkVinEstado Chasis.st_finalized None None) chasis_checked_one))
  = false.
Proof.
  pose proof (finalized_blocks_finish latinHost
           (Chasis.mkVinEstado Chasis.st_finalized None None) [0%nat]
           chasis_checked_one eq_refl) as (_ & _ & _ & Hc).
  exact Hc.
Defined.

Lemma chasis_toggleTask_frame (i : nat) (s s' : Chasis.State) :
  Chasis.toggleTask i s = Some s' ->
  Chasis._bastidor s' = Chasis._bastidor s /\ Chasis._buffered s' = Chasis._buffered s.
Proof.
  unfold Chasis.toggleTask. destruct (Chasis.tasks s !! i); [|done].
  by intros [= <-].
Qed.

Lemma chasis_toggleMany_frame (idxs : list nat) (s : Chasis.State) :
  Chasis._bastidor (Chasis.toggleMany idxs s) = Chasis._bastidor s
  /\ Chasis._buffered (Chasis.toggleMany idxs s) = Chasis._buffered s.
Proof.
  unfold Chasis.toggleMany. revert s.
  induction idxs as [|i idxs IH]; intros s; [done|]. simpl.
  destruct (IH (default s (Chasis.toggleTask i s))) as [-> ->].
  destruct (Chasis.toggleTask i s) as [s'|] eqn:Ht; simpl; [|done].
  by apply chasis_toggleTask_frame in Ht.
Qed.

(** C4, where the code departs from it. Chasis, the identifier state is
    [finalized] (the status query of the VIN in the field has answered so):
    toggles keep [canFinish] false, but the answer of an earlier status
    query, when it arrives now and says that its VIN is free, sets the state
    to [ok] with the VIN in the field unchanged, and [canFinish] then only
    asks that every task be checked. The arrival of the catalog does the
    same when a snapshot was waiting in the buffer. *)
Theorem finalized_reopened_by_late_answer (H : Host) (idxs : list nat)
    (s : Chasis.State) :
  Chasis.vinState s = Chasis.finalized ->
  let s1 := Chasis.toggleMany idxs s in
  let s2 := Chasis.vinEstado_next (Chasis.mkVinEstado Chasis.st_free None None) s1 in
  Chasis.canFinish s1 = false
  /\ Chasis._bastidor s2 = Chasis._bastidor s
  /\ Chasis.vinState s2 = Chasis.ok
  /\ Chasis.canFinish s2 = Chasis.allComplete s1
  /\ (forall rows, Chasis._buffered s <> None ->
        Chasis._bastidor (Chasis.catalogo_next rows s1).1 = Chasis._bastidor s
        /\ Chasis.vinState (Chasis.catalogo_next rows s1).1 = Chasis.ok).
Proof.
  intros Hfin. simpl.
  destruct (chasis_toggleMany_frame idxs s) as [Hb Hbuf].
  split; [|split; [|split; [|split]]].
  - apply chasis_canFinish_needs_ok. by rewrite chasis_toggleMany_vinState, Hfin.
  - done.
  - done.
  - unfold Chasis.canFinish. simpl. by rewrite andb_true_r.
  - intros rows Hne. unfold Chasis.catalogo_next, Chasis.flushBufferedIfAny. simpl.
    rewrite Hbuf. destruct (Chasis._buffered s) as [b|]; [|done]. simpl. done.
Qed.

(** The theorem on a run from the opening of the screen: the catalog of one
    task arrives; the operator types a first VIN and then a second one; the
    second is answered [finalized]; the operator checks the task; then the
    answer of the first query arrives and says free. The field still shows
    the second VIN and [canFinish] is true. *)
Lemma finalized_reopened_by_late_answer_witness :
  Chasis.vinState chasis_second_vin_finalized = Chasis.finalized
  /\ Chasis._bastidor
       (@Chasis.vinEstado_next latinHost (Chasis.mkVinEstado Chasis.st_free None None)
          (Chasis.toggleMany [0%nat] chasis_second_vin_finalized))
     = js "WBA3A5C50DF12345X"
  /\ Chasis.canFinish
       (@Chasis.vinEstado_next latinHost (Chasis.mkVinEstado Chasis.st_free None None)
          (Chasis.toggleMany [0%nat] chasis_second_vin_finalized))
     = true.
Proof.
  destruct (finalized_reopened_by_late_answer latinHost [0%nat]
              chasis_second_vin_finalized eq_refl) as (_ & Hb & _ & Hc & _).
  split; [reflexivity|]. split.
  - rewrite Hb. vm_compute. reflexivity.
  - rewrite Hc. vm_compute. reflexivity.
Defined.

(** C9. When the status query fails, the Chasis handler sets the identifier
    state to [invalid] and the Montaje handler sets it to [invalid] (and
    clears [vinEnUso]); in both screens [canFinish] is then false. *)
Theorem status_error_fails_closed (H : Host) (cs : Chasis.State) (ms : Montaje.State) :
  (Chasis.vinState (Chasis.vinEstado_error cs) = Chasis.invalid
   /\ Chasis.canFinish (Chasis.vinEstado_error cs) = false)
  /\ (Montaje.vinStatus (Montaje.disponible_error ms) = Montaje.invalid
      /\ Montaje.canFinish (Montaje.disponible_error ms) = false).
Proof.
  repeat split.
  - by apply chasis_canFinish_needs_ok.
  - unfold Montaje.canFinish. simpl. apply andb_false_r.
Qed.

(** ** Toggling a task *)

Lemma map_insert_same {A B} (f : A -> B) (i : nat) (x y : A) (l : list A) :
  l !! i = Some y -> f x = f y -> List.map f (<[i := x]> l) = List.map f l.
Proof.
  revert i; induction l as [|a l IH]; intros [|i]; simpl; try done.
  - intros [= ->] ->. done.
  - intros Hl Hf. f_equal. by apply IH.
Qed.

Lemma toggleAt_frame (i j : nat) (secs : list Section) (t : Task) :
  taskAt i j secs = Some t ->
  exists secs',
    toggleAt i j secs = Some secs'
    /\ taskAt i j secs' = Some (mkTask (label t) (negb (done t)))
    /\ (forall i' j', (i', j') <> (i, j) -> taskAt i' j' secs' = taskAt i' j' secs)
    /\ List.map name secs' = List.map name secs
    /\ labelsOf secs' = labelsOf secs.
Proof.
  unfold taskAt, toggleAt. destruct (secs !! i) as [sec|] eqn:Hi; simpl; [|done].
  intros Hj. rewrite Hj. eexists; split; [reflexivity|].
  pose proof (lookup_lt_Some _ _ _ Hi) as Hli.
  pose proof (lookup_lt_Some _ _ _ Hj) as Hlj.
  repeat split.
  - rewrite list_lookup_insert_eq by done. simpl.
    by rewrite list_lookup_insert_eq.
  - intros i' j' Hne. destruct (decide (i' = i)) as [->|Hi'].
    + rewrite list_lookup_insert_eq by done. rewrite Hi. simpl.
      rewrite list_lookup_insert_ne; [done|]. congruence.
    + by rewrite list_lookup_insert_ne.
  - by apply map_insert_same with sec.
  - unfold labelsOf. apply map_insert_same with sec; [done|]. simpl.
    by apply map_insert_same with t.
Qed.

(** C10. For an item [j] of a section [i] that exists, [toggleTask] of
    Pintura and of Premontaje succeeds, negates the [done] flag of that item
    and keeps its label; every other item, the names and the order of the
    sections, the labels and the order of the items, the identifier fields,
    the pending id and every other field stay as they were. The same holds
    for [toggleTask(i)] on the flat list of Chasis. *)
Theorem toggleTask_frame :
  (forall i j (s : Pintura.State) t,
     taskAt i j (Pintura.sections s) = Some t ->
     exists s',
       Pintura.toggleTask i j s = Some s'
       /\ taskAt i j (Pintura.sections s') = Some (mkTask (label t) (negb (done t)))
       /\ (forall i' j', (i', j') <> (i, j) ->
             taskAt i' j' (Pintura.sections s') = taskAt i' j' (Pintura.sections s))
       /\ List.map name (Pintura.sections s') = List.map name (Pintura.sections s)
       /\ labelsOf (Pintura.sections s') = labelsOf (Pintura.sections s)
       /\ Pintura.colorDescripcion s' = Pintura.colorDescripcion s
       /\ Pintura.colorRAL s' = Pintura.colorRAL s
       /\ Pintura._pendingId s' = Pintura._pendingId s
       /\ s' = Pintura.set_sections (Pintura.sections s') s)
  /\ (forall i j (s : Premontaje.State) t,
        taskAt i j (Premontaje.sections s) = Some t ->
        exists s',
          Premontaje.toggleTask i j s = Some s'
          /\ taskAt i j (Premontaje.sections s') = Some (mkTask (label t) (negb (done t)))
          /\ (forall i' j', (i', j') <> (i, j) ->
                taskAt i' j' (Premontaje.sections s') = taskAt i' j' (Premontaje.sections s))
          /\ List.map name (Premontaje.sections s') = List.map name (Premontaje.sections s)
          /\ labelsOf (Premontaje.sections s') = labelsOf (Premontaje.sections s)
          /\ Premontaje.vehicleColorHex s' = Premontaje.vehicleColorHex s
          /\ Premontaje.vehicleColorName s' = Premontaje.vehicleColorName s
          /\ Premontaje._pendingId s' = Premontaje._pendingId s
          /\ s' = Premontaje.set_sections (Premontaje.sections s') s)
  /\ (forall i (s : Chasis.State) t,
        Chasis.tasks s !! i = Some t ->
        exists s',
          Chasis.toggleTask i s = Some s'
          /\ Chasis.tasks s' !! i = Some (mkTask (label t) (negb (done t)))
          /\ (forall i', i' <> i -> Chasis.tasks s' !! i' = Chasis.tasks s !! i')
          /\ List.map label (Chasis.tasks s') = List.map label (Chasis.tasks s)
          /\ Chasis._bastidor s' = Chasis._bastidor s
          /\ Chasis.vinState s' = Chasis.vinState s
          /\ Chasis._pendingId s' = Chasis._pendingId s
          /\ s' = Chasis.set_tasks (Chasis.tasks s') s).
Proof.
  split; [|split].
  - intros i j s t Ht.
    destruct (toggleAt_frame i j _ t Ht) as (secs' & Hs & H1 & H2 & H3 & H4).
    exists (Pintura.set_sections secs' s). unfold Pintura.toggleTask. rewrite Hs.
    simpl. by repeat split.
  - intros i j s t Ht.
    destruct (toggleAt_frame i j _ t Ht) as (secs' & Hs & H1 & H2 & H3 & H4).
    exists (Premontaje.set_sections secs' s). unfold Premontaje.toggleTask. rewrite Hs.
    simpl. by repeat split.
  - intros i s t Ht. unfold Chasis.toggleTask. rewrite Ht.
    eexists; split; [reflexivity|]. simpl.
    pose proof (lookup_lt_Some _ _ _ Ht) as Hl.
    repeat split.
    + by rewrite list_lookup_insert_eq.
    + intros i' Hne. by rewrite list_lookup_insert_ne.
    + by apply map_insert_same with t.
Qed.

(** ** The catalog never holds an empty section *)

Lemma groupPush_populated sec t (m : list (jsstring * list Task)) :
  Forall (fun e => e.2 <> []) m -> Forall (fun e => e.2 <> []) (groupPush sec t m).
Proof.
  induction 1 as [|[k ts] m Hk Hm IH]; simpl.
  - by repeat constructor.
  - case_bool_decide; constructor; simpl in *; try done.
    by destruct ts.
Qed.

Lemma groupBySeccion_populated dflt rows :
  Forall (fun e => e.2 <> []) (groupBySeccion dflt rows).
Proof.
  unfold groupBySeccion.
  assert (forall m, Forall (fun e : jsstring * list Task => e.2 <> []) m ->
            Forall (fun e => e.2 <> [])
              (fold_left (fun m r => groupPush (seccionOf dflt r)
                                       (mkTask (row_label r) false) m) rows m)) as Hgen.
  { induction rows as [|r rows IH]; intros m Hm; simpl; [done|].
    apply IH. by apply groupPush_populated. }
  apply Hgen. constructor.
Qed.

Lemma insertBy_Forall {A} (P : A -> Prop) cmp x (l : list A) :
  P x -> Forall P l -> Forall P (insertBy cmp x l).
Proof.
  intros Hx. induction 1 as [|y l Hy Hl IH]; simpl.
  - by repeat constructor.
  - destruct (cmp x y <=? 0); repeat constructor; done.
Qed.

Lemma sortBy_Forall {A} (P : A -> Prop) cmp (l : list A) :
  Forall P l -> Forall P (sortBy cmp l).
Proof.
  unfold sortBy. induction 1 as [|x l Hx Hl IH]; simpl; [constructor|].
  by apply insertBy_Forall.
Qed.

Lemma loadSections_populated `{Host} dflt rows : populated (loadSections dflt rows).
Proof.
  unfold populated, loadSections, sortEntries. rewrite Forall_forall.
  intros sec Hin. apply list_elem_of_In, in_map_iff in Hin as (e & <- & Hin). simpl.
  pose proof (sortBy_Forall (fun e : jsstring * list Task => e.2 <> [])
                (fun a b => compareSecciones a.1 b.1) _
                (groupBySeccion_populated dflt (List.filter row_activa rows))) as Hall.
  rewrite Forall_forall in Hall. by apply Hall, list_elem_of_In.
Qed.

Lemma map_markSection_populated `{Host} ck secs :
  populated secs -> populated (List.map (markSection ck) secs).
Proof.
  unfold populated. induction 1 as [|sec secs Hs _ IH]; simpl; constructor; [|done].
  simpl. by destruct (tasks sec).
Qed.

Lemma uncheckAll_populated secs : populated secs -> populated (uncheckAll secs).
Proof.
  unfold populated, uncheckAll.
  induction 1 as [|sec secs Hs _ IH]; simpl; constructor; [|done].
  simpl. by destruct (tasks sec).
Qed.

Lemma insert_populated i sec secs :
  tasks sec <> [] -> populated secs -> populated (<[i := sec]> secs).
Proof.
  intros Hs Hall. revert i. induction Hall as [|x l Hx Hl IH]; intros [|i]; simpl;
    try constructor; try done. by apply IH.
Qed.

Lemma toggleAt_populated i j secs secs' :
  toggleAt i j secs = Some secs' -> populated secs -> populated secs'.
Proof.
  unfold toggleAt. destruct (secs !! i) as [sec|]; [|done].
  destruct (tasks sec !! j) as [t|] eqn:Hj; [|done]. intros [= <-] Hp.
  apply insert_populated; [|done]. simpl.
  destruct (tasks sec) as [|a l]; [done|]. by destruct j.
Qed.

Lemma clearSectionAt_populated i secs secs' :
  clearSectionAt i secs = Some secs' -> populated secs -> populated secs'.
Proof.
  unfold clearSectionAt. destruct (secs !! i) as [sec|] eqn:Hi; [|done].
  intros [= <-] Hp. apply insert_populated; [|done]. simpl.
  unfold populated in Hp. rewrite Forall_forall in Hp.
  assert (tasks sec <> []) as Hne.
  { apply Hp. by eapply list_elem_of_lookup_2. }
  by destruct (tasks sec).
Qed.

Lemma pintura_applyPendingIfReady_populated `{Host} (s : Pintura.State) :
  populated (Pintura.sections s) ->
  populated (Pintura.sections (Pintura.applyPendingIfReady s)).
Proof.
  intros Hp. unfold Pintura.applyPendingIfReady.
  destruct (Pintura._pendingSnapshot s) as [snap|]; [|done].
  destruct (Pintura.sections s) as [|sec secs] eqn:Hs; [by rewrite Hs|].
  simpl.
  destruct (truthyStr (trim (orEmpty (ps_color snap))));
    destruct (truthyStr (trim (orEmpty (ps_RAL snap)))); simpl; rewrite Hs;
    by apply (map_markSection_populated _ (sec :: secs)).
Qed.

Lemma pintura_step_populated `{Host} (e : Pintura.Event) (s : Pintura.State) :
  populated (Pintura.sections s) ->
  populated (Pintura.sections (Pintura.step e s).1).
Proof.
  intros Hp. destruct e; simpl; try done.
  - apply pintura_applyPendingIfReady_populated. simpl. apply loadSections_populated.
  - unfold Pintura.snapshot_next. destruct snap as [snap|]; [|done].
    destruct (sr_exists snap); [|done].
    by apply pintura_applyPendingIfReady_populated.
  - unfold Pintura.toggleTask.
    destruct (toggleAt i j (Pintura.sections s)) as [secs'|] eqn:Ht; simpl; [|done].
    by eapply toggleAt_populated.
  - unfold Pintura.onColorInputChange. by destruct isDescripcion.
  - unfold Pintura.clearSection.
    destruct (clearSectionAt i (Pintura.sections s)) as [secs'|] eqn:Ht; simpl; [|done].
    by eapply clearSectionAt_populated.
  - by apply uncheckAll_populated.
  - unfold Pintura.finish. by destruct (Pintura.allComplete s).
  - unfold Pintura.continueAndClear.
    destruct (negb (Pintura.allComplete s)); [done|].
    destruct (negb (truthyNum (Pintura.userId s))); [done|].
    destruct (Pintura._pendingId s) as [id|]; [|done]. by destruct (truthyNum id).
  - unfold Pintura.iniciar_next. by destruct (truthyId (id_area_of resp)).
  - by apply uncheckAll_populated.
Qed.

(** In Pintura every state reached from a state without sections has no
    empty section: the catalog is grouped from rows, and no handler removes a
    task. *)
Lemma pintura_run_populated `{Host} (es : list Pintura.Event) (s : Pintura.State) :
  populated (Pintura.sections s) -> populated (Pintura.sections (Pintura.run es s)).
Proof.
  unfold Pintura.run. revert s. induction es as [|e es IH]; intros s Hp; [done|].
  simpl. apply IH. by apply pintura_step_populated.
Qed.

(** ** Readiness to finalize *)

Lemma forallb_done_Forall (ts : list Task) :
  forallb done ts = true <-> Forall (fun t => done t = true) ts.
Proof.
  induction ts as [|t ts IH]; simpl.
  - split; [constructor|done].
  - rewrite andb_true_iff, IH. split.
    + intros [? ?]. by constructor.
    + by inversion 1.
Qed.

Lemma Exists_undone (ts : list Task) :
  Exists (fun t => done t = false) ts -> forallb done ts = false.
Proof.
  induction 1 as [t ts Ht|t ts _ IH]; simpl.
  - by rewrite Ht.
  - rewrite IH. apply andb_false_r.
Qed.

Lemma incomplete_not_complete (secs : list Section) :
  incomplete secs -> ~ complete secs.
Proof.
  unfold incomplete, complete. induction 1 as [sec secs Hs|sec secs _ IH];
    inversion 1 as [|? ? [Hne Hall] Hrest]; subst; [|by apply IH].
  destruct Hs as [He|Hu]; [done|].
  apply Exists_undone in Hu. apply forallb_done_Forall in Hall. congruence.
Qed.

Lemma pintura_sections_complete (secs : list Section) :
  populated secs -> forallb Pintura.sectionComplete secs = true -> complete secs.
Proof.
  unfold populated, complete. induction 1 as [|sec secs Hs _ IH]; simpl; [constructor|].
  rewrite andb_true_iff. intros [Hc Hrest]. constructor; [|by apply IH].
  split; [done|]. by apply forallb_done_Forall.
Qed.

Lemma premontaje_sections_complete (secs : list Section) :
  forallb Premontaje.sectionComplete secs = true -> complete secs.
Proof.
  unfold complete. induction secs as [|sec secs IH]; simpl; [constructor|].
  rewrite andb_true_iff. unfold Premontaje.sectionComplete at 1.
  rewrite andb_true_iff. intros [[Hn Hc] Hrest]. constructor; [|by apply IH].
  split; [|by apply forallb_done_Forall].
  destruct (tasks sec); [discriminate|done].
Qed.

Lemma montaje_sections_complete (secs : list Section) :
  forallb Montaje.sectionComplete secs = true -> complete secs.
Proof.
  unfold complete. induction secs as [|sec secs IH]; simpl; [constructor|].
  rewrite andb_true_iff. unfold Montaje.sectionComplete at 1.
  rewrite andb_true_iff. intros [[Hn Hc] Hrest]. constructor; [|by apply IH].
  split; [|by apply forallb_done_Forall].
  destruct (tasks sec); [discriminate|done].
Qed.

Lemma filter_done_all (ts : list Task) :
  length (List.filter done ts) = length ts -> forallb done ts = true.
Proof.
  induction ts as [|t ts IH]; simpl; [done|].
  destruct (done t); simpl.
  - intros Hl. apply IH. lia.
  - intros Hl. pose proof (filter_length_le done ts). lia.
Qed.

Lemma pintura_ready_complete `{Host} es (s0 : Pintura.State) :
  Pintura.sections s0 = [] ->
  Pintura.allComplete (Pintura.run es s0) = true ->
  complete (Pintura.sections (Pintura.run es s0)).
Proof.
  intros H0 Hr. unfold Pintura.allComplete in Hr.
  apply andb_true_iff in Hr as [Hr _]. apply andb_true_iff in Hr as [_ Hr].
  apply pintura_sections_complete; [|done].
  apply pintura_run_populated. rewrite H0. constructor.
Qed.

Lemma premontaje_ready_complete (s : Premontaje.State) :
  Premontaje.allComplete s = true -> complete (Premontaje.sections s).
Proof.
  unfold Premontaje.allComplete, Premontaje.allSectionsDone. intros Hr.
  apply andb_true_iff in Hr as [Hr _]. apply andb_true_iff in Hr as [_ Hr].
  by apply premontaje_sections_complete.
Qed.

Lemma montaje_ready_complete `{Host} (s : Montaje.State) :
  Montaje.canFinish s = true -> complete (Montaje.sections s).
Proof.
  unfold Montaje.canFinish. intros Hr.
  do 5 (apply andb_true_iff in Hr as [Hr _]).
  unfold Montaje.allSectionsDone in Hr. apply andb_true_iff in Hr as [_ Hr].
  by apply montaje_sections_complete.
Qed.

Lemma chasis_ready_complete (s : Chasis.State) :
  Chasis.canFinish s = true ->
  Chasis.tasks s <> [] /\ Forall (fun t => done t = true) (Chasis.tasks s).
Proof.
  unfold Chasis.canFinish, Chasis.allComplete, Chasis.total, Chasis.doneCount.
  intros Hr. apply andb_true_iff in Hr as [Hr _].
  apply andb_true_iff in Hr as [Hn Hd].
  apply Nat.ltb_lt in Hn. apply Nat.eqb_eq in Hd. split.
  - destruct (Chasis.tasks s); simpl in *; [lia|done].
  - by apply forallb_done_Forall, filter_done_all.
Qed.

(** C2. Readiness to finalize needs every section to hold a task and every
    task to be done, whatever the identifier state and the auxiliary fields:
    [allComplete] of Pintura in every state reached from a screen without
    sections, [allComplete] of Premontaje, [canFinish] of Montaje and
    [canFinish] of Chasis (its flat list as the one section) in every state.
    So each is false as soon as a section is empty or a task is not done. *)
Theorem readiness_needs_full_sections (H : Host) :
  (forall es (s0 : Pintura.State),
     Pintura.sections s0 = [] ->
     (Pintura.allComplete (Pintura.run es s0) = true ->
      complete (Pintura.sections (Pintura.run es s0)))
     /\ (incomplete (Pintura.sections (Pintura.run es s0)) ->
         Pintura.allComplete (Pintura.run es s0) = false))
  /\ (forall s : Premontaje.State,
        (Premontaje.allComplete s = true -> complete (Premontaje.sections s))
        /\ (incomplete (Premontaje.sections s) -> Premontaje.allComplete s = false))
  /\ (forall s : Montaje.State,
        (Montaje.canFinish s = true -> complete (Montaje.sections s))
        /\ (incomplete (Montaje.sections s) -> Montaje.canFinish s = false))
  /\ (forall s : Chasis.State,
        (Chasis.canFinish s = true ->
         Chasis.tasks s <> [] /\ Forall (fun t => done t = true) (Chasis.tasks s))
        /\ (Chasis.tasks s = [] \/ Exists (fun t => done t = false) (Chasis.tasks s) ->
            Chasis.canFinish s = false)).
Proof.
  split; [|split; [|split]].
  - intros es s0 H0. split; [by apply pintura_ready_complete|].
    intros Hi. apply not_true_is_false. intros Hr.
    by apply (incomplete_not_complete _ Hi), pintura_ready_complete.
  - intros s. split; [apply premontaje_ready_complete|].
    intros Hi. apply not_true_is_false. intros Hr.
    by apply (incomplete_not_complete _ Hi), premontaje_ready_complete.
  - intros s. split; [apply montaje_ready_complete|].
    intros Hi. apply not_true_is_false. intros Hr.
    by apply (incomplete_not_complete _ Hi), montaje_ready_complete.
  - intros s. split; [apply chasis_ready_complete|].
    intros Hi. apply not_true_is_false. intros Hr.
    apply chasis_ready_complete in Hr as [Hne Hall].
    destruct Hi as [He|Hu]; [done|].
    apply Exists_undone in Hu. apply forallb_done_Forall in Hall. congruence.
Qed.

(** ** Confirming the finalization *)

Lemma truthyNum_true (n : Z) : n <> 0 -> truthyNum n = true.
Proof. unfold truthyNum. intros Hn. by apply negb_true_iff, Z.eqb_neq. Qed.

(** C7. With readiness, a session user and no pending id (none, or zero),
    Pintura and Chasis send one start request built from the current state;
    when it succeeds with a non-zero [id_area] they send the finalize request
    for that id, and when the response has no [id_area] (or a zero one) they
    write an error and send nothing. *)
Theorem finalize_without_pending_id (H : Host) :
  (forall (s : Pintura.State),
     Pintura.allComplete s = true -> Pintura.userId s <> 0 ->
     truthyId (Pintura._pendingId s) = false ->
     Pintura.continueAndClear s = (s, [IniciarTarea (Pintura.startDto s)])
     /\ (forall s' resp id, id_area_of resp = Some id -> id <> 0 ->
           Pintura.iniciar_next resp s' = (s', [FinalizarTarea pintura (Some id)]))
     /\ (forall s' resp, id_area_of resp = None \/ id_area_of resp = Some 0 ->
           Pintura.iniciar_next resp s' = (s', [ConsoleError ErrIniciarSinId])))
  /\ (forall (s : Chasis.State),
        Chasis.canFinish s = true -> Chasis.userId s <> 0 ->
        truthyId (Chasis._pendingId s) = false ->
        Chasis.continueAndClear s
          = (s, [Chasis.IniciarTarea (Chasis.startDto s) Chasis.CasoB])
        /\ (forall s' resp id, id_area_of resp = Some id -> id <> 0 ->
              Chasis.iniciar_next Chasis.CasoB resp s'
              = (s', [Chasis.FinalizarTarea (Some id)]))
        /\ (forall s' resp, id_area_of resp = None \/ id_area_of resp = Some 0 ->
              Chasis.iniciar_next Chasis.CasoB resp s'
              = (s', [Chasis.ConsoleError ErrIniciarSinId]))).
Proof.
  split.
  - intros s Hr Hu Hp. repeat split.
    + unfold Pintura.continueAndClear. rewrite Hr, (truthyNum_true _ Hu). simpl.
      destruct (Pintura._pendingId s) as [id|]; [|done].
      simpl in Hp. by rewrite Hp.
    + intros s' resp id Hid Hne. unfold Pintura.iniciar_next. rewrite Hid. simpl.
      by rewrite (truthyNum_true _ Hne).
    + intros s' resp [Hid|Hid]; unfold Pintura.iniciar_next; by rewrite Hid.
  - intros s Hr Hu Hp. repeat split.
    + unfold Chasis.continueAndClear. by rewrite Hr, (truthyNum_true _ Hu), Hp.
    + intros s' resp id Hid Hne. unfold Chasis.iniciar_next. rewrite Hid. simpl.
      by rewrite (truthyNum_true _ Hne).
    + intros s' resp [Hid|Hid]; unfold Chasis.iniciar_next; by rewrite Hid.
Qed.

Lemma uncheckAll_labels (secs : list Section) : labelsOf (uncheckAll secs) = labelsOf secs.
Proof.
  unfold labelsOf, uncheckAll. induction secs as [|sec secs IH]; simpl; [done|].
  f_equal; [|done]. induction (tasks sec) as [|t ts IHt]; simpl; [done|]. by f_equal.
Qed.


Lemma map_uncheck_labels (ts : list Task) :
  List.map label (List.map uncheck ts) = List.map label ts.
Proof. induction ts as [|t ts IH]; simpl; [done|]. by f_equal. Qed.


(** ** The arithmetic of the daily counter *)

Lemma digits2_shlP (k : Z) (p : positive) :
  0 <= k -> Z.pos (digits2_pos (shlP k p)) = Z.pos (digits2_pos p) + k.
Proof.
  destruct k as [|d|d]; simpl; [lia| |lia]. intros _.
  apply (Pos.iter_ind _ xO p
           (fun d a => Z.pos (digits2_pos a) = Z.pos (digits2_pos p) + Z.pos d)).
  - simpl. lia.
  - intros d' a IH. simpl. lia.
Qed.

Lemma shlP_shlP (a b : Z) (p : positive) :
  0 <= a -> 0 <= b -> shlP a (shlP b p) = shlP (a + b) p.
Proof.
  destruct a as [|a|a], b as [|b|b]; simpl; try lia; try done.
  intros _ _. by rewrite Pos.iter_add.
Qed.

Lemma shlP_value (k : Z) (p : positive) : 0 <= k -> Z.pos (shlP k p) = Z.pos p * 2 ^ k.
Proof.
  destruct k as [|d|d]; simpl; [lia| |lia]. intros _.
  change (Pos.iter xO p d) with (shift_pos d p). rewrite shift_pos_correct.
  change (Z.pow_pos 2 d) with (2 ^ Z.pos d). lia.
Qed.

Lemma shl_align_shlP (mx : positive) (ex ex' : Z) :
  shl_align mx ex ex' = (shlP (ex - ex') mx, Z.min ex ex').
Proof.
  unfold shl_align.
  destruct (ex' - ex) as [|d|d] eqn:Hd.
  - replace (ex - ex') with 0 by lia. simpl. f_equal. lia.
  - replace (ex - ex') with (Z.neg d) by lia. simpl. f_equal. lia.
  - replace (ex - ex') with (Z.pos d) by lia. simpl. f_equal. lia.
Qed.

Lemma iter_pos_iter {A} (f : A -> A) (n : positive) (x : A) :
  SpecFloat.iter_pos f n x = Pos.iter f x n.
Proof.
  revert x. induction n as [n IH|n IH|]; intros x; simpl; [|by rewrite !IH|done].
  by rewrite !IH, !Pos.iter_swap.
Qed.

Lemma shr_exact (d p : positive) :
  SpecFloat.iter_pos shr_1 d
    {| shr_m := Z.pos (Pos.iter xO p d); shr_r := false; shr_s := false |}
  = {| shr_m := Z.pos p; shr_r := false; shr_s := false |}.
Proof.
  rewrite iter_pos_iter. induction d as [|d IH] using Pos.peano_ind; [done|].
  rewrite (Pos.iter_succ d _ xO p), (Pos.iter_succ_r d _ shr_1). exact IH.
Qed.

Lemma round_aux_canonical (sx : bool) (mc : positive) (ec k : Z) :
  Z.pos (digits2_pos mc) = 53 -> -1074 <= ec <= 971 -> 0 <= k ->
  binary_round_aux 53 1024 sx (Z.pos (shlP k mc)) (ec - k) loc_Exact
  = S754_finite sx mc ec.
Proof.
  intros Hd He Hk. unfold binary_round_aux, shr_fexp, fexp, emin. simpl Zdigits2.
  rewrite (digits2_shlP k mc Hk), Hd.
  replace (Z.max (53 + k + (ec - k) - 53) (3 - 1024 - 53) - (ec - k)) with k by lia.
  assert (shr (shr_record_of_loc (Z.pos (shlP k mc)) loc_Exact) (ec - k) k
          = ({| shr_m := Z.pos mc; shr_r := false; shr_s := false |}, ec)) as ->.
  { destruct k as [|d|d]; simpl; [f_equal; lia| |lia].
    rewrite shr_exact. f_equal. lia. }
  simpl. rewrite Hd.
  replace (Z.max (53 + ec - 53) (3 - 1024 - 53) - ec) with 0 by lia. simpl.
  by rewrite (proj2 (Z.leb_le ec (1024 - 53))) by lia.
Qed.

Lemma binary_round_canonical (sx : bool) (mc : positive) (ec k : Z) :
  Z.pos (digits2_pos mc) = 53 -> -1074 <= ec <= 971 -> 0 <= k ->
  binary_round 53 1024 sx (shlP k mc) (ec - k) = S754_finite sx mc ec.
Proof.
  intros Hd He Hk. unfold binary_round, fexp, emin.
  rewrite (digits2_shlP k mc Hk), Hd, shl_align_shlP.
  replace (Z.max (53 + k + (ec - k) - 53) (3 - 1024 - 53)) with ec by lia.
  replace (ec - k - ec) with (- k) by lia. replace (Z.min (ec - k) ec) with (ec - k) by lia.
  replace (shlP (- k) (shlP k mc)) with (shlP k mc) by (by destruct k).
  by apply round_aux_canonical.
Qed.

Lemma digits2_pos_bounds (p : positive) :
  2 ^ (Z.pos (digits2_pos p) - 1) <= Z.pos p < 2 ^ Z.pos (digits2_pos p).
Proof.
  induction p as [p IH|p IH|]; simpl digits2_pos; [| |simpl; lia].
  - rewrite Pos2Z.inj_succ. replace (Z.succ (Z.pos (digits2_pos p)) - 1) with
      (Z.succ (Z.pos (digits2_pos p) - 1)) by lia.
    rewrite !Z.pow_succ_r by lia. lia.
  - rewrite Pos2Z.inj_succ. replace (Z.succ (Z.pos (digits2_pos p)) - 1) with
      (Z.succ (Z.pos (digits2_pos p) - 1)) by lia.
    rewrite !Z.pow_succ_r by lia. lia.
Qed.

Lemma digits2_pos_le (p : positive) (d : Z) :
  0 <= d -> Z.pos p < 2 ^ d -> Z.pos (digits2_pos p) <= d.
Proof.
  intros Hd Hp. destruct (digits2_pos_bounds p) as [Hl _].
  destruct (Z.le_gt_cases (Z.pos (digits2_pos p)) d) as [|Hgt]; [done|].
  assert (2 ^ d <= 2 ^ (Z.pos (digits2_pos p) - 1)) by (apply Z.pow_le_mono_r; lia).
  lia.
Qed.

Lemma jsOfZ_pos (p : positive) :
  Z.pos (digits2_pos p) <= 53 ->
  jsOfZ (Z.pos p)
  = S754_finite false (shlP (53 - Z.pos (digits2_pos p)) p) (Z.pos (digits2_pos p) - 53).
Proof.
  intros Hd. unfold jsOfZ, binary_normalize, binary_round, fexp, emin.
  rewrite shl_align_shlP.
  replace (Z.max (Z.pos (digits2_pos p) + 0 - 53) (3 - 1024 - 53))
    with (Z.pos (digits2_pos p) - 53) by lia.
  replace (0 - (Z.pos (digits2_pos p) - 53)) with (53 - Z.pos (digits2_pos p)) by lia.
  replace (Z.min 0 (Z.pos (digits2_pos p) - 53)) with (Z.pos (digits2_pos p) - 53) by lia.
  set (mc := shlP (53 - Z.pos (digits2_pos p)) p).
  change (Z.pos mc) with (Z.pos (shlP 0 mc)).
  replace (Z.pos (digits2_pos p) - 53) with (Z.pos (digits2_pos p) - 53 - 0) at 1 by lia.
  apply round_aux_canonical; [|lia|lia].
  subst mc. rewrite digits2_shlP by lia. lia.
Qed.

Lemma jsToZ_jsOfZ (n : Z) : 0 <= n <= 2 ^ 53 -> jsToZ (jsOfZ n) = Some n.
Proof.
  intros Hn. destruct n as [|p|p]; [done| |lia].
  destruct (Z.eq_dec (Z.pos p) (2 ^ 53)) as [->|Hne]; [by vm_compute|].
  assert (Z.pos (digits2_pos p) <= 53) as Hd by (apply digits2_pos_le; lia).
  rewrite (jsOfZ_pos p Hd). unfold jsToZ.
  destruct (Z.eq_dec (Z.pos (digits2_pos p)) 53) as [He|He].
  - rewrite He. simpl. f_equal. lia.
  - rewrite (proj2 (Z.leb_gt 0 (Z.pos (digits2_pos p) - 53))) by lia.
    rewrite shlP_value by lia.
    replace (- (Z.pos (digits2_pos p) - 53)) with (53 - Z.pos (digits2_pos p)) by lia.
    rewrite Z.mod_mul by (apply Z.pow_nonzero; lia). simpl.
    rewrite Z.div_mul by (apply Z.pow_nonzero; lia). done.
Qed.

Lemma jsAdd_one (n : Z) :
  0 <= n < 2 ^ 53 -> jsAdd (jsOfZ n) (jsOfZ 1) = jsOfZ (n + 1).
Proof.
  intros Hn. destruct n as [|p|p]; [done| |lia].
  assert (Z.pos (digits2_pos p) <= 53) as Hd by (apply digits2_pos_le; lia).
  rewrite (jsOfZ_pos p Hd).
  change (jsOfZ 1) with (S754_finite false 4503599627370496 (-52)).
  unfold jsAdd, SFadd. rewrite !shl_align_shlP.
  pose proof (digits2_pos_bounds p) as Hb.
  assert (1 <= Z.pos (digits2_pos p)) as Hd1 by lia.
  replace (Z.min (Z.pos (digits2_pos p) - 53) (-52)) with (-52) by lia.
  replace (-52 - -52) with 0 by lia. cbn [fst cond_Zopp shlP].
  rewrite shlP_shlP by lia.
  replace (Z.pos (digits2_pos p) - 53 - -52 + (53 - Z.pos (digits2_pos p))) with 52 by lia.
  assert (Z.pos (shlP 52 p) + 4503599627370496 = Z.pos (shlP 52 (p + 1))) as ->.
  { rewrite !shlP_value by lia. rewrite Pos2Z.inj_add. lia. }
  unfold binary_normalize.
  replace (Z.pos p + 1) with (Z.pos (p + 1)) by lia.
  destruct (Z.eq_dec (Z.pos (p + 1)) (2 ^ 53)) as [He|Hne].
  - assert ((p + 1)%positive = 9007199254740992%positive) as -> by lia.
    by vm_compute.
  - assert (Z.pos (digits2_pos (p + 1)) <= 53) as Hd' by (apply digits2_pos_le; lia).
    rewrite (jsOfZ_pos _ Hd').
    pose proof (digits2_pos_bounds (p + 1)) as Hb'.
    set (d' := Z.pos (digits2_pos (p + 1))) in *.
    replace (shlP 52 (p + 1)) with (shlP (d' - 1) (shlP (53 - d') (p + 1)))
      by (rewrite shlP_shlP by lia; f_equal; lia).
    replace (-52) with (d' - 53 - (d' - 1)) at 1 by lia.
    apply binary_round_canonical; [|lia|lia].
    rewrite digits2_shlP by lia. lia.
Qed.

(** ** The outcome of a finalization *)




(** ** The pending snapshot and the catalog *)

Lemma pintura_applyPendingIfReady_cases `{Host} (s : Pintura.State) :
  Pintura.applyPendingIfReady s = s
  \/ Pintura._pendingSnapshot (Pintura.applyPendingIfReady s) = None.
Proof.
  unfold Pintura.applyPendingIfReady.
  destruct (Pintura._pendingSnapshot s) as [snap|]; [|by left].
  destruct (Pintura.sections s); [by left|by right].
Qed.

(** Pintura: trying to apply the snapshot again changes nothing. *)
Lemma pintura_applyPendingIfReady_idempotent `{Host} (s : Pintura.State) :
  Pintura.applyPendingIfReady (Pintura.applyPendingIfReady s)
  = Pintura.applyPendingIfReady s.
Proof.
  destruct (pintura_applyPendingIfReady_cases s) as [Hid|Hnone].
  - by rewrite !Hid.
  - unfold Pintura.applyPendingIfReady at 1. by rewrite Hnone.
Qed.

(** Pintura: the snapshot and the catalog may arrive in either order; the
    whole state, so the checks and the pending id, is the same at the end. *)
Lemma pintura_snapshot_catalog_commute `{Host} rows mine snap (s0 : Pintura.State) :
  Pintura.sections s0 = [] -> Pintura._pendingSnapshot s0 = None ->
  Pintura.catalogo_next rows (Pintura.snapshot_next mine snap s0)
  = Pintura.snapshot_next mine snap (Pintura.catalogo_next rows s0).
Proof.
  destruct s0 as [u d l e cd cr secs pid psnap sm]. simpl. intros -> ->.
  unfold Pintura.snapshot_next, Pintura.catalogo_next.
  destruct snap as [snap|]; [|done].
  destruct (sr_exists snap); [|done].
  unfold Pintura.applyPendingIfReady; simpl.
  destruct (loadSections (js "Partes") rows); simpl; [done|].
  destruct (truthyStr _); destruct (truthyStr _); done.
Qed.

(** Chasis, a snapshot that comes from "Pendientes": the record id is stored
    before the buffer is filled, so the checks and the pending id are the
    same whether it is queued before the catalog or applied after it. *)
Lemma chasis_queue_catalog_same `{Host} rows vin checks id (s0 : Chasis.State) :
  Chasis.tasks s0 = [] -> Chasis._buffered s0 = None ->
  let sA := (Chasis.catalogo_next rows (Chasis.queueOrApplyChecks vin checks id s0).1).1 in
  let sB := (Chasis.queueOrApplyChecks vin checks id (Chasis.catalogo_next rows s0).1).1 in
  Chasis.tasks sA = Chasis.tasks sB /\ Chasis._pendingId sA = id
  /\ Chasis._pendingId sB = id.
Proof.
  destruct s0 as [u d l e ts b vs pid buf fm]. simpl. intros -> ->.
  unfold Chasis.queueOrApplyChecks, Chasis.catalogo_next, Chasis.flushBufferedIfAny,
    Chasis.applyPendingChecks. simpl.
  destruct (List.map _ (List.filter row_activa rows)); simpl; done.
Qed.

(** C1, where the code departs from it. Chasis, a snapshot that comes with
    the answer [pending] of the status query: the checks are the same in
    either order, the pending id is not. When the answer comes before the
    catalog, the id put in the buffer is the one read before the handler
    stores the id of the answer, and the flush writes it back. *)
Theorem chasis_pending_id_depends_on_order (H : Host) rows resp id (s0 : Chasis.State) :
  Chasis.tasks s0 = [] -> Chasis._buffered s0 = None -> Chasis._pendingId s0 = None ->
  Chasis.ve_status resp = Chasis.st_pending -> Chasis.ve_id resp = Some id ->
  Chasis.tasks (Chasis.catalogo_next rows (Chasis.vinEstado_next resp s0)).1
  = Chasis.tasks (Chasis.vinEstado_next resp (Chasis.catalogo_next rows s0).1)
  /\ Chasis._pendingId (Chasis.catalogo_next rows (Chasis.vinEstado_next resp s0)).1 = None
  /\ Chasis._pendingId (Chasis.vinEstado_next resp (Chasis.catalogo_next rows s0).1)
     = Some id.
Proof.
  destruct s0 as [u d l e ts b vs pid buf fm]. simpl. intros -> -> -> Hst Hid.
  unfold Chasis.vinEstado_next, Chasis.catalogo_next, Chasis.flushBufferedIfAny,
    Chasis.applyPendingChecks. rewrite Hst, Hid. simpl.
  destruct (List.map _ (List.filter row_activa rows)); simpl; done.
Qed.

(** The theorem on the Basic Latin host, with record 7 pending: the answer
    before the catalog leaves no pending id, the catalog before the answer
    leaves 7. *)
Lemma chasis_pending_id_depends_on_order_witness :
  Chasis._pendingId
    (@Chasis.catalogo_next latinHost one_row
       (@Chasis.vinEstado_next latinHost pending_seven chasis_waiting)).1 = None
  /\ Chasis._pendingId
       (@Chasis.vinEstado_next latinHost pending_seven
          (@Chasis.catalogo_next latinHost one_row chasis_waiting).1) = Some 7.
Proof.
  pose proof (chasis_pending_id_depends_on_order latinHost one_row pending_seven 7
                chasis_waiting eq_refl eq_refl eq_refl eq_refl eq_refl)
    as (_ & HA & HB).
  exact (conj HA HB).
Defined.

(** The readiness theorem on samples: Premontaje with an open task, Chasis
    with its only task open, and Pintura after the catalog arrived and the
    first of its two tasks was checked. *)
Lemma readiness_needs_full_sections_witness :
  Premontaje.allComplete premontaje_one_open = false
  /\ Chasis.canFinish chasis_checked_one = false
  /\ @Pintura.allComplete
       (@Pintura.run latinHost
          [Pintura.CatalogoNext [mkRow None (js "Lijar") true; mkRow None (js "Imprimar") true];
           Pintura.ColorInputChange (js "Rojo") true;
           Pintura.ColorInputChange (js "3020") false;
           Pintura.ToggleTask 0 0]
          (Pintura.init 1 0)) = false.
Proof.
  pose proof (readiness_needs_full_sections latinHost) as (Hpi & Hpre & _ & Hch).
  split; [|split].
  - apply Hpre. constructor. right. right. by left.
  - apply Hch. right. by left.
  - apply Hpi; [reflexivity|]. vm_compute. constructor. right. right. by left.
Defined.


(** The theorem on the samples without a pending id: Pintura and Chasis
    start a record; the id 12 of the response is finalized. *)
Lemma finalize_without_pending_id_witness :
  @Pintura.continueAndClear latinHost pintura_ready_new
  = (pintura_ready_new, [IniciarTarea (Pintura.startDto pintura_ready_new)])
  /\ Chasis.continueAndClear chasis_ready_new
     = (chasis_ready_new, [Chasis.IniciarTarea (Chasis.startDto chasis_ready_new) Chasis.CasoB])
  /\ Chasis.iniciar_next Chasis.CasoB (Some (mkIniciarResp None None (Some 12))) chasis_ready_new
     = (chasis_ready_new, [Chasis.FinalizarTarea (Some 12)]).
Proof.
  pose proof (finalize_without_pending_id latinHost) as (Hpi & Hch).
  destruct (Hpi pintura_ready_new eq_refl ltac:(discriminate) eq_refl) as (Hc & _).
  destruct (Hch chasis_ready_new eq_refl ltac:(discriminate) eq_refl) as (Hc' & Hn' & _).
  split; [exact Hc|]. split; [exact Hc'|].
  apply (Hn' chasis_ready_new (Some (mkIniciarResp None None (Some 12))) 12 eq_refl).
  discriminate.
Defined.

(** The frame theorem on a sample: toggling the second task of the first
    section of Pintura succeeds and unchecks it. *)
Lemma toggleTask_frame_witness :
  exists s', Pintura.toggleTask 0 1 pintura_ready = Some s'
             /\ taskAt 0 1 (Pintura.sections s') = Some (mkTask (js "Imprimar") false)
             /\ taskAt 0 0 (Pintura.sections s') = Some (mkTask (js "Lijar") true)
             /\ Pintura._pendingId s' = Some 7.
Proof.
  destruct toggleTask_frame as (Hpi & _).
  destruct (Hpi 0%nat 1%nat pintura_ready (mkTask (js "Imprimar") true) eq_refl)
    as (s' & Ht & Hf & Ho & _ & _ & _ & _ & Hp & _).
  exists s'. split; [exact Ht|]. split; [exact Hf|]. split; [|exact Hp].
  rewrite Ho; [reflexivity|]. intros [= ?].
Defined.

(** ** What the update body holds *)

Lemma fold_assign_lookup `{Host} (l : list Task) (c : jsstring) :
  c <> js "__proto__" ->
  fold_left
    (fun p t => assignProp (labelToCol (label t)) (PNum (if done t then 1 else 0)) p)
    l (∅ : Patch) !! c
  = (fun t => PNum (if done t then 1 else 0))
      <$> last (List.filter (fun t => bool_decide (labelToCol (label t) = c)) l).
Proof.
  intros Hc. induction l as [|x l IH] using rev_ind; [done|].
  rewrite fold_left_app, List.filter_app. simpl. unfold assignProp at 1.
  case_bool_decide as Hp.
  - rewrite bool_decide_eq_false_2 by congruence. by rewrite app_nil_r.
  - case_bool_decide as Hx.
    + subst c. rewrite lookup_insert_eq. by rewrite last_snoc.
    + rewrite lookup_insert_ne by done. by rewrite app_nil_r.
Qed.

(** The body of the update of Pintura: under a column name it holds the flag
    of the last task with that column; under [color] and [RAL], when no task
    has such a column, the trimmed colour fields ([null] when blank). *)
Lemma pintura_updatePatch_lookup `{Host} (s : Pintura.State) (c : jsstring) :
  c <> js "__proto__" ->
  Pintura.updatePatch s !! c
  = match last (List.filter (fun t => bool_decide (labelToCol (label t) = c))
                  (flat_map tasks (Pintura.sections s))) with
    | Some t => Some (PNum (if done t then 1 else 0))
    | None =>
        if bool_decide (c = js "color")
        then Some (patchStr (orNull (trim (Pintura.colorDescripcion s))))
        else if bool_decide (c = js "RAL")
        then Some (patchStr (orNull (trim (Pintura.colorRAL s))))
        else None
    end.
Proof.
  intros Hc. unfold Pintura.updatePatch, Pintura.buildChecksPatch, buildChecksPatchOf.
  rewrite lookup_union, (fold_assign_lookup _ c Hc).
  destruct (last _) as [t|]; simpl.
  - by destruct (_ !! c).
  - case_bool_decide as Hcol.
    + subst c. by rewrite lookup_insert_eq.
    + rewrite lookup_insert_ne by done. case_bool_decide as Hral.
      * subst c. by rewrite lookup_insert_eq.
      * by rewrite lookup_insert_ne.
Qed.

Lemma fold_assignProp_lookup {A V} (k : A -> jsstring) (v : A -> V) (l : list A)
    (c : jsstring) :
  fold_left (fun p t => assignProp (k t) (v t) p) l (∅ : gmap jsstring V) !! c
  = if bool_decide (c = js "__proto__") then None
    else v <$> last (List.filter (fun t => bool_decide (k t = c)) l).
Proof.
  induction l as [|x l IH] using rev_ind.
  - simpl. by case_bool_decide.
  - rewrite fold_left_app, List.filter_app. simpl. unfold assignProp at 1.
    destruct (decide (k x = js "__proto__")) as [Hp|Hp].
    + rewrite (bool_decide_eq_true_2 _ Hp), IH.
      case_bool_decide as Hc; [done|].
      rewrite bool_decide_eq_false_2 by congruence. by rewrite app_nil_r.
    + rewrite (bool_decide_eq_false_2 _ Hp).
      destruct (decide (k x = c)) as [Hx|Hx].
      * rewrite (bool_decide_eq_true_2 (k x = c) Hx). subst c.
        rewrite lookup_insert_eq, last_snoc. by rewrite bool_decide_eq_false_2.
      * rewrite (bool_decide_eq_false_2 (k x = c) Hx), lookup_insert_ne by done.
        by rewrite IH, app_nil_r.
Qed.


Lemma checksByLabel_lookup (ts : list Task) (l : jsstring) :
  checksByLabel ts !! l
  = if bool_decide (l = js "__proto__") then None else labelEntry ts l.
Proof. unfold checksByLabel, labelEntry. apply fold_assignProp_lookup. Qed.

(** ** Confirming the finalization of a resumed record *)



(** ** Runs of the model on the Basic Latin host *)

(** Pintura: the snapshot of record 7 arrives before the catalog; once the
    catalog is there the first task is checked, the second is not, the
    colour fields are filled and the pending id is 7. *)
Example pintura_snapshot_then_catalog :
  let snap := mkSnapshotResp true (Some 7) None (Some (js " Rojo ")) (Some (js "3020"))
                (Some (<[js "montar_estribera" := true]>
                         (<[js "ajustar_faro" := false]> ∅))) in
  let mine := mkPendingItem pintura 7 None None None in
  let rows := [mkRow (Some (js "Fase 1")) (js "Montar estribera") true;
               mkRow (Some (js "Fase 1")) (js "Ajustar faro") true] in
  let s := @Pintura.catalogo_next latinHost rows
             (@Pintura.snapshot_next latinHost mine (Some snap) (Pintura.init 1 0)) in
  Pintura.sections s
  = [mkSection (js "Fase 1") [mkTask (js "Montar estribera") true;
                              mkTask (js "Ajustar faro") false]]
  /\ Pintura._pendingId s = Some 7
  /\ Pintura._pendingSnapshot s = None
  /\ Pintura.colorDescripcion s = js "Rojo"
  /\ Pintura.colorRAL s = js "3020".
Proof. vm_compute. repeat split. Qed.

(** The sections of a catalog come sorted by phase number, the others last. *)
Example loadSections_order :
  List.map name
    (@loadSections latinHost (js "Fase 1")
       [mkRow (Some (js "Fase 2")) (js "a") true;
        mkRow (Some (js "Varios")) (js "b") true;
        mkRow (Some (js "Fase 1")) (js "c") true;
        mkRow (Some (js "Fase 2")) (js "d") false])
  = [js "Fase 1"; js "Fase 2"; js "Varios"].
Proof. vm_compute. reflexivity. Qed.

(** Chasis: a flush of the buffer sets the identifier state to [ok],
    whatever it was. *)
Lemma chasis_flush_sets_ok `{Host} rows (s : Chasis.State) :
  Chasis._buffered s <> None ->
  Chasis.vinState (Chasis.catalogo_next rows s).1 = Chasis.ok.
Proof.
  unfold Chasis.catalogo_next, Chasis.flushBufferedIfAny. simpl.
  by destruct (Chasis._buffered s).
Qed.

(** Chasis: a snapshot of record 7 sits in the buffer, the status query has
    answered [finalized]; the catalog arrives and the screen is ready to
    finish until the scheduled revalidation is answered. *)
Example chasis_catalog_after_finalized :
  let s := Chasis.mkState 1 0 true None [] (js "WBA3A5C50DF12345X") Chasis.finalized None
             (Some (Chasis.mkBuffered (js "WBA3A5C50DF12345X")
                      {[ js "soldar_soporte" := true ]} (Some 7))) false in
  Chasis.canFinish s = false
  /\ Chasis.canFinish (@Chasis.catalogo_next latinHost one_row s).1 = true
  /\ (@Chasis.catalogo_next latinHost one_row s).2
     = [Chasis.Revalidate (js "WBA3A5C50DF12345X")].
Proof. vm_compute. repeat split. Qed.

(** * Further properties *)

(** ** Column names *)

Lemma underscore_not_az09 c : isUnderscore c = true -> isaz09 c = false.
Proof.
  unfold isUnderscore. intros Hc. apply N.eqb_eq in Hc. by subst c.
Qed.

Lemma collapsed_collapseRuns b s : collapsed b (collapseRuns b s) = true.
Proof.
  revert b. induction s as [|c s IH]; intros b; simpl; [done|].
  destruct (isaz09 c) eqn:Hc; simpl.
  - by rewrite Hc.
  - destruct b; simpl; [apply IH|]. by rewrite IH.
Qed.

Lemma collapsed_weaken b s : collapsed b s = true -> collapsed false s = true.
Proof.
  destruct s as [|c s]; simpl; [done|]. destruct (isaz09 c); [done|].
  intros Hc. apply andb_true_iff in Hc as [Hc Hs]. apply andb_true_iff in Hc as [Hu _].
  by rewrite Hu, Hs.
Qed.

Lemma collapsed_dropWhile b s :
  collapsed b s = true -> collapsed false (dropWhile isUnderscore s) = true.
Proof.
  revert b. induction s as [|c s IH]; intros b; simpl; [done|].
  destruct (isUnderscore c) eqn:Hu.
  - rewrite (underscore_not_az09 _ Hu). simpl. intros Hc.
    apply andb_true_iff in Hc as [_ Hs]. by apply IH with true.
  - destruct (isaz09 c) eqn:Ha; simpl; [by rewrite Ha|done].
Qed.

Lemma collapsed_prefix b l1 l2 : collapsed b (l1 ++ l2) = true -> collapsed b l1 = true.
Proof.
  revert b. induction l1 as [|c l1 IH]; intros b; simpl; [done|].
  destruct (isaz09 c); [apply IH|]. intros Hc.
  apply andb_true_iff in Hc as [Hc Hs]. rewrite Hc. simpl. by apply IH in Hs.
Qed.

Lemma dropWhile_suffix {A} (p : A -> bool) (l : list A) :
  exists pre, l = pre ++ dropWhile p l.
Proof.
  induction l as [|x l [pre IH]]; simpl; [by exists []|].
  destruct (p x); [|by exists []]. exists (x :: pre). simpl. by f_equal.
Qed.

Lemma dropWhile_idem {A} (p : A -> bool) (l : list A) :
  dropWhile p (dropWhile p l) = dropWhile p l.
Proof.
  induction l as [|x l IH]; simpl; [done|].
  destruct (p x) eqn:Hx; [done|]. simpl. by rewrite Hx.
Qed.

Lemma dropWhile_head {A} (p : A -> bool) (l : list A) x :
  head (dropWhile p l) = Some x -> p x = false.
Proof.
  induction l as [|y l IH]; simpl; [done|].
  destruct (p y) eqn:Hy; [done|]. simpl. by intros [= <-].
Qed.

Lemma dropWhile_snoc_false {A} (p : A -> bool) (l : list A) x :
  p x = false -> dropWhile p (l ++ [x]) = dropWhile p l ++ [x].
Proof.
  intros Hx. induction l as [|y l IH]; simpl; [by rewrite Hx|].
  by destruct (p y).
Qed.

Lemma dropWhile_fixed {A} (p : A -> bool) (l : list A) :
  dropWhile p l = l <-> forall x, head l = Some x -> p x = false.
Proof.
  destruct l as [|y l]; simpl; [done|]. destruct (p y) eqn:Hy.
  - split.
    + intros Heq. pose proof (dropWhile_suffix p l) as [pre Hpre].
      apply (f_equal length) in Heq. rewrite Hpre in Heq at 2.
      simpl in Heq. rewrite length_app in Heq. lia.
    + intros Hall. specialize (Hall y eq_refl). congruence.
  - split; [|done]. by intros _ x [= <-].
Qed.

Lemma last_rev {A} (l : list A) : last (rev l) = head l.
Proof. destruct l as [|x l]; simpl; [done|]. by rewrite last_snoc. Qed.

Lemma head_rev {A} (l : list A) : head (rev l) = last l.
Proof. by rewrite <- (rev_involutive l) at 2; rewrite last_rev. Qed.

(** Stripping at both ends leaves nothing to strip at either end. *)
Lemma stripUnderscores_ends (s : jsstring) :
  dropWhile isUnderscore (stripUnderscores s) = stripUnderscores s
  /\ dropWhile isUnderscore (rev (stripUnderscores s)) = rev (stripUnderscores s).
Proof.
  unfold stripUnderscores. split.
  - set (a := dropWhile isUnderscore s).
    assert (forall x, head a = Some x -> isUnderscore x = false) as Ha
      by (intros x; apply dropWhile_head).
    destruct a as [|x t]; simpl; [done|].
    specialize (Ha x eq_refl).
    rewrite (dropWhile_snoc_false _ _ _ Ha), rev_app_distr. simpl. by rewrite Ha.
  - rewrite rev_involutive. apply dropWhile_idem.
Qed.

Lemma collapsed_stripUnderscores b s :
  collapsed b s = true -> collapsed false (stripUnderscores s) = true.
Proof.
  intros Hc. apply collapsed_dropWhile in Hc. unfold stripUnderscores.
  set (a := dropWhile isUnderscore s) in *.
  pose proof (dropWhile_suffix isUnderscore (rev a)) as [pre Hpre].
  apply (f_equal (@rev N)) in Hpre. rewrite rev_involutive, rev_app_distr in Hpre.
  rewrite Hpre in Hc. by apply collapsed_prefix in Hc.
Qed.

Lemma collapsed_class b s :
  collapsed b s = true -> forallb (fun u => isaz09 u || isUnderscore u) s = true.
Proof.
  revert b. induction s as [|c s IH]; intros b; simpl; [done|].
  destruct (isaz09 c); simpl; [apply IH|]. intros Hc.
  apply andb_true_iff in Hc as [Hc Hs]. apply andb_true_iff in Hc as [Hu _].
  rewrite Hu. by apply IH in Hs.
Qed.

Lemma collapsed_no_pair b (s : jsstring) i :
  collapsed b s = true -> ~ (s !! i = Some 95%N /\ s !! S i = Some 95%N).
Proof.
  revert b i. induction s as [|c s IH]; intros b i Hc [H1 H2]; [done|].
  simpl in Hc. destruct i as [|i]; simpl in *.
  - injection H1 as ->. simpl in Hc. apply andb_true_iff in Hc as [_ Hs].
    destruct s as [|d s]; [done|]. simpl in H2. injection H2 as ->. done.
  - destruct (isaz09 c).
    + by apply (IH false i).
    + apply andb_true_iff in Hc as [_ Hs]. by apply (IH true i).
Qed.

Lemma labelToCol_collapsed `{Host} (l : jsstring) : collapsed false (labelToCol l) = true.
Proof.
  unfold labelToCol. destruct (truthyStr l); [|done].
  apply collapsed_stripUnderscores with false, collapsed_collapseRuns.
Qed.

Lemma labelToCol_ends `{Host} (l : jsstring) :
  head (labelToCol l) <> Some 95%N /\ last (labelToCol l) <> Some 95%N.
Proof.
  unfold labelToCol. destruct (truthyStr l); [|done].
  set (s := collapseRuns false _).
  destruct (stripUnderscores_ends s) as [Hh Hl]. split.
  - intros Hx. by pose proof (proj1 (dropWhile_fixed _ _) Hh _ Hx).
  - intros Hx. rewrite <- head_rev in Hx.
    by pose proof (proj1 (dropWhile_fixed _ _) Hl _ Hx).
Qed.

(** X1. For every label and every host, the column name is a string over
    [a-z0-9_] that neither starts nor ends with an underscore and never has
    two underscores in a row; the empty label gives the empty name. *)
Theorem labelToCol_shape (H : Host) (l : jsstring) :
  forallb (fun u => isaz09 u || isUnderscore u) (labelToCol l) = true
  /\ head (labelToCol l) <> Some 95%N
  /\ last (labelToCol l) <> Some 95%N
  /\ (forall i, ~ (labelToCol l !! i = Some 95%N /\ labelToCol l !! S i = Some 95%N))
  /\ labelToCol [] = [].
Proof.
  pose proof (labelToCol_collapsed l) as Hc.
  destruct (labelToCol_ends l) as [Hh Hl].
  repeat split; try done.
  - by apply collapsed_class with false.
  - intros i. by apply collapsed_no_pair with false.
Qed.

Lemma latinHost_lower_laws : HostLawsLower latinHost.
Proof. by constructor. Qed.

Lemma collapsed_collapseRuns_fixed b s :
  collapsed b s = true -> collapseRuns b s = s.
Proof.
  revert b. induction s as [|c s IH]; intros b; simpl; [done|].
  destruct (isaz09 c); [intros Hc; f_equal; by apply IH|].
  intros Hc. apply andb_true_iff in Hc as [Hc Hs]. apply andb_true_iff in Hc as [Hu Hb].
  destruct b; [done|]. apply N.eqb_eq in Hu. subst c. f_equal. by apply IH.
Qed.

Lemma class_basic_latin (s : jsstring) :
  forallb (fun u => isaz09 u || isUnderscore u) s = true -> forallb isBasicLatin s = true.
Proof.
  induction s as [|c s IH]; simpl; [done|]. intros Hc.
  apply andb_true_iff in Hc as [Hc Hs]. rewrite (IH Hs), andb_true_r.
  unfold isaz09, isLowerAZ, isDigit, isUnderscore, inRange, isBasicLatin in *.
  apply N.ltb_lt. repeat (apply orb_true_iff in Hc as [Hc|Hc]).
  - apply andb_true_iff in Hc as [_ Hc]. apply N.leb_le in Hc. lia.
  - apply andb_true_iff in Hc as [_ Hc]. apply N.leb_le in Hc. lia.
  - apply N.eqb_eq in Hc. lia.
Qed.

Lemma class_lower_fixed (s : jsstring) :
  forallb (fun u => isaz09 u || isUnderscore u) s = true -> List.map lowerLatin s = s.
Proof.
  induction s as [|c s IH]; simpl; [done|]. intros Hc.
  apply andb_true_iff in Hc as [Hc Hs]. rewrite (IH Hs). f_equal.
  unfold lowerLatin, isUpperAZ, isaz09, isLowerAZ, isDigit, isUnderscore, inRange in *.
  destruct ((65 <=? c)%N && (c <=? 90)%N) eqn:Hu; [|done].
  apply andb_true_iff in Hu as [Hu1 Hu2]. apply N.leb_le in Hu1, Hu2.
  repeat (apply orb_true_iff in Hc as [Hc|Hc]).
  - apply andb_true_iff in Hc as [Hc _]. apply N.leb_le in Hc. lia.
  - apply andb_true_iff in Hc as [_ Hc]. apply N.leb_le in Hc. lia.
  - apply N.eqb_eq in Hc. lia.
Qed.

Lemma class_no_combining (s : jsstring) :
  forallb (fun u => isaz09 u || isUnderscore u) s = true ->
  List.filter (fun c => negb (isCombiningMark c)) s = s.
Proof.
  intros Hc. apply filter_all. apply class_basic_latin in Hc.
  induction s as [|c s IH]; simpl in *; [done|].
  apply andb_true_iff in Hc as [Hc Hs]. rewrite (IH Hs), andb_true_r.
  unfold isBasicLatin, isCombiningMark, inRange in *. apply N.ltb_lt in Hc.
  apply negb_true_iff, andb_false_iff. left. apply N.leb_gt. lia.
Qed.

(** X2. On a host whose lower-case mapping and canonical decomposition act on
    Basic Latin strings as the standard says, a column name is its own
    column name. *)
Theorem labelToCol_idempotent (H : Host) (HL : HostLawsLower H) (l : jsstring) :
  labelToCol (labelToCol l) = labelToCol l.
Proof.
  pose proof (labelToCol_collapsed l) as Hc.
  destruct (labelToCol_ends l) as [Hh Hl].
  set (r := labelToCol l) in *.
  pose proof (collapsed_class _ _ Hc) as Hclass.
  unfold labelToCol at 1. destruct (truthyStr r) eqn:Hr; [|by destruct r].
  rewrite (normalizeNFD_basic_latin r (class_basic_latin _ Hclass)).
  rewrite (class_no_combining _ Hclass).
  rewrite (toLowerCase_basic_latin r (class_basic_latin _ Hclass)).
  rewrite (class_lower_fixed _ Hclass), (collapsed_collapseRuns_fixed _ _ Hc).
  unfold stripUnderscores.
  assert (dropWhile isUnderscore r = r) as ->.
  { apply dropWhile_fixed. intros x Hx. unfold isUnderscore. apply N.eqb_neq.
    intros ->. done. }
  assert (dropWhile isUnderscore (rev r) = rev r) as ->.
  { apply dropWhile_fixed. intros x Hx. rewrite head_rev in Hx.
    unfold isUnderscore. apply N.eqb_neq. intros ->. done. }
  apply rev_involutive.
Qed.

(** The theorem on the Basic Latin host, at a label with capitals, blanks and
    punctuation. *)
Lemma labelToCol_idempotent_witness :
  @labelToCol latinHost (js "  Montar Estribera (izq.) __") = js "montar_estribera_izq"
  /\ @labelToCol latinHost (@labelToCol latinHost (js "  Montar Estribera (izq.) __"))
     = @labelToCol latinHost (js "  Montar Estribera (izq.) __").
Proof.
  split; [reflexivity|].
  exact (labelToCol_idempotent latinHost latinHost_lower_laws
           (js "  Montar Estribera (izq.) __")).
Defined.

(** The only name on [Object.prototype] that a column name can be. *)
Lemma labelToCol_prototype `{Host} (l : jsstring) :
  labelToCol l ∈ objectPrototypeKeys -> labelToCol l = js "constructor".
Proof.
  pose proof (labelToCol_collapsed l) as Hc.
  destruct (labelToCol_ends l) as [Hh _].
  intros Hin. unfold objectPrototypeKeys in Hin. simpl in Hin.
  repeat (apply elem_of_cons in Hin as [Hin|Hin]);
    try (rewrite Hin in Hc; vm_compute in Hc; discriminate);
    try (rewrite Hin in Hh; vm_compute in Hh; congruence);
    try exact Hin.
  by apply elem_of_nil in Hin.
Qed.

(** X3. A task whose column is not an own key of the checks object comes out
    unchecked, with one exception: the column [constructor] is found on the
    prototype of the object and the task comes out checked. *)
Theorem missing_column_unchecked (H : Host) (ck : Checks) (t : Task) :
  ck !! labelToCol (label t) = None ->
  done (markTask ck t) = bool_decide (labelToCol (label t) = js "constructor")
  /\ label (markTask ck t) = label t.
Proof.
  intros Hk. split; [|done]. unfold markTask, truthyProp. simpl. rewrite Hk.
  case_bool_decide as Hin.
  - apply labelToCol_prototype in Hin. by rewrite bool_decide_eq_true_2.
  - case_bool_decide as Hc; [|done]. exfalso. apply Hin. rewrite Hc.
    unfold objectPrototypeKeys. simpl. left.
Qed.

(** The theorem on the Basic Latin host: with an empty checks object the task
    "Ajustar faro" is unchecked and the task "Constructor" is checked. *)
Lemma missing_column_unchecked_witness :
  done (@markTask latinHost ∅ (mkTask (js "Ajustar faro") true)) = false
  /\ done (@markTask latinHost ∅ (mkTask (js "Constructor") false)) = true.
Proof.
  split.
  - destruct (missing_column_unchecked latinHost ∅ (mkTask (js "Ajustar faro") true)
                (lookup_empty _)) as [Hd _].
    rewrite Hd. reflexivity.
  - destruct (missing_column_unchecked latinHost ∅ (mkTask (js "Constructor") false)
                (lookup_empty _)) as [Hd _].
    rewrite Hd. reflexivity.
Defined.

(** ** Applying and building checks *)

Lemma markTask_label_only `{Host} ck (ts1 ts2 : list Task) :
  List.map label ts1 = List.map label ts2 ->
  List.map (markTask ck) ts1 = List.map (markTask ck) ts2.
Proof.
  revert ts2. induction ts1 as [|t ts1 IH]; intros [|u ts2]; simpl; try done.
  intros [= Hl Hrest]. unfold markTask at 1 3. rewrite Hl. f_equal. by apply IH.
Qed.

Lemma markSection_label_only `{Host} ck (secs1 secs2 : list Section) :
  labelsOf secs1 = labelsOf secs2 -> List.map name secs1 = List.map name secs2 ->
  List.map (markSection ck) secs1 = List.map (markSection ck) secs2.
Proof.
  unfold labelsOf. revert secs2.
  induction secs1 as [|a secs1 IH]; intros [|b secs2]; simpl; try done.
  intros [= Hl Hrest] [= Hn Hns]. unfold markSection at 1 3.
  rewrite Hn, (markTask_label_only ck _ _ Hl). f_equal. by apply IH.
Qed.

(** X4. Applying a snapshot does not look at the flags the operator had set:
    two Pintura screens with the same snapshot and the same catalog (names
    and labels) end with the same sections, and two Chasis screens with the
    same labels end with the same tasks when the answer [pending] arrives. *)
Theorem snapshot_overwrites_flags (H : Host) :
  (forall (s1 s2 : Pintura.State),
     Pintura._pendingSnapshot s1 = Pintura._pendingSnapshot s2 ->
     labelsOf (Pintura.sections s1) = labelsOf (Pintura.sections s2) ->
     List.map name (Pintura.sections s1) = List.map name (Pintura.sections s2) ->
     Pintura._pendingSnapshot s1 <> None -> Pintura.sections s1 <> [] ->
     Pintura.sections (Pintura.applyPendingIfReady s1)
     = Pintura.sections (Pintura.applyPendingIfReady s2))
  /\ (forall (s1 s2 : Chasis.State) resp,
        Chasis.ve_status resp = Chasis.st_pending ->
        List.map label (Chasis.tasks s1) = List.map label (Chasis.tasks s2) ->
        Chasis.tasks s1 <> [] ->
        Chasis.tasks (Chasis.vinEstado_next resp s1)
        = Chasis.tasks (Chasis.vinEstado_next resp s2)).
Proof.
  split.
  - intros s1 s2 Hsnap Hl Hn Hsome Hne. unfold Pintura.applyPendingIfReady.
    rewrite <- Hsnap. destruct (Pintura._pendingSnapshot s1) as [snap|]; [|done].
    destruct (Pintura.sections s1) as [|a l1] eqn:H1; [done|].
    destruct (Pintura.sections s2) as [|b l2] eqn:H2; [done|].
    simpl.
    destruct (truthyStr (trim (orEmpty (ps_color snap))));
      destruct (truthyStr (trim (orEmpty (ps_RAL snap)))); simpl; rewrite H1, H2;
      by apply (markSection_label_only _ (a :: l1) (b :: l2)).
  - intros s1 s2 resp Hst Hl Hne. unfold Chasis.vinEstado_next. rewrite Hst. simpl.
    unfold Chasis.applyPendingChecks.
    destruct (Chasis.tasks s1) as [|a l1] eqn:H1; [done|].
    destruct (Chasis.tasks s2) as [|b l2] eqn:H2; [done|].
    simpl. by apply (markTask_label_only _ (a :: l1) (b :: l2)).
Qed.

(** The theorem on two Chasis screens that differ in the flag of their task:
    after the answer [pending] of record 7 both show the task checked. *)
Lemma snapshot_overwrites_flags_witness :
  Chasis.tasks (@Chasis.vinEstado_next latinHost pending_seven chasis_checked_one)
  = Chasis.tasks (@Chasis.vinEstado_next latinHost pending_seven chasis_ready).
Proof.
  pose proof (snapshot_overwrites_flags latinHost) as [_ Hch].
  apply Hch; [reflexivity|reflexivity|discriminate].
Defined.

Lemma labelToCol_not_proto `{Host} (l : jsstring) : labelToCol l <> js "__proto__".
Proof.
  destruct (labelToCol_ends l) as [Hh _]. intros Heq. by rewrite Heq in Hh.
Qed.

(** X5. The update body of Pintura and Premontaje holds, under the column of
    any label, the flag (1 or 0) of the last task of the catalog that has
    this column, and nothing when no task has it: tasks that share a column
    share one entry and the later one decides. *)
Theorem checks_patch_last_wins (H : Host) (secs : list Section) (l : jsstring) :
  buildChecksPatchOf secs !! labelToCol l
  = (fun t => PNum (if done t then 1 else 0))
      <$> last (List.filter (fun t => bool_decide (labelToCol (label t) = labelToCol l))
                  (flat_map tasks secs)).
Proof. apply fold_assign_lookup, labelToCol_not_proto. Qed.

Lemma filter_key_absent {A B} `{EqDecision B} (f : A -> B) (l : list A) (k : B) :
  ~ In k (List.map f l) -> List.filter (fun x => bool_decide (f x = k)) l = [].
Proof.
  induction l as [|y l IH]; simpl; [done|]. intros Hk.
  rewrite bool_decide_eq_false_2 by (intros Heq; apply Hk; by left).
  apply IH. intros Hin. apply Hk. by right.
Qed.

Lemma filter_NoDup_key {A B} `{EqDecision B} (f : A -> B) (l : list A) (t : A) :
  NoDup (List.map f l) -> In t l ->
  List.filter (fun x => bool_decide (f x = f t)) l = [t].
Proof.
  induction l as [|x l IH]; simpl; [done|].
  intros Hnd Hin. apply NoDup_cons in Hnd as [Hx Hnd'].
  rewrite list_elem_of_In in Hx.
  destruct Hin as [->|Hin].
  - rewrite bool_decide_eq_true_2 by done. f_equal. by apply filter_key_absent.
  - rewrite bool_decide_eq_false_2; [by apply IH|].
    intros Heq. apply Hx. rewrite Heq. by apply in_map.
Qed.

(** X6. When the columns of the labels are pairwise distinct, a resume that
    receives, under every column of the update body, the flag the body held
    gives back every task exactly as it was saved. *)
Theorem patch_resume_round_trip (H : Host) (secs : list Section) (ck : Checks) :
  NoDup (List.map (fun t => labelToCol (label t)) (flat_map tasks secs)) ->
  (forall c n, buildChecksPatchOf secs !! c = Some (PNum n) ->
               ck !! c = Some (negb (n =? 0))) ->
  List.map (markSection ck) secs = secs.
Proof.
  intros Hnd Hck.
  assert (forall t, t ∈ flat_map tasks secs -> markTask ck t = t) as Hmark.
  { intros t Hin. unfold markTask, truthyProp.
    pose proof (fold_assign_lookup (flat_map tasks secs) _
                  (labelToCol_not_proto (label t))) as Hl.
    apply list_elem_of_In in Hin.
    rewrite (filter_NoDup_key (fun t => labelToCol (label t)) _ t Hnd Hin) in Hl.
    simpl in Hl. apply Hck in Hl. rewrite Hl. destruct t as [lb d]. simpl.
    by destruct d. }
  clear Hnd Hck. induction secs as [|sec secs IH]; simpl; [done|].
  rewrite IH.
  - f_equal. unfold markSection. destruct sec as [nm ts]. simpl. f_equal.
    assert (forall t, t ∈ ts -> markTask ck t = t) as Hts.
    { intros t Hin. apply Hmark. simpl. apply elem_of_app. by left. }
    clear -Hts. induction ts as [|t ts IH]; simpl; [done|].
    rewrite Hts by left. f_equal. apply IH. intros u Hu. apply Hts. by right.
  - intros t Hin. apply Hmark. simpl. apply elem_of_app. by right.
Qed.

(** The theorem on the Basic Latin host: the three tasks of the sample come
    back with their flags. *)
Lemma patch_resume_round_trip_witness :
  List.map (@markSection latinHost three_checks) three_tasks = three_tasks.
Proof.
  apply (patch_resume_round_trip latinHost three_tasks three_checks).
  - apply (bool_decide_unpack _). by vm_compute.
  - intros c n Hc.
    assert (@buildChecksPatchOf latinHost three_tasks
            = <[js "pulir" := PNum 1]> (<[js "imprimar" := PNum 0]>
                (<[js "lijar" := PNum 1]> ∅))) as Hp by reflexivity.
    rewrite Hp in Hc. unfold three_checks.
    destruct (decide (c = js "pulir")) as [->|H1]; [by simplify_map_eq|].
    destruct (decide (c = js "imprimar")) as [->|H2]; [by simplify_map_eq|].
    destruct (decide (c = js "lijar")) as [->|H3]; [by simplify_map_eq|].
    by simplify_map_eq.
Defined.

(** ** Loading the catalog *)

Lemma lookupGroup_groupPush k k' t m :
  lookupGroup k' (groupPush k t m)
  = if bool_decide (k = k') then lookupGroup k m ++ [t] else lookupGroup k' m.
Proof.
  induction m as [|[k0 ts] m IH]; simpl.
  - repeat (case_bool_decide; simplify_eq /=); done.
  - destruct (decide (k0 = k)) as [->|Hne].
    + rewrite !bool_decide_eq_true_2 by done. simpl.
      repeat (case_bool_decide; simplify_eq /=); done.
    + rewrite !(bool_decide_eq_false_2 (k0 = k)) by done. simpl. rewrite IH.
      repeat (case_bool_decide; simplify_eq /=); done.
Qed.

Lemma keys_groupPush k t m :
  List.map fst (groupPush k t m)
  = if bool_decide (k ∈ List.map fst m) then List.map fst m else List.map fst m ++ [k].
Proof.
  induction m as [|[k0 ts] m IH]; simpl; [done|].
  destruct (decide (k0 = k)) as [->|Hne].
  - rewrite (bool_decide_eq_true_2 (k = k)) by done. simpl.
    rewrite bool_decide_eq_true_2; [done|left].
  - rewrite (bool_decide_eq_false_2 (k0 = k)) by done. simpl. rewrite IH.
    destruct (decide (k ∈ List.map fst m)) as [Hin|Hin].
    + rewrite !bool_decide_eq_true_2; [done|by right|done].
    + rewrite !bool_decide_eq_false_2; [done| |done].
      intros [?|?]%elem_of_cons; congruence.
Qed.

Lemma groupBySeccion_snoc dflt rows r :
  groupBySeccion dflt (rows ++ [r])
  = groupPush (seccionOf dflt r) (mkTask (row_label r) false) (groupBySeccion dflt rows).
Proof. unfold groupBySeccion. by rewrite fold_left_app. Qed.

Lemma groupBySeccion_keys_NoDup dflt rows :
  NoDup (List.map fst (groupBySeccion dflt rows)).
Proof.
  induction rows as [|r rows IH] using rev_ind; [constructor|].
  rewrite groupBySeccion_snoc, keys_groupPush. case_bool_decide as Hin; [done|].
  apply NoDup_app. repeat split; [done| |apply NoDup_singleton].
  intros x Hx ->%list_elem_of_singleton. done.
Qed.

Lemma groupBySeccion_lookup dflt rows k :
  lookupGroup k (groupBySeccion dflt rows)
  = List.map (fun r => mkTask (row_label r) false)
      (List.filter (fun r => bool_decide (seccionOf dflt r = k)) rows).
Proof.
  induction rows as [|r rows IH] using rev_ind; [done|].
  rewrite groupBySeccion_snoc, lookupGroup_groupPush, List.filter_app, List.map_app.
  simpl. destruct (decide (seccionOf dflt r = k)) as [Hk|Hk].
  - rewrite !bool_decide_eq_true_2 by done. subst k. simpl. by rewrite IH.
  - rewrite !bool_decide_eq_false_2 by done. simpl. by rewrite app_nil_r.
Qed.

Lemma groupBySeccion_keys dflt rows r :
  In r rows -> In (seccionOf dflt r) (List.map fst (groupBySeccion dflt rows)).
Proof.
  induction rows as [|x rows IH] using rev_ind; [done|].
  rewrite groupBySeccion_snoc, keys_groupPush. intros Hin.
  apply in_app_or in Hin as [Hin|[<-|[]]].
  - specialize (IH Hin). case_bool_decide; [done|]. apply in_or_app. by left.
  - case_bool_decide as Hk; [by apply list_elem_of_In|]. apply in_or_app. right. by left.
Qed.

Lemma lookupGroup_entry k ts (m : list (jsstring * list Task)) :
  NoDup (List.map fst m) -> In (k, ts) m -> lookupGroup k m = ts.
Proof.
  induction m as [|[k0 ts0] m IH]; simpl; [done|].
  intros Hnd. apply NoDup_cons in Hnd as [Hk Hnd]. intros [[= -> ->]|Hin].
  - by rewrite bool_decide_eq_true_2.
  - rewrite bool_decide_eq_false_2; [by apply IH|].
    intros ->. apply Hk. apply list_elem_of_In. by apply (in_map fst) in Hin.
Qed.

Lemma insertBy_Permutation {A} cmp (x : A) l : insertBy cmp x l ≡ₚ x :: l.
Proof.
  induction l as [|y l IH]; simpl; [done|].
  destruct (cmp x y <=? 0); [done|]. rewrite IH. apply perm_swap.
Qed.

Lemma sortBy_Permutation {A} cmp (l : list A) : sortBy cmp l ≡ₚ l.
Proof.
  unfold sortBy. induction l as [|x l IH]; simpl; [done|].
  by rewrite insertBy_Permutation, IH.
Qed.

Lemma filter_filter_and {A} (p q : A -> bool) (l : list A) :
  List.filter q (List.filter p l) = List.filter (fun x => p x && q x) l.
Proof.
  induction l as [|x l IH]; simpl; [done|].
  destruct (p x); simpl; [destruct (q x); by rewrite IH|done].
Qed.

(** X7. The sections of a loaded catalog have pairwise distinct names; a
    section holds exactly the active rows whose section field, trimmed and
    with the default name when blank, is its name, as unchecked tasks in the
    order of the catalog; every active row is in the section of that name. *)
Theorem loadSections_groups (H : Host) (dflt : jsstring) (rows : list TareaCatalogo) :
  NoDup (List.map name (loadSections dflt rows))
  /\ (forall sec, In sec (loadSections dflt rows) ->
        tasks sec = rowsOfSeccion dflt (name sec) rows)
  /\ (forall r, In r rows -> row_activa r = true ->
        In (seccionOf dflt r) (List.map name (loadSections dflt rows))).
Proof.
  unfold loadSections, sortEntries.
  set (g := groupBySeccion dflt (List.filter row_activa rows)).
  set (cmp := fun a b : jsstring * list Task => compareSecciones a.1 b.1).
  assert (List.map name (List.map (fun e : jsstring * list Task => mkSection e.1 e.2)
                            (sortBy cmp g))
          = List.map fst (sortBy cmp g)) as Hnames.
  { rewrite List.map_map. by apply List.map_ext. }
  split; [|split].
  - rewrite Hnames.
    change (List.map fst (sortBy cmp g)) with (fst <$> sortBy cmp g).
    rewrite (sortBy_Permutation cmp g). apply groupBySeccion_keys_NoDup.
  - intros sec Hin. apply in_map_iff in Hin as ([k ts] & <- & Hin). simpl.
    assert (In (k, ts) g) as Hg.
    { apply list_elem_of_In. rewrite <- (sortBy_Permutation cmp g).
      by apply list_elem_of_In. }
    rewrite <- (lookupGroup_entry k ts g (groupBySeccion_keys_NoDup _ _) Hg).
    unfold g. rewrite groupBySeccion_lookup, filter_filter_and. done.
  - intros r Hr Ha. rewrite Hnames. apply list_elem_of_In.
    change (List.map fst (sortBy cmp g)) with (fst <$> sortBy cmp g).
    rewrite (sortBy_Permutation cmp g). apply list_elem_of_In.
    apply groupBySeccion_keys. apply filter_In. done.
Qed.

Lemma faseLe_trans a b c : faseLe a b -> faseLe b c -> faseLe a c.
Proof. destruct a, b, c; simpl; try done. lia. Qed.

Lemma compareSecciones_le `{Host} a b :
  compareSecciones a b <= 0 -> faseLe (faseNum a) (faseNum b).
Proof.
  unfold compareSecciones. destruct (faseNum a) as [x|], (faseNum b) as [y|]; simpl;
    try done; try lia.
  destruct (x =? y) eqn:Hxy; [apply Z.eqb_eq in Hxy|]; lia.
Qed.

Lemma compareSecciones_gt `{Host} a b :
  ~ compareSecciones a b <= 0 -> faseLe (faseNum b) (faseNum a).
Proof.
  unfold compareSecciones. destruct (faseNum a) as [x|], (faseNum b) as [y|]; simpl;
    try done; try lia.
  destruct (x =? y) eqn:Hxy; [apply Z.eqb_eq in Hxy|]; lia.
Qed.

Lemma insertBy_sorted {A} (R : A -> A -> Prop) cmp (x : A) l :
  (forall a b c, R a b -> R b c -> R a c) ->
  (forall a b, cmp a b <= 0 -> R a b) ->
  (forall a b, ~ cmp a b <= 0 -> R b a) ->
  StronglySorted R l -> StronglySorted R (insertBy cmp x l).
Proof.
  intros Htr Hle Hgt. induction 1 as [|y l Hs IH Hall]; simpl.
  - repeat constructor.
  - destruct (cmp x y <=? 0) eqn:Hc.
    + apply Z.leb_le in Hc. constructor; [by constructor|].
      constructor; [by apply Hle|].
      eapply Forall_impl; [exact Hall|]. intros z Hz. eapply Htr; [|exact Hz].
      by apply Hle.
    + apply Z.leb_gt in Hc. constructor; [done|].
      rewrite (insertBy_Permutation cmp x l). constructor; [|done].
      apply Hgt. lia.
Qed.

Lemma sortBy_sorted {A} (R : A -> A -> Prop) cmp (l : list A) :
  (forall a b c, R a b -> R b c -> R a c) ->
  (forall a b, cmp a b <= 0 -> R a b) ->
  (forall a b, ~ cmp a b <= 0 -> R b a) ->
  StronglySorted R (sortBy cmp l).
Proof.
  intros Htr Hle Hgt. unfold sortBy. induction l as [|x l IH]; simpl; [constructor|].
  by apply insertBy_sorted.
Qed.

(** X8. The sections of a loaded catalog come in ascending order of their
    phase number, the sections without a phase number after all the numbered
    ones; the collation of the host only orders sections of equal phase
    number. *)
Theorem loadSections_phase_order (H : Host) (dflt : jsstring) (rows : list TareaCatalogo) :
  StronglySorted (fun a b => faseLe (faseNum (name a)) (faseNum (name b)))
    (loadSections dflt rows).
Proof.
  unfold loadSections, sortEntries.
  set (g := groupBySeccion dflt (List.filter row_activa rows)).
  pose proof (sortBy_sorted
                (fun a b : jsstring * list Task => faseLe (faseNum a.1) (faseNum b.1))
                (fun a b => compareSecciones a.1 b.1) g) as Hs.
  induction Hs as [|e l Hs IH Hall]; simpl.
  - constructor.
  - constructor; [exact IH|]. apply Forall_forall. intros sec Hin.
    apply list_elem_of_In, in_map_iff in Hin as (e' & <- & Hin). simpl.
    rewrite Forall_forall in Hall. by apply Hall, list_elem_of_In.
  - intros a b c. apply faseLe_trans.
  - intros a b. apply compareSecciones_le.
  - intros a b. apply compareSecciones_gt.
Qed.

(** ** Runs of Pintura *)

Lemma sameShape_refl a : sameShape a a.
Proof. by split. Qed.

Lemma sameShape_trans a b c : sameShape a b -> sameShape b c -> sameShape a c.
Proof. intros [? ?] [? ?]. split; congruence. Qed.

Lemma markSection_shape `{Host} ck secs : sameShape (List.map (markSection ck) secs) secs.
Proof.
  split; unfold labelsOf; induction secs as [|sec secs IH]; simpl; try done.
  - f_equal; [|done]. induction (tasks sec) as [|t ts IHt]; simpl; [done|]. by f_equal.
  - by f_equal.
Qed.

Lemma uncheckAll_shape secs : sameShape (uncheckAll secs) secs.
Proof.
  split; [apply uncheckAll_labels|].
  unfold uncheckAll. induction secs as [|sec secs IH]; simpl; [done|]. by f_equal.
Qed.

Lemma toggleAt_shape i j secs secs' :
  toggleAt i j secs = Some secs' -> sameShape secs' secs.
Proof.
  unfold toggleAt. destruct (secs !! i) as [sec|] eqn:Hi; [|done].
  destruct (tasks sec !! j) as [t|] eqn:Hj; [|done]. intros [= <-]. split.
  - unfold labelsOf. apply map_insert_same with sec; [done|]. simpl.
    by apply map_insert_same with t.
  - by apply map_insert_same with sec.
Qed.

Lemma clearSectionAt_shape i secs secs' :
  clearSectionAt i secs = Some secs' -> sameShape secs' secs.
Proof.
  unfold clearSectionAt. destruct (secs !! i) as [sec|] eqn:Hi; [|done].
  intros [= <-]. split.
  - unfold labelsOf. apply map_insert_same with sec; [done|]. simpl.
    apply map_uncheck_labels.
  - by apply map_insert_same with sec.
Qed.

Lemma pintura_applyPendingIfReady_shape `{Host} (s : Pintura.State) :
  sameShape (Pintura.sections (Pintura.applyPendingIfReady s)) (Pintura.sections s).
Proof.
  unfold Pintura.applyPendingIfReady.
  destruct (Pintura._pendingSnapshot s) as [snap|]; [|apply sameShape_refl].
  destruct (Pintura.sections s) as [|sec secs] eqn:Hs; [rewrite Hs; apply sameShape_refl|].
  simpl.
  destruct (truthyStr (trim (orEmpty (ps_color snap))));
    destruct (truthyStr (trim (orEmpty (ps_RAL snap)))); simpl; rewrite Hs;
    apply (markSection_shape _ (sec :: secs)).
Qed.

Lemma pintura_step_shape `{Host} (e : Pintura.Event) (s : Pintura.State) :
  isCatalogoNext e = false ->
  sameShape (Pintura.sections (Pintura.step e s).1) (Pintura.sections s).
Proof.
  intros He. destruct e; simpl; try done; try apply sameShape_refl.
  - unfold Pintura.snapshot_next. destruct snap as [snap|]; [|apply sameShape_refl].
    destruct (sr_exists snap); [|apply sameShape_refl].
    apply (pintura_applyPendingIfReady_shape (Pintura.set_pendingSnapshot _ s)).
  - unfold Pintura.toggleTask.
    destruct (toggleAt i j (Pintura.sections s)) as [secs'|] eqn:Ht; simpl;
      [by eapply toggleAt_shape|apply sameShape_refl].
  - unfold Pintura.onColorInputChange. destruct isDescripcion; apply sameShape_refl.
  - unfold Pintura.clearSection.
    destruct (clearSectionAt i (Pintura.sections s)) as [secs'|] eqn:Ht; simpl;
      [by eapply clearSectionAt_shape|apply sameShape_refl].
  - apply uncheckAll_shape.
  - unfold Pintura.finish. destruct (Pintura.allComplete s); apply sameShape_refl.
  - unfold Pintura.continueAndClear.
    destruct (negb (Pintura.allComplete s)); [apply sameShape_refl|].
    destruct (negb (truthyNum (Pintura.userId s))); [apply sameShape_refl|].
    destruct (Pintura._pendingId s) as [id|]; [|apply sameShape_refl].
    destruct (truthyNum id); apply sameShape_refl.
  - unfold Pintura.iniciar_next. destruct (truthyId (id_area_of resp)); apply sameShape_refl.
  - apply uncheckAll_shape.
Qed.

(** X9. In Pintura, as long as no catalog arrives, no user action and no
    response changes the names of the sections, their order, or the labels
    and the order of the tasks: only the flags can change. *)
Theorem pintura_shape_kept (H : Host) (es : list Pintura.Event) (s : Pintura.State) :
  forallb (fun e => negb (isCatalogoNext e)) es = true ->
  labelsOf (Pintura.sections (Pintura.run es s)) = labelsOf (Pintura.sections s)
  /\ List.map name (Pintura.sections (Pintura.run es s))
     = List.map name (Pintura.sections s).
Proof.
  unfold Pintura.run. revert s. induction es as [|e es IH]; intros s Hes; [done|].
  simpl in *. apply andb_true_iff in Hes as [He Hes]. apply negb_true_iff in He.
  apply (sameShape_trans _ (Pintura.sections (Pintura.step e s).1)).
  - by apply IH.
  - by apply pintura_step_shape.
Qed.

(** The theorem on a run of the resumed sample: a toggle, a cleared section,
    a finalization and a clean-up leave the labels as they were. *)
Lemma pintura_shape_kept_witness :
  labelsOf (Pintura.sections
              (@Pintura.run latinHost
                 [Pintura.ToggleTask 0 1; Pintura.ClearSection 0;
                  Pintura.FinalizarNext (js "ana@quazzar.es") (js "2025-06-02");
                  Pintura.ClearAll] pintura_ready))
  = [[js "Lijar"; js "Imprimar"]].
Proof.
  destruct (pintura_shape_kept latinHost
              [Pintura.ToggleTask 0 1; Pintura.ClearSection 0;
               Pintura.FinalizarNext (js "ana@quazzar.es") (js "2025-06-02");
               Pintura.ClearAll] pintura_ready eq_refl) as [Hl _].
  exact Hl.
Defined.

Lemma pintura_step_dailyCount `{Host} (e : Pintura.Event) (s : Pintura.State) :
  Pintura.dailyCount (Pintura.step e s).1
  = if isFinalizarNext e then jsAdd (Pintura.dailyCount s) (jsOfZ 1)
    else Pintura.dailyCount s.
Proof.
  destruct e; simpl; try done.
  - unfold Pintura.catalogo_next, Pintura.applyPendingIfReady. simpl.
    destruct (Pintura._pendingSnapshot s) as [snap|]; simpl; [|done].
    destruct (loadSections (js "Partes") rows); simpl; [done|].
    destruct (truthyStr _); destruct (truthyStr _); simpl; done.
  - unfold Pintura.snapshot_next. destruct snap as [snap|]; [|done].
    destruct (sr_exists snap); [|done].
    unfold Pintura.applyPendingIfReady. simpl.
    destruct (Pintura.sections s); simpl; [done|].
    destruct (truthyStr _); destruct (truthyStr _); simpl; done.
  - unfold Pintura.toggleTask. destruct (toggleAt i j (Pintura.sections s)); simpl; done.
  - unfold Pintura.onColorInputChange. destruct isDescripcion; simpl; done.
  - unfold Pintura.clearSection. destruct (clearSectionAt i (Pintura.sections s)); simpl; done.
  - unfold Pintura.finish. destruct (Pintura.allComplete s); simpl; done.
  - unfold Pintura.continueAndClear.
    destruct (negb (Pintura.allComplete s)); [simpl; done|].
    destruct (negb (truthyNum (Pintura.userId s))); [simpl; done|].
    destruct (Pintura._pendingId s) as [id|]; [|simpl; done].
    destruct (truthyNum id); simpl; done.
  - unfold Pintura.iniciar_next. destruct (truthyId (id_area_of resp)); simpl; done.
Qed.

Lemma pintura_step_setItemCount `{Host} (e : Pintura.Event) (s : Pintura.State) key v :
  In (SetItemCount key v) (Pintura.step e s).2 ->
  exists email date,
    e = Pintura.FinalizarNext email date
    /\ key = js "count_" ++ email ++ js "_" ++ date ++ js "_PINTURA"
    /\ v = jsAdd (Pintura.dailyCount s) (jsOfZ 1).
Proof.
  destruct e; simpl; try (intros []; fail); try (intros [?|[]]; done).
  - unfold Pintura.continueAndClear.
    destruct (negb (Pintura.allComplete s)); [intros []|].
    destruct (negb (truthyNum (Pintura.userId s))); [intros []|].
    destruct (Pintura._pendingId s) as [id|]; [|intros [?|[]]; done].
    destruct (truthyNum id); intros [?|[]]; done.
  - unfold Pintura.iniciar_next. destruct (truthyId (id_area_of resp));
      intros [?|[]]; done.
  - intros [[= <- <-]|[]]. by exists email, date.
Qed.

(** X10. In Pintura, for a daily counter that is an integer [n >= 0] and a
    run of user actions and responses with [k] successful finalize
    responses, [n + k] at most 2^53: the counter after the run is [n + k].
    A counter is written to the local storage by no other event than a
    successful finalize response, under the key of the e-mail and the day
    read at that response, with the counter plus one as JavaScript adds. *)
Theorem pintura_counter_counts_finalizations (H : Host) (es : list Pintura.Event)
    (s : Pintura.State) (n : Z) :
  0 <= n ->
  n + Z.of_nat (length (List.filter isFinalizarNext es)) <= 2 ^ 53 ->
  Pintura.dailyCount s = jsOfZ n ->
  Pintura.dailyCount (Pintura.run es s)
  = jsOfZ (n + Z.of_nat (length (List.filter isFinalizarNext es)))
  /\ jsToZ (Pintura.dailyCount (Pintura.run es s))
     = Some (n + Z.of_nat (length (List.filter isFinalizarNext es)))
  /\ (forall e s' key v, In (SetItemCount key v) (Pintura.step e s').2 ->
        exists email date,
          e = Pintura.FinalizarNext email date
          /\ key = js "count_" ++ email ++ js "_" ++ date ++ js "_PINTURA"
          /\ v = jsAdd (Pintura.dailyCount s') (jsOfZ 1)).
Proof.
  intros Hn Hk Hs.
  assert (Pintura.dailyCount (Pintura.run es s)
          = jsOfZ (n + Z.of_nat (length (List.filter isFinalizarNext es)))) as Hrun.
  { unfold Pintura.run. revert s n Hn Hk Hs.
    induction es as [|e es IH]; intros s n Hn Hk Hs; simpl in *.
    - by rewrite Z.add_0_r.
    - pose proof (pintura_step_dailyCount e s) as He.
      destruct (isFinalizarNext e) eqn:Hf; simpl in *.
      + rewrite (IH _ (n + 1)); [f_equal; lia|lia|lia|].
        rewrite He, Hs. apply jsAdd_one. lia.
      + apply IH; [done|done|]. by rewrite He. }
  split; [done|]. split.
  - rewrite Hrun. apply jsToZ_jsOfZ. lia.
  - intros e s' key v. apply pintura_step_setItemCount.
Qed.

(** The theorem on the resumed sample: with the counter at 0, two successful
    finalizations among other events leave it at 2. *)
Lemma pintura_counter_counts_finalizations_witness :
  jsToZ (Pintura.dailyCount
           (@Pintura.run latinHost
              [Pintura.FinalizarNext (js "ana@quazzar.es") (js "2025-06-02");
               Pintura.ToggleTask 0 1;
               Pintura.FinalizarNext (js "ana@quazzar.es") (js "2025-06-03")]
              pintura_ready))
  = Some 2.
Proof.
  destruct (pintura_counter_counts_finalizations latinHost
              [Pintura.FinalizarNext (js "ana@quazzar.es") (js "2025-06-02");
               Pintura.ToggleTask 0 1;
               Pintura.FinalizarNext (js "ana@quazzar.es") (js "2025-06-03")]
              pintura_ready 0 ltac:(lia) ltac:(vm_compute; discriminate) eq_refl)
    as (_ & Hz & _).
  exact Hz.
Defined.

(** ** Typing an identifier *)

(** X11. In Chasis, after any input in the VIN field the normalised text is
    stored, the pending id is forgotten, the tasks are untouched and
    [canFinish] is false; the state is [idle] for an empty normalised text,
    [invalid] for 1 to 16 code units and [checking], with one status query,
    for 17. *)
Theorem onBastidorInput_outcome (H : Host) (HL : HostLaws H) (value : jsstring)
    (s : Chasis.State) :
  let r := Chasis.onBastidorInput value s in
  let c := Chasis.clean value in
  Chasis._bastidor r.1 = c /\ Chasis._pendingId r.1 = None
  /\ Chasis.tasks r.1 = Chasis.tasks s /\ Chasis.canFinish r.1 = false
  /\ (length c = 0%nat ->
      Chasis.vinState r.1 = Chasis.idle /\ r.2 = [Chasis.SetItemVin []])
  /\ ((0 < length c < 17)%nat ->
      Chasis.vinState r.1 = Chasis.invalid /\ r.2 = [Chasis.SetItemVin c])
  /\ (length c = 17%nat ->
      Chasis.vinState r.1 = Chasis.checking
      /\ r.2 = [Chasis.SetItemVin c; Chasis.GetVinEstadoChasis c]).
Proof.
  simpl. unfold Chasis.onBastidorInput. rewrite chasis_isValidVin_clean.
  unfold Chasis.test17. rewrite (chasis_clean_AZ09 value), andb_true_r.
  destruct (Chasis.clean value) as [|x l] eqn:Hc; simpl.
  - repeat split; try done; try (by apply chasis_canFinish_needs_ok);
      intros; simpl in *; lia.
  - destruct (length l =? 16)%nat eqn:Hl; simpl.
    + apply Nat.eqb_eq in Hl.
      repeat split; try done; try (by apply chasis_canFinish_needs_ok);
        intros; simpl in *; lia.
    + apply Nat.eqb_neq in Hl.
      repeat split; try done; try (by apply chasis_canFinish_needs_ok);
        intros; simpl in *; lia.
Qed.

(** The theorem on the Basic Latin host: a VIN typed up to its 16th
    character is [invalid] and sends nothing. *)
Lemma onBastidorInput_outcome_witness :
  Chasis.vinState (@Chasis.onBastidorInput latinHost (js "wba3a5c50df12345") (Chasis.init 1 0)).1
  = Chasis.invalid
  /\ (@Chasis.onBastidorInput latinHost (js "wba3a5c50df12345") (Chasis.init 1 0)).2
     = [Chasis.SetItemVin (js "WBA3A5C50DF12345")].
Proof.
  pose proof (onBastidorInput_outcome latinHost latinHost_laws (js "wba3a5c50df12345")
                (Chasis.init 1 0)) as (_ & _ & _ & _ & _ & Hinv & _).
  apply Hinv. vm_compute. lia.
Defined.

(** X12. In Montaje, after any input in the VIN field the normalised text is
    the selected VIN and the query text, [vinEnUso] is false and [canFinish]
    is false; the status is [idle] for an empty normalised text, [notfound]
    when the text is not in the known list and [checking] otherwise. An
    answer "not available" gives [dup], sets [vinEnUso], keeps [canFinish]
    false and sends nothing; an answer "available" gives [ok] and asks for
    the colour and the pending record of that VIN. *)
Theorem onVinInput_outcome (H : Host) (HL : HostLaws H) (value : jsstring)
    (s : Montaje.State) :
  let r := Montaje.onVinInput value s in
  let c := Montaje.clean value in
  Montaje.selectedBastidor r.1 = c /\ Montaje.vinQuery r.1 = c
  /\ Montaje.vinEnUso r.1 = false /\ Montaje.sections r.1 = Montaje.sections s
  /\ Montaje.canFinish r.1 = false
  /\ Montaje.vinStatus r.1
     = (if bool_decide (c = []) then Montaje.idle
        else if bool_decide (c ∈ Montaje.bastidorOptions s) then Montaje.checking
        else Montaje.notfound)
  /\ (forall v s',
        Montaje.vinStatus (Montaje.disponible_next v false s').1 = Montaje.dup
        /\ Montaje.vinEnUso (Montaje.disponible_next v false s').1 = true
        /\ Montaje.canFinish (Montaje.disponible_next v false s').1 = false
        /\ (Montaje.disponible_next v false s').2 = [])
  /\ (forall v s',
        Montaje.vinStatus (Montaje.disponible_next v true s').1 = Montaje.ok
        /\ Montaje.vinEnUso (Montaje.disponible_next v true s').1 = false
        /\ (Montaje.disponible_next v true s').2
           = [GetColorPinturaPorVin v; GetPendiente montaje v (Montaje.userId s')]).
Proof.
  simpl. unfold Montaje.onVinInput, Montaje.inDbList.
  rewrite (toUpperCase_AZ09 _ (montaje_clean_AZ09 value)).
  split; [|split; [|split; [|split; [|split; [|split; [|split]]]]]].
  - by destruct (Montaje.clean value); [|case_bool_decide].
  - by destruct (Montaje.clean value); [|case_bool_decide].
  - by destruct (Montaje.clean value); [|case_bool_decide].
  - by destruct (Montaje.clean value); [|case_bool_decide].
  - unfold Montaje.canFinish.
    destruct (Montaje.clean value); simpl; [apply andb_false_r|].
    case_bool_decide; simpl; apply andb_false_r.
  - destruct (Montaje.clean value) as [|x l]; simpl; [done|].
    by case_bool_decide.
  - intros v s'. repeat split. unfold Montaje.canFinish. simpl. apply andb_false_r.
  - intros v s'. by repeat split.
Qed.

(** The theorem on the Basic Latin host: a VIN that is not in the (empty)
    known list is [notfound]. *)
Lemma onVinInput_outcome_witness :
  Montaje.vinStatus
    (@Montaje.onVinInput latinHost (js "wba3a5c50df12345x")
       (Montaje.mkState 1 0 false None [] [] [] [] [] [] false Montaje.idle [] false None)).1
  = Montaje.notfound.
Proof.
  pose proof (onVinInput_outcome latinHost latinHost_laws (js "wba3a5c50df12345x")
     (Montaje.mkState 1 0 false None [] [] [] [] [] [] false Montaje.idle [] false None))
    as (_ & _ & _ & _ & _ & Hst & _).
  rewrite Hst. reflexivity.
Defined.

(** ** After a finalization, blank colours, clearing a section *)

(** X13. Right after a successful finalization nothing more can be sent: in
    Pintura and in Chasis readiness is false, [finish] does not open the
    dialog and a further confirmation sends no request and changes nothing. *)
Theorem after_finish_nothing_to_confirm (H : Host) :
  (forall (s : Pintura.State) (email date : jsstring),
     Pintura.allComplete (Pintura.afterFinish email date s).1 = false
     /\ Pintura.finish (Pintura.afterFinish email date s).1 = (Pintura.afterFinish email date s).1
     /\ Pintura.continueAndClear (Pintura.afterFinish email date s).1
        = ((Pintura.afterFinish email date s).1, []))
  /\ (forall (s : Chasis.State) (email date : jsstring),
        Chasis.canFinish (Chasis.afterFinish email date s).1 = false
        /\ Chasis.finish (Chasis.afterFinish email date s).1 = (Chasis.afterFinish email date s).1
        /\ Chasis.continueAndClear (Chasis.afterFinish email date s).1
           = ((Chasis.afterFinish email date s).1, [])).
Proof.
  split; intros s email date.
  - assert (Pintura.allComplete (Pintura.afterFinish email date s).1 = false) as Hr.
    { unfold Pintura.allComplete, Pintura.colorInputsComplete. simpl.
      apply andb_false_r. }
    split; [done|]. unfold Pintura.finish, Pintura.continueAndClear. by rewrite Hr.
  - assert (Chasis.canFinish (Chasis.afterFinish email date s).1 = false) as Hr.
    { by apply chasis_canFinish_needs_ok. }
    split; [done|]. unfold Chasis.finish, Chasis.continueAndClear. by rewrite Hr.
Qed.

Lemma dropWhile_all {A} (p : A -> bool) (l : list A) :
  forallb p l = true -> dropWhile p l = [].
Proof.
  induction l as [|x l IH]; simpl; [done|]. intros Hl.
  apply andb_true_iff in Hl as [Hx Hl]. rewrite Hx. by apply IH.
Qed.

Lemma trim_blank (s : jsstring) : forallb isWhiteSpace s = true -> trim s = [].
Proof. intros Hs. unfold trim. by rewrite (dropWhile_all _ _ Hs). Qed.

(** X14. In Pintura a colour description or a RAL code made of white space
    only counts as missing: the screen is not ready, a confirmation sends
    nothing, and leaving navigates at once without the save dialog, whatever
    tasks are checked. *)
Theorem blank_colour_is_missing (H : Host) (s : PinturaLeave.State) (target : LeaveTarget) :
  forallb isWhiteSpace (Pintura.colorDescripcion (PinturaLeave.screen s)) = true
  \/ forallb isWhiteSpace (Pintura.colorRAL (PinturaLeave.screen s)) = true ->
  Pintura.allComplete (PinturaLeave.screen s) = false
  /\ Pintura.continueAndClear (PinturaLeave.screen s) = (PinturaLeave.screen s, [])
  /\ PinturaLeave.tryLeave target s = (s, List.map PinturaLeave.Nav (leaveNow target)).
Proof.
  intros Hb.
  assert (Pintura.colorInputsComplete (PinturaLeave.screen s) = false) as Hc.
  { unfold Pintura.colorInputsComplete. destruct Hb as [Hb|Hb]; rewrite (trim_blank _ Hb).
    - done.
    - apply andb_false_r. }
  assert (Pintura.allComplete (PinturaLeave.screen s) = false) as Hr.
  { unfold Pintura.allComplete. rewrite Hc. apply andb_false_r. }
  repeat split; [done| |].
  - unfold Pintura.continueAndClear. by rewrite Hr.
  - unfold PinturaLeave.tryLeave, PinturaLeave.shouldPromptOnLeave. by rewrite Hc.
Qed.

(** The theorem on a screen with both tasks checked, a RAL code and three
    blanks as colour: leaving for the start page navigates at once. *)
Lemma blank_colour_is_missing_witness :
  PinturaLeave.tryLeave toHome
    (PinturaLeave.mkState
       (Pintura.set_colorDescripcion (js "   ") pintura_ready) false None)
  = (PinturaLeave.mkState
       (Pintura.set_colorDescripcion (js "   ") pintura_ready) false None,
     [PinturaLeave.Nav NavigateHome]).
Proof.
  destruct (blank_colour_is_missing latinHost
              (PinturaLeave.mkState
                 (Pintura.set_colorDescripcion (js "   ") pintura_ready) false None)
              toHome (or_introl eq_refl)) as (_ & _ & Hl).
  exact Hl.
Defined.

(** X15. For a section [i] that exists, [clearSection] of Pintura succeeds,
    unchecks every task of that section and keeps its name and labels;
    every other section and every other field stay as they were, and
    clearing the same section again changes nothing. *)
Theorem clearSection_frame (i : nat) (s : Pintura.State) (sec : Section) :
  Pintura.sections s !! i = Some sec ->
  exists s',
    Pintura.clearSection i s = Some s'
    /\ Pintura.sections s' !! i
       = Some (mkSection (name sec) (List.map uncheck (tasks sec)))
    /\ (forall i', i' <> i -> Pintura.sections s' !! i' = Pintura.sections s !! i')
    /\ labelsOf (Pintura.sections s') = labelsOf (Pintura.sections s)
    /\ s' = Pintura.set_sections (Pintura.sections s') s
    /\ Pintura.clearSection i s' = Some s'.
Proof.
  intros Hi. unfold Pintura.clearSection, clearSectionAt. rewrite Hi. simpl.
  pose proof (lookup_lt_Some _ _ _ Hi) as Hlt.
  eexists; split; [reflexivity|]. simpl. repeat split.
  - by rewrite list_lookup_insert_eq.
  - intros i' Hne. by rewrite list_lookup_insert_ne.
  - unfold labelsOf. apply map_insert_same with sec; [done|]. simpl.
    apply map_uncheck_labels.
  - rewrite list_lookup_insert_eq by done. simpl. f_equal.
    unfold Pintura.set_sections. simpl. f_equal.
    rewrite list_insert_insert_eq. f_equal. f_equal.
    induction (tasks sec) as [|t ts IH]; simpl; [done|]. by f_equal.
Qed.

(** The theorem on the resumed sample: its section is cleared. *)
Lemma clearSection_frame_witness :
  exists s', Pintura.clearSection 0 pintura_ready = Some s'
             /\ Pintura.sections s' !! 0%nat
                = Some (mkSection (js "Partes")
                          [mkTask (js "Lijar") false; mkTask (js "Imprimar") false]).
Proof.
  destruct (clearSection_frame 0 pintura_ready _ eq_refl) as (s' & Hc & Hs & _).
  exists s'. split; [exact Hc|exact Hs].
Defined.

(** ** Resuming in Chasis from the list of pending records *)

(** X16. Chasis opened from "Pendientes" with a stored snapshot whose VIN is
    not blank, the catalog still in flight: the stored item is removed, the
    VIN (upper case, trimmed) is shown and stored, the state is [ok], the id
    of the snapshot is the pending id and a revalidation is scheduled. When
    the catalog then arrives, its active rows are the tasks, checked as the
    snapshot says, the pending id is still the id of the snapshot, the
    buffer is empty and a second revalidation is scheduled. *)
Theorem chasis_resume_from_pendientes (H : Host) (snap : Chasis.StoredSnapshot)
    (rows : list TareaCatalogo) (s0 : Chasis.State) :
  Chasis.tasks s0 = [] ->
  trim (toUpperCase (orEmpty (Chasis.snap_bastidor snap))) <> [] ->
  let vin := trim (toUpperCase (orEmpty (Chasis.snap_bastidor snap))) in
  let r1 := Chasis.consumeSnapshotIfAny (Some (Some snap)) s0 in
  let r2 := Chasis.catalogo_next rows r1.1 in
  r1.2 = [Chasis.RemoveItemSnapshot; Chasis.SetItemVin vin; Chasis.Revalidate vin]
  /\ Chasis._bastidor r1.1 = vin /\ Chasis.vinState r1.1 = Chasis.ok
  /\ Chasis._pendingId r1.1 = Chasis.snap_id snap
  /\ Chasis.tasks r2.1
     = List.map (markTask (default ∅ (Chasis.snap_checks snap)))
         (List.map (fun r => mkTask (row_label r) false) (List.filter row_activa rows))
  /\ Chasis._pendingId r2.1 = Chasis.snap_id snap
  /\ Chasis.vinState r2.1 = Chasis.ok /\ Chasis._buffered r2.1 = None
  /\ r2.2 = [Chasis.Revalidate vin].
Proof.
  intros Ht Hv. simpl. unfold Chasis.consumeSnapshotIfAny.
  destruct (trim (toUpperCase (orEmpty (Chasis.snap_bastidor snap)))) as [|x v] eqn:Hvin;
    [done|].
  simpl. unfold Chasis.queueOrApplyChecks. simpl. rewrite Ht. simpl.
  by repeat split.
Qed.

(** The theorem on the Basic Latin host: record 7 of the VIN typed in lower
    case is resumed and its task comes out checked. *)
Lemma chasis_resume_from_pendientes_witness :
  Chasis.tasks
    (@Chasis.catalogo_next latinHost one_row
       (@Chasis.consumeSnapshotIfAny latinHost (Some (Some stored_seven))
          (Chasis.init 1 0)).1).1
  = [mkTask (js "Soldar soporte") true]
  /\ Chasis._pendingId
       (@Chasis.catalogo_next latinHost one_row
          (@Chasis.consumeSnapshotIfAny latinHost (Some (Some stored_seven))
             (Chasis.init 1 0)).1).1
     = Some 7.
Proof.
  destruct (chasis_resume_from_pendientes latinHost stored_seven one_row (Chasis.init 1 0)
              eq_refl ltac:(vm_compute; discriminate))
    as (_ & _ & _ & _ & Ht & Hp & _).
  split; [|exact Hp]. rewrite Ht. vm_compute. reflexivity.
Defined.

(** ** Leaving a screen through the dialog *)

(** X17. Pintura, leaving while a colour and a RAL code are filled in: the
    dialog opens and nothing is navigated or sent. From the dialog, "save and
    leave" sends exactly one request that stores the progress (an update of
    the pending record when there is one, else a start; with no user it
    navigates at once); when that request ends, in success or in failure,
    the screen is cleared and the navigation is the one asked for, as it is
    for "leave without saving"; "cancel" closes the dialog with the screen
    untouched. *)
Theorem pintura_leave_dialog (H : Host) (s : PinturaLeave.State) (target : LeaveTarget) :
  PinturaLeave.shouldPromptOnLeave s = true ->
  let s1 := (PinturaLeave.tryLeave target s).1 in
  let go := List.map PinturaLeave.Nav (leaveNow target) in
  (PinturaLeave.tryLeave target s).2 = []
  /\ PinturaLeave._showLeaveModal s1 = true
  /\ PinturaLeave.screen s1 = PinturaLeave.screen s
  /\ ((PinturaLeave.confirmSaveAndLeave s1).2 = go
      /\ truthyNum (Pintura.userId (PinturaLeave.screen s)) = false
      \/ (exists id,
            Pintura._pendingId (PinturaLeave.screen s) = Some id /\ id <> 0
            /\ PinturaLeave.confirmSaveAndLeave s1
               = (s1, [PinturaLeave.Save
                         (ActualizarTarea pintura id
                            (PinturaLeave.savePatch (PinturaLeave.screen s)))]))
      \/ (truthyId (Pintura._pendingId (PinturaLeave.screen s)) = false
          /\ PinturaLeave.confirmSaveAndLeave s1
             = (s1, [PinturaLeave.Save
                       (IniciarTarea (PinturaLeave.saveDto (PinturaLeave.screen s)))])))
  /\ PinturaLeave.save_done s1
     = (PinturaLeave.mkState (Pintura.clearAll (PinturaLeave.screen s)) false (Some target),
        go)
  /\ PinturaLeave.confirmLeaveWithoutSaving s1
     = (PinturaLeave.mkState (Pintura.clearAll (PinturaLeave.screen s)) false (Some target),
        go)
  /\ PinturaLeave.cancelLeave s1 = PinturaLeave.mkState (PinturaLeave.screen s) false None.
Proof.
  intros Hp. unfold PinturaLeave.tryLeave. rewrite Hp. simpl.
  unfold PinturaLeave.shouldPromptOnLeave in Hp.
  repeat split.
  unfold PinturaLeave.confirmSaveAndLeave. simpl. rewrite Hp. simpl.
  destruct (truthyNum (Pintura.userId (PinturaLeave.screen s))) eqn:Hu; simpl;
    [|by left].
  right. destruct (Pintura._pendingId (PinturaLeave.screen s)) as [id|] eqn:Hid.
  - destruct (truthyId (Some id)) eqn:Ht.
    + left. exists id. repeat split.
      intros ->. by vm_compute in Ht.
    + right. done.
  - right. done.
Qed.

(** The theorem on the resumed sample (record 7, user 1) leaving for the
    log-out: one update of record 7 is sent and, when it ends, the session is
    removed and the log-in page opened. *)
Lemma pintura_leave_dialog_witness :
  (exists patch,
     (@PinturaLeave.confirmSaveAndLeave latinHost
        (PinturaLeave.tryLeave toLogout
           (PinturaLeave.mkState pintura_ready false None)).1).2
     = [PinturaLeave.Save (ActualizarTarea pintura 7 patch)])
  /\ (PinturaLeave.save_done
        (PinturaLeave.tryLeave toLogout
           (PinturaLeave.mkState pintura_ready false None)).1).2
     = [PinturaLeave.Nav RemoveSession; PinturaLeave.Nav NavigateLogin].
Proof.
  destruct (pintura_leave_dialog latinHost
              (PinturaLeave.mkState pintura_ready false None) toLogout eq_refl)
    as (_ & _ & _ & Hs & Hd & _).
  split.
  - destruct Hs as [[_ Hu]|[(id & Hid & _ & Hs)|[Ht _]]].
    + vm_compute in Hu. discriminate.
    + eexists. rewrite Hs. simpl. vm_compute in Hid.
      injection Hid as <-. reflexivity.
    + vm_compute in Ht. discriminate.
  - rewrite Hd. reflexivity.
Defined.

(** X18. Chasis, leaving while a task is checked on an accepted VIN: the
    dialog opens and nothing is navigated or sent. Every way out of the
    dialog then opens the start page, also when the log-out was asked for:
    the session is never removed and the log-in page never opened, because
    the dialog forgets the target before it navigates. A failed save keeps
    the screen as it was; a successful one and "leave without saving" clear
    it. *)
Theorem chasis_leave_dialog_goes_home (s : ChasisLeave.State) (target : LeaveTarget) :
  ChasisLeave.shouldPromptOnLeave s = true ->
  let s1 := (ChasisLeave.tryLeave target s).1 in
  let cleared := Chasis.clearAll (ChasisLeave.screen s) in
  (ChasisLeave.tryLeave target s).2 = []
  /\ ChasisLeave._showLeaveModal s1 = true
  /\ ChasisLeave._leaveTarget s1 = Some target
  /\ (ChasisLeave.confirmSaveAndLeave s1
      = (s1, [ChasisLeave.SaveIniciar (ChasisLeave.saveDto (ChasisLeave.screen s))])
      \/ truthyNum (Chasis.userId (ChasisLeave.screen s)) = false
         /\ ChasisLeave.confirmSaveAndLeave s1
            = (ChasisLeave.mkState (ChasisLeave.screen s) false None,
               [ChasisLeave.Nav NavigateHome]))
  /\ ChasisLeave.save_next s1
     = (ChasisLeave.mkState cleared.1 false None,
        List.map ChasisLeave.Screen cleared.2 ++ [ChasisLeave.Nav NavigateHome])
  /\ ChasisLeave.save_error s1
     = (ChasisLeave.mkState (ChasisLeave.screen s) false None,
        [ChasisLeave.Nav NavigateHome])
  /\ ChasisLeave.confirmLeaveWithoutSaving s1
     = (ChasisLeave.mkState cleared.1 false None,
        List.map ChasisLeave.Screen cleared.2 ++ [ChasisLeave.Nav NavigateHome]).
Proof.
  intros Hp. unfold ChasisLeave.tryLeave. rewrite Hp. simpl.
  unfold ChasisLeave.shouldPromptOnLeave in Hp.
  apply andb_true_iff in Hp as [_ Hok].
  repeat split.
  unfold ChasisLeave.confirmSaveAndLeave. simpl. rewrite Hok. simpl.
  destruct (truthyNum (Chasis.userId (ChasisLeave.screen s))) eqn:Hu; simpl.
  - by left.
  - right. done.
Qed.

(** The theorem on the sample resumed from record 7, leaving for the
    log-out: after the failed save the start page is opened. *)
Lemma chasis_leave_dialog_goes_home_witness :
  (ChasisLeave.save_error
     (ChasisLeave.tryLeave toLogout
        (ChasisLeave.mkState chasis_ready false None)).1).2
  = [ChasisLeave.Nav NavigateHome].
Proof.
  destruct (chasis_leave_dialog_goes_home
              (ChasisLeave.mkState chasis_ready false None) toLogout
              ltac:(vm_compute; reflexivity))
    as (_ & _ & _ & _ & _ & He & _).
  rewrite He. reflexivity.
Defined.

(** ** The lists of the service *)

Lemma keepFirstFrom_elem (b r : list jsstring) (v : jsstring) :
  v ∈ keepFirstFrom b r <-> v ∈ r /\ v ∉ b.
Proof.
  revert b. induction r as [|x r IH]; intros b; simpl.
  - split; [by intros ?%elem_of_nil|by intros [?%elem_of_nil _]].
  - destruct (decide (x ∈ b)) as [Hx|Hx].
    + rewrite (bool_decide_eq_true_2 _ Hx), IH, elem_of_cons, elem_of_app,
        list_elem_of_singleton.
      split.
      * intros [Hv Hn]. split; [by right|]. intros Hb. apply Hn. by left.
      * intros [[->|Hv] Hn]; [done|]. split; [done|].
        intros [Hb| ->]; done.
    + rewrite (bool_decide_eq_false_2 _ Hx), elem_of_cons, IH, elem_of_cons,
        elem_of_app, list_elem_of_singleton.
      split.
      * intros [->|[Hv Hn]]; [by split; [left|]|].
        split; [by right|]. intros Hb. apply Hn. by left.
      * intros [[->|Hv] Hn]; [by left|].
        destruct (decide (v = x)) as [->|Hne]; [by left|].
        right. split; [done|]. by intros [Hb|Hb].
Qed.

Lemma keepFirstFrom_NoDup (b r : list jsstring) : NoDup (keepFirstFrom b r).
Proof.
  revert b. induction r as [|x r IH]; intros b; simpl; [constructor|].
  case_bool_decide; [apply IH|].
  apply NoDup_cons. split; [|apply IH].
  rewrite keepFirstFrom_elem, elem_of_app, list_elem_of_singleton.
  intros [_ Hn]. apply Hn. by right.
Qed.

Lemma keepFirstFrom_fixed (b r : list jsstring) :
  NoDup r -> (forall x, x ∈ r -> x ∉ b) -> keepFirstFrom b r = r.
Proof.
  revert b. induction r as [|x r IH]; intros b Hnd Hb; simpl; [done|].
  apply NoDup_cons in Hnd as [Hx Hnd].
  rewrite bool_decide_eq_false_2 by (apply Hb; by left).
  f_equal. apply IH; [done|].
  intros y Hy. rewrite elem_of_app, list_elem_of_singleton.
  intros [Hyb| ->]; [|done]. apply (Hb y); [by right|done].
Qed.

Lemma keepFirst_elem (l : list jsstring) (v : jsstring) : v ∈ keepFirst l <-> v ∈ l.
Proof.
  unfold keepFirst. rewrite keepFirstFrom_elem. split; [by intros [? _]|].
  intros Hv. split; [done|]. by intros ?%elem_of_nil.
Qed.

Lemma keepFirst_NoDup (l : list jsstring) : NoDup (keepFirst l).
Proof. apply keepFirstFrom_NoDup. Qed.

Lemma keepFirst_fixed (l : list jsstring) : NoDup l -> keepFirst l = l.
Proof.
  intros Hl. apply keepFirstFrom_fixed; [done|]. by intros x _ ?%elem_of_nil.
Qed.

Lemma N_compare_eq (x y : N) : (x ?= y)%N = Eq <-> x = y.
Proof. apply N.compare_eq_iff. Qed.

Lemma N_compare_opp (x y : N) : (y ?= x)%N = CompOpp (x ?= y)%N.
Proof. apply N.compare_antisym. Qed.

Lemma N_compare_trans (x y z : N) (c : comparison) :
  (x ?= y)%N = c -> (y ?= z)%N = c -> (x ?= z)%N = c.
Proof.
  destruct c; intros H1 H2.
  - apply N.compare_eq_iff in H1, H2. subst. apply N.compare_refl.
  - rewrite N.compare_lt_iff in *. lia.
  - rewrite N.compare_gt_iff in *. lia.
Qed.

Lemma codeUnits_lt_trans (a b c : jsstring) :
  list_compare N.compare a b = Lt -> list_compare N.compare b c = Lt ->
  list_compare N.compare a c = Lt.
Proof.
  apply (list_compare_trans N.compare N_compare_eq a b c N_compare_trans N_compare_opp).
Qed.

Lemma codeUnits_le_trans (a b c : jsstring) :
  list_compare N.compare a b <> Gt -> list_compare N.compare b c <> Gt ->
  list_compare N.compare a c <> Gt.
Proof.
  intros Hab Hbc.
  destruct (list_compare N.compare a b) eqn:H1; [| |done].
  - apply (list_compare_refl N.compare N_compare_eq) in H1. by subst.
  - destruct (list_compare N.compare b c) eqn:H2; [| |done].
    + apply (list_compare_refl N.compare N_compare_eq) in H2. subst. by rewrite H1.
    + by rewrite (codeUnits_lt_trans a b c H1 H2).
Qed.

Lemma compareCodeUnits_le (a b : jsstring) :
  compareCodeUnits a b <= 0 -> list_compare N.compare a b <> Gt.
Proof. unfold compareCodeUnits. destruct (list_compare N.compare a b); [done|done|lia]. Qed.

Lemma compareCodeUnits_gt (a b : jsstring) :
  ~ compareCodeUnits a b <= 0 -> list_compare N.compare b a <> Gt.
Proof.
  unfold compareCodeUnits.
  rewrite (list_compare_antisym N.compare N_compare_eq a b N_compare_opp).
  destruct (list_compare N.compare a b); simpl; [lia|lia|done].
Qed.

Lemma sorted_NoDup_strict (l : list jsstring) :
  StronglySorted (fun a b => list_compare N.compare a b <> Gt) l -> NoDup l ->
  StronglySorted (fun a b => list_compare N.compare a b = Lt) l.
Proof.
  induction 1 as [|x l Hs IH Hall]; intros Hnd; [constructor|].
  apply NoDup_cons in Hnd as [Hx Hnd]. constructor; [by apply IH|].
  rewrite Forall_forall in *. intros y Hy.
  specialize (Hall y Hy).
  destruct (list_compare N.compare x y) eqn:Hc; [|done|done].
  apply (list_compare_refl N.compare N_compare_eq) in Hc. by subst.
Qed.

Lemma elem_of_filter_bool {A} (p : A -> bool) (l : list A) (x : A) :
  x ∈ List.filter p l <-> x ∈ l /\ p x = true.
Proof. rewrite !list_elem_of_In. apply filter_In. Qed.

Lemma getBastidoresChasis_elem `{Host} (resp : list (option jsstring)) (v : jsstring) :
  v ∈ getBastidoresChasis resp
  <-> testVin17 v = true
      /\ exists r, r ∈ resp /\ v = trim (toUpperCase (orEmpty r)).
Proof.
  unfold getBastidoresChasis.
  rewrite sortBy_Permutation, keepFirst_elem, elem_of_filter_bool, !list_elem_of_In,
    in_map_iff.
  split.
  - intros [(r & <- & Hr) Ht]. split; [done|]. exists r. by rewrite list_elem_of_In.
  - intros [Ht (r & Hr & ->)]. split; [|done]. exists r. by rewrite <- list_elem_of_In.
Qed.

Lemma getBastidoresChasis_NoDup `{Host} (resp : list (option jsstring)) :
  NoDup (getBastidoresChasis resp).
Proof. unfold getBastidoresChasis. rewrite sortBy_Permutation. apply keepFirst_NoDup. Qed.

(** X19. The VIN list that [getBastidoresChasis] hands to the screens: a VIN
    is in it exactly when it is 17 code units of [A-Z0-9] and is the
    upper-cased, trimmed form of an entry of the response (a missing entry
    counts as empty); no VIN occurs twice; and the list is strictly
    increasing in the order of the code units. *)
Theorem getBastidoresChasis_clean_sorted (H : Host) (resp : list (option jsstring)) :
  (forall v, v ∈ getBastidoresChasis resp
             <-> testVin17 v = true
                 /\ exists r, r ∈ resp /\ v = trim (toUpperCase (orEmpty r)))
  /\ NoDup (getBastidoresChasis resp)
  /\ StronglySorted (fun a b => list_compare N.compare a b = Lt)
       (getBastidoresChasis resp).
Proof.
  split; [apply getBastidoresChasis_elem|].
  pose proof (getBastidoresChasis_NoDup resp) as Hnd.
  split; [done|]. apply sorted_NoDup_strict; [|done].
  unfold getBastidoresChasis. apply sortBy_sorted.
  - apply codeUnits_le_trans.
  - apply compareCodeUnits_le.
  - apply compareCodeUnits_gt.
Qed.

(** X20. The colour list that [getColoresPintura] hands to the screens: a
    colour is in it exactly when it is not empty and is the trimmed form of
    an entry of the response; no colour occurs twice (two colours that
    differ in case only are both kept); and a response without blanks and
    without repetitions comes back as it is. *)
Theorem getColoresPintura_unique (resp : list (option jsstring)) :
  (forall v, v ∈ getColoresPintura resp
             <-> v <> [] /\ exists r, r ∈ resp /\ v = trim (orEmpty r))
  /\ NoDup (getColoresPintura resp)
  /\ (NoDup resp -> Forall (fun r => exists v, r = Some v /\ v <> [] /\ trim v = v) resp ->
      List.map Some (getColoresPintura resp) = resp).
Proof.
  unfold getColoresPintura. split; [|split].
  - intros v.
    rewrite keepFirst_elem, elem_of_filter_bool, list_elem_of_In, in_map_iff.
    split.
    + intros [(r & <- & Hr) Ht]. split; [by destruct (trim (orEmpty r))|].
      exists r. by rewrite list_elem_of_In.
    + intros [Hv (r & Hr & ->)].
      split; [exists r; by rewrite <- list_elem_of_In|].
      by destruct (trim (orEmpty r)).
  - apply keepFirst_NoDup.
  - intros Hnd Hall.
    assert (List.map (fun v => trim (orEmpty v)) resp = List.map orEmpty resp) as Hm.
    { apply map_ext_in. intros r Hr%list_elem_of_In.
      rewrite Forall_forall in Hall. destruct (Hall r Hr) as (v & -> & _ & Hv). done. }
    rewrite Hm, filter_all.
    + rewrite keepFirst_fixed.
      * rewrite map_map. rewrite <- (map_id resp) at 2. apply map_ext_in.
        intros r Hr%list_elem_of_In. rewrite Forall_forall in Hall.
        by destruct (Hall r Hr) as (v & -> & _).
      * apply NoDup_fmap_2_strong; [|done].
        intros x y Hx Hy Hxy. rewrite Forall_forall in Hall.
        destruct (Hall x Hx) as (v & -> & _), (Hall y Hy) as (w & -> & _).
        simpl in Hxy. by subst.
    + apply forallb_forall. intros v (r & <- & Hr%list_elem_of_In)%in_map_iff.
      rewrite Forall_forall in Hall. destruct (Hall r Hr) as (w & -> & Hw & _).
      simpl. by destruct w.
Qed.

(** The theorem on two colours that differ in case only: both come back. *)
Lemma getColoresPintura_unique_witness :
  List.map Some (getColoresPintura [Some (js "Rojo"); Some (js "rojo")])
  = [Some (js "Rojo"); Some (js "rojo")].
Proof.
  destruct (getColoresPintura_unique [Some (js "Rojo"); Some (js "rojo")])
    as (_ & _ & Hr).
  apply Hr.
  - apply (bool_decide_unpack _). by vm_compute.
  - apply List.Forall_cons; [by eexists|].
    apply List.Forall_cons; [by eexists|]. apply List.Forall_nil.
Defined.

(** ** The VIN options of Montaje *)

Lemma kept_sublist {A} (l : list A) (k : list bool) :
  List.map fst (List.filter snd (zip l k)) `sublist_of` l.
Proof.
  revert k. induction l as [|x l IH]; intros k; simpl; [constructor|].
  destruct k as [|b k]; simpl; [apply sublist_nil_l|].
  destruct b; simpl; [by apply sublist_skip|by apply sublist_cons].
Qed.

Lemma kept_elem {A} (l : list A) (k : list bool) (r : A * bool) :
  r ∈ List.filter snd (zip l k)
  <-> exists i, l !! i = Some r.1 /\ k !! i = Some true /\ r.2 = true.
Proof.
  rewrite elem_of_filter_bool, list_elem_of_lookup. destruct r as [x b]. simpl. split.
  - intros [(i & Hi) ->]. apply lookup_zip_Some in Hi as [Hx Hk]. by exists i.
  - intros (i & Hx & Hk & ->). split; [|done]. exists i. by apply lookup_zip_Some.
Qed.

Lemma filterAvailable_next_elem `{Host} (vins : list jsstring) (batchLimit : nat)
    (answers : list bool) (s : Montaje.State) (v : jsstring) :
  v ∈ Montaje.bastidorOptions (filterAvailable_next vins batchLimit answers s)
  <-> (exists i u, (i < batchLimit)%nat /\ vins !! i = Some u
                   /\ answers !! i = Some true /\ v = toUpperCase u)
      \/ (exists i u, (batchLimit <= i)%nat /\ vins !! i = Some u
                      /\ v = toUpperCase u).
Proof.
  unfold filterAvailable_next. simpl.
  rewrite keepFirst_elem, elem_of_app, !list_elem_of_In, !in_map_iff.
  split.
  - intros [(r & <- & Hr)|(u & <- & Hu)].
    + apply list_elem_of_In, kept_elem in Hr as (i & Hi & Hk & _).
      apply lookup_take_Some in Hi as [Hi Hlt]. left. by exists i, r.1.
    + apply list_elem_of_In, list_elem_of_lookup in Hu as (i & Hi).
      rewrite lookup_drop in Hi. right. exists (batchLimit + i)%nat, u.
      split; [lia|done].
  - intros [(i & u & Hlt & Hi & Hk & ->)|(i & u & Hle & Hi & ->)].
    + left. exists (u, true). split; [done|].
      apply list_elem_of_In, kept_elem. exists i. simpl.
      split; [by apply lookup_take_Some|done].
    + right. exists u. split; [done|].
      apply list_elem_of_In, list_elem_of_lookup. exists (i - batchLimit)%nat.
      rewrite lookup_drop. by replace (batchLimit + (i - batchLimit))%nat with i by lia.
Qed.

(** X21. [filterAvailableInMontaje(vins, batchLimit)] once the requests have
    ended. When no VIN falls within the limit (an empty list, or a limit of
    0) no request is made, [forkJoin] never answers and the screen stays as
    it was, the options included. Otherwise the options are replaced: a VIN
    is offered exactly when it is the upper-cased form of one of the first
    [batchLimit] VINs whose request answered "available", or of any VIN
    beyond the limit (those are offered unchecked); no option occurs twice,
    and nothing else of the screen changes. *)
Theorem filterAvailable_options (H : Host) (vins : list jsstring) (batchLimit : nat)
    (answers : list bool) (s : Montaje.State) :
  let s' := filterAvailableInMontaje vins batchLimit answers s in
  (take batchLimit vins = [] -> s' = s)
  /\ (take batchLimit vins <> [] ->
      (forall v, v ∈ Montaje.bastidorOptions s'
         <-> (exists i u, (i < batchLimit)%nat /\ vins !! i = Some u
                          /\ answers !! i = Some true /\ v = toUpperCase u)
             \/ (exists i u, (batchLimit <= i)%nat /\ vins !! i = Some u
                             /\ v = toUpperCase u))
      /\ NoDup (Montaje.bastidorOptions s')
      /\ s' = Montaje.set_bastidorOptions (Montaje.bastidorOptions s') s).
Proof.
  simpl. unfold filterAvailableInMontaje.
  destruct (take batchLimit vins) as [|x t] eqn:Ht.
  - split; [done|]. by intros Hne.
  - split; [by intros Hnil|]. intros _. split; [|split].
    + intros v. apply filterAvailable_next_elem.
    + apply keepFirst_NoDup.
    + done.
Qed.

(** The theorem on two VINs within the limit, the first taken, the second
    free: the second is offered; and on the same VINs with a limit of 0:
    the screen stays as it was. *)
Lemma filterAvailable_options_witness :
  js "WBA3A5C50DF12345X"
    ∈ Montaje.bastidorOptions
        (@filterAvailableInMontaje latinHost
           [js "1HGCM82633A004352"; js "WBA3A5C50DF12345X"] 100 [false; true]
           montaje_working)
  /\ @filterAvailableInMontaje latinHost
       [js "1HGCM82633A004352"; js "WBA3A5C50DF12345X"] 0 [] montaje_working
     = montaje_working.
Proof.
  split.
  - destruct (filterAvailable_options latinHost
                [js "1HGCM82633A004352"; js "WBA3A5C50DF12345X"] 100 [false; true]
                montaje_working) as [_ Hsome].
    destruct (Hsome ltac:(discriminate)) as (Hin & _).
    apply Hin. left. exists 1%nat, (js "WBA3A5C50DF12345X").
    split; [lia|]. split; [reflexivity|]. split; [reflexivity|].
    vm_compute. reflexivity.
  - destruct (filterAvailable_options latinHost
                [js "1HGCM82633A004352"; js "WBA3A5C50DF12345X"] 0 []
                montaje_working) as [Hnone _].
    exact (Hnone eq_refl).
Defined.

Lemma testVin17_AZ09 (v : jsstring) : testVin17 v = true -> forallb isAZ09 v = true.
Proof. unfold testVin17. by intros [_ ?]%andb_true_iff. Qed.

Lemma map_fixed {A} (f : A -> A) (l : list A) :
  (forall x, x ∈ l -> f x = x) -> List.map f l = l.
Proof.
  intros Hf. rewrite <- (map_id l) at 2. apply map_ext_in.
  intros x Hx%list_elem_of_In. by apply Hf.
Qed.

(** X22. From the response of the VIN service to the options of Montaje, on
    a host whose [toUpperCase] is the Basic Latin one on Basic Latin text:
    with no valid VIN in the response the options stay as they were;
    otherwise the options are, in the order of the service list, the VINs
    among its first 100 whose request answered "available", followed by all
    the VINs beyond the first 100. Every option is 17 code units of
    [A-Z0-9] and no option occurs twice. *)
Theorem bastidores_next_options (H : Host) (HL : HostLaws H)
    (resp : list (option jsstring)) (answers : list bool) (s : Montaje.State) :
  let vins := getBastidoresChasis resp in
  let s' := bastidores_next vins answers s in
  Montaje.bastidorOptions s'
  = match vins with
    | [] => Montaje.bastidorOptions s
    | _ :: _ => List.map fst (List.filter snd (zip (take 100 vins) answers))
                ++ drop 100 vins
    end
  /\ (vins <> [] -> Forall (fun v => testVin17 v = true) (Montaje.bastidorOptions s')
                    /\ NoDup (Montaje.bastidorOptions s')).
Proof.
  intros vins s'.
  pose proof (fun v => getBastidoresChasis_elem resp v) as Helem.
  pose proof (getBastidoresChasis_NoDup resp) as Hnd.
  fold vins in Helem, Hnd.
  assert (forall v, v ∈ vins -> toUpperCase v = v) as Hup.
  { intros v Hv. apply toUpperCase_AZ09, testVin17_AZ09. by apply Helem. }
  assert (upperUnique vins = vins) as Hu.
  { unfold upperUnique. rewrite (map_fixed _ _ Hup). by apply keepFirst_fixed. }
  assert (List.map fst (List.filter snd (zip (take 100 vins) answers)) ++ drop 100 vins
          `sublist_of` vins) as Hsub.
  { rewrite <- (take_drop 100 vins) at 3. apply sublist_app; [|done]. apply kept_sublist. }
  assert (vins <> [] ->
          Montaje.bastidorOptions s'
          = List.map fst (List.filter snd (zip (take 100 vins) answers)) ++ drop 100 vins)
    as Heq.
  { intros Hne. subst s'. unfold bastidores_next, filterAvailableInMontaje. rewrite Hu.
    destruct (take 100 vins) as [|x t] eqn:Ht.
    { destruct vins; [done|discriminate]. }
    rewrite <- Ht in *. unfold filterAvailable_next. simpl.
    replace (List.map (fun r : jsstring * bool => toUpperCase r.1)
               (List.filter snd (zip (take 100 vins) answers)))
      with (List.map fst (List.filter snd (zip (take 100 vins) answers))).
    - rewrite (map_fixed toUpperCase (drop 100 vins)).
      + apply keepFirst_fixed. by apply sublist_NoDup with vins.
      + intros v Hv. apply Hup. by apply (elem_of_sublist _ _ _ Hv (sublist_drop vins 100)).
    - apply map_ext_in. intros [v b] Hr%list_elem_of_In. simpl. symmetry. apply Hup.
      apply kept_elem in Hr as (i & Hi & _). simpl in Hi.
      apply lookup_take_Some in Hi as [Hi _]. by apply list_elem_of_lookup_2 with i. }
  split.
  - destruct vins as [|x t] eqn:Hv; [done|]. by apply Heq.
  - intros Hne. rewrite (Heq Hne). split.
    + apply Forall_forall. intros v Hv. apply Helem.
      by apply (elem_of_sublist _ _ _ Hv Hsub).
    + by apply sublist_NoDup with vins.
Qed.

(** The theorem on the Basic Latin host and the sample response, the first
    VIN of the service list taken, the second free: one option is left. *)
Lemma bastidores_next_options_witness :
  Montaje.bastidorOptions
    (@bastidores_next latinHost (@getBastidoresChasis latinHost vin_response)
       [false; true] montaje_empty)
  = [js "WBA3A5C50DF12345X"].
Proof.
  destruct (bastidores_next_options latinHost latinHost_laws vin_response [false; true]
              montaje_empty) as [He _].
  rewrite He. vm_compute. reflexivity.
Defined.

(** ** The colour options of Premontaje and Montaje *)

Lemma truthyStr_nonempty (s : jsstring) : truthyStr s = true <-> s <> [].
Proof. by destruct s. Qed.

Lemma colorLoop_sound `{Host} (seen : gset jsstring) (db : list jsstring) (c : ColorOption) :
  c ∈ colorLoop seen db ->
  (toUpperCase (co_value c) ∉ seen) /\ co_value c <> []
  /\ co_label c = toLabel (co_value c)
  /\ exists raw, raw ∈ db /\ co_value c = trim raw.
Proof.
  revert seen. induction db as [|raw db IH]; intros seen; simpl.
  { by intros ?%elem_of_nil. }
  assert (forall seen', c ∈ colorLoop seen' db -> seen ⊆ seen' ->
            (toUpperCase (co_value c) ∉ seen) /\ co_value c <> []
            /\ co_label c = toLabel (co_value c)
            /\ exists r, r ∈ raw :: db /\ co_value c = trim r) as Hrest.
  { intros seen' Hc Hsub. destruct (IH _ Hc) as (Hn & Hv & Hl & r & Hr & Hcr).
    repeat split; [|done|done|].
    - intros Hin. apply Hn. by apply Hsub.
    - exists r. split; [by right|done]. }
  destruct (truthyStr (trim raw)) eqn:Ht; simpl; [|by intros Hc; apply (Hrest seen)].
  case_bool_decide as Hk; [by intros Hc; apply (Hrest seen)|].
  intros [->|Hc]%elem_of_cons.
  - simpl. repeat split; [done|by apply truthyStr_nonempty|].
    exists raw. split; [by left|done].
  - apply (Hrest _ Hc). apply union_subseteq_r.
Qed.

Lemma colorLoop_NoDup `{Host} (seen : gset jsstring) (db : list jsstring) :
  NoDup (List.map (fun c => toUpperCase (co_value c)) (colorLoop seen db)).
Proof.
  revert seen. induction db as [|raw db IH]; intros seen; simpl; [constructor|].
  destruct (truthyStr (trim raw)); simpl; [|apply IH].
  case_bool_decide; [apply IH|]. simpl. apply NoDup_cons. split; [|apply IH].
  rewrite list_elem_of_In, in_map_iff. intros (c & Hk & Hc%list_elem_of_In).
  apply colorLoop_sound in Hc as (Hn & _). apply Hn. rewrite Hk.
  apply elem_of_union. left. by apply elem_of_singleton.
Qed.

Lemma colorLoop_complete `{Host} (seen : gset jsstring) (db : list jsstring) (raw : jsstring) :
  raw ∈ db -> trim raw <> [] ->
  toUpperCase (trim raw) ∈ seen
  \/ exists c, c ∈ colorLoop seen db
               /\ toUpperCase (co_value c) = toUpperCase (trim raw).
Proof.
  revert seen. induction db as [|r db IH]; intros seen Hr Hne; simpl.
  { by apply elem_of_nil in Hr. }
  apply elem_of_cons in Hr as [->|Hr].
  - rewrite (proj2 (truthyStr_nonempty _) Hne). simpl.
    case_bool_decide; [by left|]. right. eexists. split; [by left|done].
  - destruct (truthyStr (trim r)) eqn:Ht; simpl; [|by apply IH].
    case_bool_decide; [by apply IH|].
    destruct (IH ({[toUpperCase (trim r)]} ∪ seen) Hr Hne) as [Hin|(c & Hc & Hk)].
    + apply elem_of_union in Hin as [Hin%elem_of_singleton|Hin]; [|by left].
      right. eexists. split; [by left|]. done.
    + right. exists c. split; [by right|done].
Qed.

(** X23. The colour options built from the colour list of Pintura (the loop
    of [cargarColoresDesdePintura], the options of Montaje after it): every
    option has a non-empty value that is the trimmed form of an entry of the
    list, and the label made from that value; no two options have the same
    upper-cased value; and every non-blank entry of the list is represented
    by an option with its upper-cased value. *)
Theorem colour_options_loaded (H : Host) (dbColors : list jsstring) (s : Montaje.State) :
  let opts := Montaje.colorOptions (montaje_colores_next dbColors s) in
  opts = colorLoop ∅ dbColors
  /\ Forall (fun c => co_value c <> [] /\ co_label c = toLabel (co_value c)
                      /\ exists raw, raw ∈ dbColors /\ co_value c = trim raw) opts
  /\ NoDup (List.map (fun c => toUpperCase (co_value c)) opts)
  /\ (forall raw, raw ∈ dbColors -> trim raw <> [] ->
        exists c, c ∈ opts /\ toUpperCase (co_value c) = toUpperCase (trim raw)).
Proof.
  simpl. split; [done|]. split; [|split].
  - apply Forall_forall. intros c Hc. by apply colorLoop_sound in Hc as (_ & ? & ? & ?).
  - apply colorLoop_NoDup.
  - intros raw Hr Hne.
    destruct (colorLoop_complete ∅ dbColors raw Hr Hne) as [Hin|Hc]; [|done].
    by apply elem_of_empty in Hin.
Qed.

Lemma colorExists_spec `{Host} (val : jsstring) (opts : list ColorOption) :
  colorExists val opts = true
  <-> exists c, c ∈ opts
      /\ (toUpperCase (co_value c) = toUpperCase val
          \/ toLowerCase (co_label c) = toLowerCase val).
Proof.
  unfold colorExists. rewrite existsb_exists. split.
  - intros (c & Hc%list_elem_of_In & Hp). exists c. split; [done|].
    apply orb_true_iff in Hp as [Hp|Hp]; apply bool_decide_eq_true in Hp;
      [by left|by right].
  - intros (c & Hc%list_elem_of_In & Hp). exists c. split; [done|].
    apply orb_true_iff. destruct Hp as [Hp|Hp]; [left|right]; by apply bool_decide_eq_true.
Qed.

Lemma colorExists_Permutation `{Host} (val : jsstring) (a b : list ColorOption) :
  a ≡ₚ b -> colorExists val a = colorExists val b.
Proof.
  intros Hab. apply eq_true_iff_eq. rewrite !colorExists_spec.
  split; intros (c & Hc & Hp); exists c; (split; [|done]).
  - by rewrite <- Hab.
  - by rewrite Hab.
Qed.

(** X24. [pushColorIfMissing] (sorting afterwards as Premontaje does, or not
    as Montaje does) keeps every option there was and adds at most the
    trimmed value with its label; it keeps the options free of empty values
    and free of two options with the same upper-cased value; after it a
    non-blank colour is matched by an option (by value or by label); and
    pushing the same colour a second time changes nothing. *)
Theorem pushColorIfMissing_invariant (H : Host) (sorted : bool) (raw : jsstring)
    (opts : list ColorOption) :
  let opts' := pushColorIfMissing sorted raw opts in
  (opts' = opts \/ opts' ≡ₚ opts ++ [mkColor (toLabel (trim raw)) (trim raw)])
  /\ (forall c, c ∈ opts -> c ∈ opts')
  /\ (Forall (fun c => co_value c <> []) opts -> Forall (fun c => co_value c <> []) opts')
  /\ (NoDup (List.map (fun c => toUpperCase (co_value c)) opts) ->
      NoDup (List.map (fun c => toUpperCase (co_value c)) opts'))
  /\ (trim raw <> [] -> colorExists (trim raw) opts' = true)
  /\ pushColorIfMissing sorted raw opts' = opts'.
Proof.
  simpl.
  destruct (truthyStr (trim raw)) eqn:Ht.
  2: { assert (forall l, pushColorIfMissing sorted raw l = l) as Hid.
       { intros l. unfold pushColorIfMissing. by rewrite Ht. }
       rewrite !Hid. repeat split; try done; [by left|].
       intros Hne. apply truthyStr_nonempty in Hne. by rewrite Hne in Ht. }
  destruct (colorExists (trim raw) opts) eqn:He.
  { assert (pushColorIfMissing sorted raw opts = opts) as Hid.
    { unfold pushColorIfMissing. by rewrite Ht, He. }
    rewrite !Hid. repeat split; try done. by left. }
  set (new := mkColor (toLabel (trim raw)) (trim raw)).
  set (opts' := pushColorIfMissing sorted raw opts).
  assert (opts' ≡ₚ opts ++ [new]) as Hp.
  { subst opts'. unfold pushColorIfMissing. rewrite Ht, He. simpl.
    destruct sorted; [apply sortBy_Permutation|done]. }
  assert (colorExists (trim raw) opts' = true) as He'.
  { rewrite (colorExists_Permutation _ _ _ Hp). apply colorExists_spec.
    exists new. split; [|by left]. apply elem_of_app. right. by left. }
  split; [by right|]. split; [|split; [|split; [|split]]].
  - intros c Hc. rewrite Hp. apply elem_of_app. by left.
  - intros Hall. rewrite Hp. apply Forall_app. split; [done|].
    apply List.Forall_cons; [|apply List.Forall_nil]. by apply truthyStr_nonempty.
  - intros Hnd. rewrite (Permutation_map _ Hp), map_app. simpl.
    apply NoDup_app. split; [done|]. split; [|apply NoDup_singleton].
    intros k Hk ->%list_elem_of_singleton.
    apply list_elem_of_In, in_map_iff in Hk as (c & Hk & Hc%list_elem_of_In).
    assert (colorExists (trim raw) opts = true) as Hex; [|by rewrite Hex in He].
    apply colorExists_spec. exists c. split; [done|]. by left.
  - done.
  - unfold pushColorIfMissing at 1. by rewrite Ht, He'.
Qed.

Lemma findColor_Some `{Host} (c : jsstring) (opts : list ColorOption) (o : ColorOption) :
  findColor c opts = Some o -> o ∈ opts /\ toUpperCase (co_value o) = toUpperCase c.
Proof.
  unfold findColor. intros [Ho Hp]%find_some.
  split; [by apply list_elem_of_In|by apply bool_decide_eq_true in Hp].
Qed.

(** X25. Restoring a stored colour [c] in Premontaje and in Montaje (the
    colour step of [applyPendingIfReady], and in Montaje also the colour
    that Pintura gave to the VIN): the colour selected afterwards equals [c]
    up to case; it is either an option of the list, shown with the label of
    that option, or [c] itself with the label made from it; the sections
    are not touched. *)
Theorem restoreColor_selects_stored_colour (H : Host) (c : jsstring)
    (ps : Premontaje.State) (ms : Montaje.State) :
  let ps' := Premontaje.restoreColor c ps in
  let ms' := Montaje.restoreColor c ms in
  toUpperCase (Premontaje.vehicleColorHex ps') = toUpperCase c
  /\ ((exists o, o ∈ Premontaje.colorOptions ps'
                 /\ Premontaje.vehicleColorHex ps' = co_value o
                 /\ Premontaje.vehicleColorName ps' = co_label o)
      \/ Premontaje.vehicleColorHex ps' = c
         /\ Premontaje.vehicleColorName ps' = toLabel c)
  /\ Premontaje.sections ps' = Premontaje.sections ps
  /\ toUpperCase (Montaje.vehicleColorHex ms') = toUpperCase c
  /\ ((exists o, o ∈ Montaje.colorOptions ms'
                 /\ Montaje.vehicleColorHex ms' = co_value o
                 /\ Montaje.vehicleColorName ms' = co_label o)
      \/ Montaje.vehicleColorHex ms' = c
         /\ Montaje.vehicleColorName ms' = toLabel c)
  /\ Montaje.sections ms' = Montaje.sections ms
  /\ Montaje.bastidorOptions ms' = Montaje.bastidorOptions ms.
Proof.
  simpl. unfold Premontaje.restoreColor, Montaje.restoreColor. simpl.
  destruct (findColor c (pushColorIfMissing true c (Premontaje.colorOptions ps)))
    as [o|] eqn:Hp;
  destruct (findColor c (pushColorIfMissing false c (Montaje.colorOptions ms)))
    as [o'|] eqn:Hm; simpl;
  try (apply findColor_Some in Hp as [Hpo Hpk]);
  try (apply findColor_Some in Hm as [Hmo Hmk]);
  repeat split; try done;
  try (left; eexists; by repeat split);
  try (by right).
Qed.

(** ** Resuming in Montaje without typing a VIN *)

(** X26. The auto-resume of Montaje on the list of the user's pending
    records: either nothing happens, or the record taken is one of the list,
    of Montaje and with a non-blank VIN; the upper-cased, trimmed VIN is not
    empty, becomes the selection and the query, and the only request sent
    asks for the pending record of that VIN and this user. Every option
    there was is kept, the VIN (or its upper-cased form) is among the
    options afterwards, and the sections are not touched. *)
Theorem montaje_autoResume_selects (H : Host) (items : list PendingItem) (s : Montaje.State) :
  let r := montaje_autoResume_next items s in
  r = (s, [])
  \/ exists mine,
       let vin := trim (toUpperCase (orEmpty (pi_bastidor mine))) in
       mine ∈ items /\ pi_area_key mine = montaje
       /\ trim (orEmpty (pi_bastidor mine)) <> [] /\ vin <> []
       /\ r.2 = [GetPendiente montaje vin (Montaje.userId s)]
       /\ Montaje.selectedBastidor r.1 = vin /\ Montaje.vinQuery r.1 = vin
       /\ (forall v, v ∈ Montaje.bastidorOptions s -> v ∈ Montaje.bastidorOptions r.1)
       /\ (vin ∈ Montaje.bastidorOptions r.1
           \/ toUpperCase vin ∈ Montaje.bastidorOptions r.1)
       /\ Montaje.sections r.1 = Montaje.sections s
       /\ Montaje.userId r.1 = Montaje.userId s.
Proof.
  simpl. unfold montaje_autoResume_next.
  destruct (List.find _ items) as [mine|] eqn:Hf; [|by left].
  apply find_some in Hf as [Hin Hp]. apply andb_true_iff in Hp as [Ha Hb].
  apply bool_decide_eq_true in Ha. apply Nat.ltb_lt in Hb.
  destruct (truthyStr (trim (toUpperCase (orEmpty (pi_bastidor mine))))) eqn:Ht; simpl;
    [|by left].
  right. exists mine. simpl.
  split; [by apply list_elem_of_In|]. split; [done|].
  split; [by destruct (trim (orEmpty (pi_bastidor mine))); [simpl in Hb; lia|]|].
  split; [by apply truthyStr_nonempty|].
  unfold Montaje.inDbList.
  case_bool_decide as Hdb; simpl; repeat split; try done.
  - by right.
  - intros v Hv. apply keepFirst_elem, elem_of_app. by left.
  - left. apply keepFirst_elem, elem_of_app. right. by left.
Qed.

(** ** Leaving Premontaje and Montaje through the dialog *)

(** X27. Premontaje, leaving while a colour is chosen: the dialog opens and
    nothing is navigated or sent. "Save and leave" then sends exactly one
    request that stores the progress (an update of the pending record when
    there is one, else a start; with no user it navigates at once); when
    the request ends, in success or in failure, the screen is cleared and
    the navigation is the one asked for, as it is for "leave without
    saving"; "cancel" closes the dialog with the screen untouched. *)
Theorem premontaje_leave_dialog (H : Host) (s : PremontajeLeave.State)
    (target : LeaveTarget) :
  PremontajeLeave.shouldPromptOnLeave s = true ->
  let s1 := (PremontajeLeave.tryLeave target s).1 in
  let go := List.map PremontajeLeave.Nav (leaveNow target) in
  (PremontajeLeave.tryLeave target s).2 = []
  /\ PremontajeLeave._showLeaveModal s1 = true
  /\ PremontajeLeave.screen s1 = PremontajeLeave.screen s
  /\ ((PremontajeLeave.confirmSaveAndLeave s1).2 = go
      /\ truthyNum (Premontaje.userId (PremontajeLeave.screen s)) = false
      \/ (exists id,
            Premontaje._pendingId (PremontajeLeave.screen s) = Some id /\ id <> 0
            /\ PremontajeLeave.confirmSaveAndLeave s1
               = (s1, [PremontajeLeave.Save
                         (ActualizarTarea premontaje id
                            (PremontajeLeave.savePatch (PremontajeLeave.screen s)))]))
      \/ (truthyId (Premontaje._pendingId (PremontajeLeave.screen s)) = false
          /\ PremontajeLeave.confirmSaveAndLeave s1
             = (s1, [PremontajeLeave.Save
                       (IniciarTarea (PremontajeLeave.saveDto (PremontajeLeave.screen s)))])))
  /\ PremontajeLeave.save_done s1
     = (PremontajeLeave.mkState (Premontaje.clearAll (PremontajeLeave.screen s)) false
          (Some target), go)
  /\ PremontajeLeave.confirmLeaveWithoutSaving s1
     = (PremontajeLeave.mkState (Premontaje.clearAll (PremontajeLeave.screen s)) false
          (Some target), go)
  /\ PremontajeLeave.cancelLeave s1
     = PremontajeLeave.mkState (PremontajeLeave.screen s) false None.
Proof.
  intros Hp. unfold PremontajeLeave.tryLeave. rewrite Hp. simpl.
  unfold PremontajeLeave.shouldPromptOnLeave in Hp.
  repeat split.
  unfold PremontajeLeave.confirmSaveAndLeave. simpl. rewrite Hp. simpl.
  destruct (truthyNum (Premontaje.userId (PremontajeLeave.screen s))) eqn:Hu; simpl;
    [|by left].
  right. destruct (Premontaje._pendingId (PremontajeLeave.screen s)) as [id|] eqn:Hid.
  - destruct (truthyId (Some id)) eqn:Ht.
    + left. exists id. repeat split.
      intros ->. by vm_compute in Ht.
    + right. done.
  - right. done.
Qed.

(** The theorem on the sample with one task open and no pending record,
    leaving for the log-out: one start request is sent and, when it ends,
    the session is removed and the log-in page opened. *)
Lemma premontaje_leave_dialog_witness :
  (exists dto,
     (@PremontajeLeave.confirmSaveAndLeave latinHost
        (PremontajeLeave.tryLeave toLogout
           (PremontajeLeave.mkState premontaje_one_open false None)).1).2
     = [PremontajeLeave.Save (IniciarTarea dto)])
  /\ (PremontajeLeave.save_done
        (PremontajeLeave.tryLeave toLogout
           (PremontajeLeave.mkState premontaje_one_open false None)).1).2
     = [PremontajeLeave.Nav RemoveSession; PremontajeLeave.Nav NavigateLogin].
Proof.
  destruct (premontaje_leave_dialog latinHost
              (PremontajeLeave.mkState premontaje_one_open false None) toLogout eq_refl)
    as (_ & _ & _ & Hs & Hd & _).
  split.
  - destruct Hs as [[_ Hu]|[(id & Hid & _)|[_ Hs]]].
    + vm_compute in Hu. discriminate.
    + vm_compute in Hid. discriminate.
    + eexists. rewrite Hs. reflexivity.
  - rewrite Hd. reflexivity.
Defined.

(** X28. Montaje, leaving while a colour is chosen and an accepted VIN is
    selected: the dialog opens and nothing is navigated or sent. "Save and
    leave" then sends one start request for Montaje that carries the user,
    the selected VIN, the chosen colour, no RAL and, for every label, the
    flag of the last task with that label (with no user it navigates at
    once). A successful save and "leave without saving" clear the screen, a
    failed save keeps it; in all three cases the navigation is the one asked
    for. *)
Theorem montaje_leave_dialog (s : MontajeLeave.State) (target : LeaveTarget) :
  MontajeLeave.shouldPromptOnLeave s = true ->
  let s1 := (MontajeLeave.tryLeave target s).1 in
  let go := List.map MontajeLeave.Nav (leaveNow target) in
  (MontajeLeave.tryLeave target s).2 = []
  /\ MontajeLeave._showLeaveModal s1 = true
  /\ MontajeLeave.screen s1 = MontajeLeave.screen s
  /\ ((exists dto,
         MontajeLeave.confirmSaveAndLeave s1 = (s1, [MontajeLeave.SaveIniciar dto])
         /\ dto_usuario_id dto = Montaje.userId (MontajeLeave.screen s)
         /\ dto_area dto = montaje
         /\ dto_bastidor dto = Some (Montaje.selectedBastidor (MontajeLeave.screen s))
         /\ dto_color dto = Some (Montaje.vehicleColorHex (MontajeLeave.screen s))
         /\ dto_RAL dto = None
         /\ forall l,
              dto_checks dto !! l
              = if bool_decide (l = js "__proto__") then None
                else labelEntry
                       (flat_map tasks (Montaje.sections (MontajeLeave.screen s))) l)
      \/ truthyNum (Montaje.userId (MontajeLeave.screen s)) = false
         /\ MontajeLeave.confirmSaveAndLeave s1
            = (MontajeLeave.mkState (MontajeLeave.screen s) false (Some target), go))
  /\ MontajeLeave.save_next s1
     = (MontajeLeave.mkState (Montaje.clearAll (MontajeLeave.screen s)) false
          (Some target), go)
  /\ MontajeLeave.save_error s1
     = (MontajeLeave.mkState (MontajeLeave.screen s) false (Some target), go)
  /\ MontajeLeave.confirmLeaveWithoutSaving s1
     = (MontajeLeave.mkState (Montaje.clearAll (MontajeLeave.screen s)) false
          (Some target), go).
Proof.
  intros Hp. unfold MontajeLeave.tryLeave. rewrite Hp. simpl.
  unfold MontajeLeave.shouldPromptOnLeave in Hp.
  apply andb_true_iff in Hp as [Hp Hok]. apply andb_true_iff in Hp as [Hc Hv].
  split; [done|]. split; [done|]. split; [done|]. split; [|done].
  unfold MontajeLeave.confirmSaveAndLeave. simpl. rewrite Hc, Hv, Hok. simpl.
  destruct (truthyNum (Montaje.userId (MontajeLeave.screen s))) eqn:Hu; simpl.
  - left. exists (MontajeLeave.saveDto (MontajeLeave.screen s)).
    split; [done|]. repeat split.
    intros l. apply checksByLabel_lookup.
  - right. done.
Qed.

(** The theorem on the sample at work, leaving for the log-out: the start
    request carries the VIN and marks the task "Montar faro" as done; after
    the failed save the session is removed and the log-in page opened. *)
Lemma montaje_leave_dialog_witness :
  (exists dto,
     (MontajeLeave.confirmSaveAndLeave
        (MontajeLeave.tryLeave toLogout
           (MontajeLeave.mkState montaje_working false None)).1).2
     = [MontajeLeave.SaveIniciar dto]
     /\ dto_bastidor dto = Some (js "WBA3A5C50DF12345X")
     /\ dto_checks dto !! js "Montar faro" = Some true)
  /\ (MontajeLeave.save_error
        (MontajeLeave.tryLeave toLogout
           (MontajeLeave.mkState montaje_working false None)).1).2
     = [MontajeLeave.Nav RemoveSession; MontajeLeave.Nav NavigateLogin].
Proof.
  destruct (montaje_leave_dialog
              (MontajeLeave.mkState montaje_working false None) toLogout
              ltac:(vm_compute; reflexivity))
    as (_ & _ & _ & Hs & _ & He & _).
  split.
  - destruct Hs as [(dto & Hc & _ & _ & Hb & _ & _ & Hl)|[Hu _]].
    + exists dto. split; [by rewrite Hc|]. split; [exact Hb|].
      rewrite Hl. vm_compute. reflexivity.
    + vm_compute in Hu. discriminate.
  - rewrite He. reflexivity.
Defined.

(** X29. On the four screens the save dialog is offered only when there is
    progress in the sense of [hasProgress]: whenever leaving prompts, a task
    is checked or a colour or a VIN is filled in. *)
Theorem prompt_only_with_progress (ps : PinturaLeave.State) (cs : ChasisLeave.State)
    (qs : PremontajeLeave.State) (ms : MontajeLeave.State) :
  (PinturaLeave.shouldPromptOnLeave ps = true ->
   PinturaLeave.hasProgress (PinturaLeave.screen ps) = true)
  /\ (ChasisLeave.shouldPromptOnLeave cs = true ->
      ChasisLeave.hasProgress (ChasisLeave.screen cs) = true)
  /\ (PremontajeLeave.shouldPromptOnLeave qs = true ->
      PremontajeLeave.hasProgress (PremontajeLeave.screen qs) = true)
  /\ (MontajeLeave.shouldPromptOnLeave ms = true ->
      MontajeLeave.hasProgress (MontajeLeave.screen ms) = true).
Proof.
  repeat split.
  - unfold PinturaLeave.shouldPromptOnLeave, Pintura.colorInputsComplete,
      PinturaLeave.hasProgress.
    intros [Hc _]%andb_true_iff. rewrite Hc. by rewrite orb_true_r.
  - unfold ChasisLeave.shouldPromptOnLeave. by intros [? _]%andb_true_iff.
  - unfold PremontajeLeave.shouldPromptOnLeave, Premontaje.validColor,
      PremontajeLeave.hasProgress.
    intros ->. by rewrite orb_true_r.
  - unfold MontajeLeave.shouldPromptOnLeave, MontajeLeave.hasProgress.
    intros [[Hc _]%andb_true_iff _]%andb_true_iff. rewrite Hc. simpl.
    by rewrite orb_true_r.
Qed.
